(** * Hallucination detection and evaluation metrics: a shallow embedding

    This development models three modules of the repository,

    - [src/detection/hallucination_detector.py] (class [HallucinationDetector]),
    - [src/evaluation/metrics.py] (class [EvaluationMetrics]),
    - [src/models/llm_wrapper.py] ([RateLimiter] and [batch_generate]),

    as Rocq functions, and proves or refutes statements of the repository's
    specification about them.

    Modelling conventions.

    - Python [str] values are Rocq [string]s over the ASCII range; the
      character classes below ([isspace], [\w], [\d], [string.punctuation])
      are the ASCII restrictions of Python's.
    - Python [float] values are exact rationals ([Q]); numeric results are
      compared with [==] ([Qeq]).  The thresholds the code compares against
      ([0.6], [0.7], [0.3], [1.0]) are decimal literals; the model compares
      with them exactly, where the code compares the nearest binary64
      values.  The bin edges of the calibration are the exact fractions
      [j / num_bins].  The numbers that [float] reads from a text are the
      exception: they are compared for equality, so [float_of] rounds the
      decimal to binary64 ([float64]: a finite value, held exactly, or an
      infinity).
    - A [dict] is an association list in insertion order, because the code
      iterates over dictionaries and [Counter.most_common] breaks ties by
      first insertion.  A [set] of tokens is a [gset string].
    - A function that can raise returns [result]; [try]/[except Exception]
      is [try_except].  A function without a raising path is a total
      function.
    - The text-generation collaborator [self.llm] is a function from the
      number of the call and the prompt to the text returned or the
      exception raised, a subclass of [Exception]. *)

From Stdlib Require Import QArith Qabs Ascii Lqa.
From stdpp Require Import gmap strings list sorting.

Open Scope string_scope.

(** ** Python string primitives *)

Module PyStr.

Definition code (c : ascii) : N := N_of_ascii c.

Definition in_range (lo hi : N) (c : ascii) : bool :=
  ((lo <=? code c) && (code c <=? hi))%N.

(** [str.isspace] on ASCII: TAB, LF, VT, FF, CR, FS, GS, RS, US, SPACE. *)
Definition isspace (c : ascii) : bool := in_range 9 13 c || in_range 28 32 c.
(** [[A-Z]], [[a-z]], [[0-9]]. *)
Definition isupper (c : ascii) : bool := in_range 65 90 c.
Definition islower (c : ascii) : bool := in_range 97 122 c.
Definition isdigit (c : ascii) : bool := in_range 48 57 c.
(** [\w]: letters, digits and the underscore. *)
Definition isword (c : ascii) : bool :=
  isupper c || islower c || isdigit c || (code c =? 95)%N.
(** Membership in [string.punctuation]. *)
Definition ispunct (c : ascii) : bool :=
  in_range 33 47 c || in_range 58 64 c || in_range 91 96 c || in_range 123 126 c.

Definition lower_char (c : ascii) : ascii :=
  if isupper c then ascii_of_N (code c + 32) else c.

(** [s.lower()] *)
Fixpoint lower (s : string) : string :=
  match s with
  | EmptyString => EmptyString
  | String c r => String (lower_char c) (lower r)
  end.

Fixpoint lstrip (s : string) : string :=
  match s with
  | EmptyString => EmptyString
  | String c r => if isspace c then lstrip r else s
  end.

Fixpoint rstrip (s : string) : string :=
  match s with
  | EmptyString => EmptyString
  | String c r =>
      match rstrip r with
      | EmptyString => if isspace c then EmptyString else String c EmptyString
      | r' => String c r'
      end
  end.

(** [s.strip()] *)
Definition strip (s : string) : string := rstrip (lstrip s).

(** [s.translate(str.maketrans('', '', string.punctuation))] *)
Fixpoint remove_punctuation (s : string) : string :=
  match s with
  | EmptyString => EmptyString
  | String c r =>
      if ispunct c then remove_punctuation r else String c (remove_punctuation r)
  end.

(** [s.split()]: the maximal runs of non-whitespace characters.  [cur] is
    the run being read. *)
Fixpoint split_from (cur : string) (s : string) : list string :=
  match s with
  | EmptyString => match cur with EmptyString => [] | _ => [cur] end
  | String c r =>
      if isspace c
      then match cur with
           | EmptyString => split_from EmptyString r
           | _ => cur :: split_from EmptyString r
           end
      else split_from (cur +:+ String c EmptyString) r
  end.

Definition split (s : string) : list string := split_from EmptyString s.

(** [set(s.split())] *)
Definition token_set (s : string) : gset string := list_to_set (split s).

(** [sub in s] *)
Fixpoint contains (sub s : string) : bool :=
  String.prefix sub s
  || match s with
     | EmptyString => false
     | String _ r => contains sub r
     end.

(** *** Regular expressions

    A pattern is given by its matcher at one position: from the character
    before the position (for [\b]) and the text from the position on, the
    length of the match there, if any.  None of the three patterns of the
    detector matches the empty string. *)

Definition matcher : Type := option ascii → string → option nat.

(** [re.findall]: scan left to right; where the pattern matches, record
    the matched text and resume after it; elsewhere move one character
    on.  [skip] counts the characters of the last match still to pass. *)
Fixpoint findall_from (m : matcher) (skip : nat) (prev : option ascii)
    (s : string) : list string :=
  match s with
  | EmptyString => []
  | String c r =>
      match skip with
      | S k => findall_from m k (Some c) r
      | O =>
          match m prev s with
          | Some n => String.substring 0 n s :: findall_from m (pred n) (Some c) r
          | None => findall_from m 0 (Some c) r
          end
      end
  end.

Definition findall (m : matcher) (s : string) : list string :=
  findall_from m 0 None s.

Definition isword_at (c : option ascii) : bool :=
  match c with Some c => isword c | None => false end.

(** [\b] between [prev] and [next]: exactly one side is a word character. *)
Definition boundary (prev next : option ascii) : bool :=
  xorb (isword_at prev) (isword_at next).

Definition head (s : string) : option ascii :=
  match s with EmptyString => None | String c _ => Some c end.

Definition is_char (n : N) (c : ascii) : bool := (code c =? n)%N.

(** [\b(1[0-9]{3}|20[0-2][0-9])\b] *)
Definition year_pattern : matcher := fun prev s =>
  match s with
  | String a (String b (String c (String d rest))) =>
      if boundary prev (Some a)
         && ((is_char 49 a && isdigit b && isdigit c && isdigit d)
             || (is_char 50 a && is_char 48 b && in_range 48 50 c && isdigit d))
         && boundary (Some d) (head rest)
      then Some 4%nat else None
  | _ => None
  end.

(** Length of the longest prefix of [s] made of characters in [p]
    (a greedy [p*]). *)
Fixpoint run_length (p : ascii → bool) (s : string) : nat :=
  match s with
  | String c r => if p c then S (run_length p r) else O
  | EmptyString => O
  end.

Fixpoint drop (n : nat) (s : string) : string :=
  match n, s with
  | S k, String _ r => drop k r
  | _, _ => s
  end.

(** [-?\d+\.?\d*].  When a ["-"] is not followed by a digit the pattern
    fails at this position also without the optional sign, since then
    [\d+] faces the ["-"]. *)
Definition number_pattern : matcher := fun _ s =>
  let sign := match s with
              | String c _ => if is_char 45 c then 1%nat else 0%nat
              | EmptyString => 0%nat
              end in
  let s1 := drop sign s in
  let int_len := run_length isdigit s1 in
  match int_len with
  | O => None
  | S _ =>
      let s2 := drop int_len s1 in
      match s2 with
      | String c s3 =>
          if is_char 46 c
          then Some (sign + int_len + 1 + run_length isdigit s3)%nat
          else Some (sign + int_len)%nat
      | EmptyString => Some (sign + int_len)%nat
      end
  end.

(** [\b[A-Z][a-z]+(?:\s+[A-Z][a-z]+)*\b], read one character at a time.
    [n] characters are consumed so far; [committed] is the end of the last
    complete word after which [\b] holds because whitespace follows, the
    place the matcher backtracks to when a later word cannot be completed
    or is not followed by a boundary. *)
Inductive span_state := NeedLower | InLower | InSpace.

Fixpoint span_scan (st : span_state) (committed : option nat) (n : nat)
    (s : string) : option nat :=
  match s with
  | EmptyString => match st with InLower => Some n | _ => committed end
  | String c r =>
      match st with
      | NeedLower =>
          if islower c then span_scan InLower committed (S n) r else committed
      | InLower =>
          if islower c then span_scan InLower committed (S n) r
          else if isspace c then span_scan InSpace (Some n) (S n) r
          else if isword c then committed
          else Some n
      | InSpace =>
          if isspace c then span_scan InSpace committed (S n) r
          else if isupper c then span_scan NeedLower committed (S n) r
          else committed
      end
  end.

Definition capitalized_pattern : matcher := fun prev s =>
  match s with
  | String c r =>
      if boundary prev (Some c) && isupper c
      then span_scan NeedLower None 1 r
      else None
  | EmptyString => None
  end.

(** Value of a run of decimal digits. *)
Fixpoint digits_value (acc : Z) (s : string) : Z :=
  match s with
  | String c r =>
      if isdigit c then digits_value (10 * acc + Z.of_N (code c - 48)) r else acc
  | EmptyString => acc
  end.

(** [int(s)] for a string of decimal digits. *)
Definition int_of (s : string) : Z := digits_value 0 s.

(** A binary64 value as [float(s)] returns it for a decimal literal: a
    finite value, held exactly, or an infinity. *)
Inductive float64 :=
| Finite (q : Q)
| Infinity (negative : bool).

(** [a == b] on two such values. *)
Definition float64_eqb (a b : float64) : bool :=
  match a, b with
  | Finite x, Finite y => Qeq_bool x y
  | Infinity n, Infinity n' => Bool.eqb n n'
  | _, _ => false
  end.

(** [-a] *)
Definition float64_opp (a : float64) : float64 :=
  match a with
  | Finite x => Finite (Qopp x)
  | Infinity n => Infinity (negb n)
  end.

(** The integer nearest to [n / d], for [0 < d]; a tie goes to the even
    one. *)
Definition round_half_even (n d : Z) : Z :=
  let q := (n / d)%Z in
  let r := (n mod d)%Z in
  match (2 * r ?= d)%Z with
  | Lt => q
  | Gt => (q + 1)%Z
  | Eq => if Z.even q then q else (q + 1)%Z
  end.

(** The binary64 value nearest to [n / d], for [0 <= n] and [0 < d], the
    way [float] reads a decimal literal: the value is [m * 2 ^ e] with [m]
    of at most 53 bits and [e] at least [-1074], the nearest such value with
    ties to the even [m], and infinity from [2 ^ 1024] on.  [e0] is the
    exponent up to one, from the bit lengths of [n] and [d]. *)
Definition nearest_binary64 (n d : Z) : float64 :=
  if (n =? 0)%Z then Finite 0
  else
    let scaled e := if (0 <=? e)%Z then (n, d * 2 ^ e)%Z else (n * 2 ^ (- e), d)%Z in
    let e0 := (Z.log2 n - Z.log2 d - 52)%Z in
    let e1 := if (fst (scaled e0) <? 2 ^ 52 * snd (scaled e0))%Z then (e0 - 1)%Z else e0 in
    let e := Z.max e1 (-1074) in
    let m := round_half_even (fst (scaled e)) (snd (scaled e)) in
    if (0 <=? e)%Z
    then if (2 ^ 1024 <=? m * 2 ^ e)%Z then Infinity false
         else Finite (inject_Z (m * 2 ^ e))
    else Finite (Qred (Qmake m (Z.to_pos (2 ^ (- e))))).

(** [float(s)] for a literal matched by [number_pattern]: sign, integer
    part, optional point and fraction; the decimal value is rounded to
    binary64. *)
Definition float_of (s : string) : float64 :=
  let neg := match s with String c _ => is_char 45 c | EmptyString => false end in
  let s1 := if neg then drop 1 s else s in
  let int_len := run_length isdigit s1 in
  let frac := drop (S int_len) s1 in
  let frac_len := run_length isdigit frac in
  let scale := (10 ^ Z.of_nat frac_len)%Z in
  let mag := nearest_binary64 (digits_value 0 s1 * scale + digits_value 0 frac)%Z scale in
  if neg then float64_opp mag else mag.

End PyStr.

(** ** Exceptions, numbers and counters *)

Module Py.

(** The subclasses of [Exception] that occur: the two the metrics raise
    themselves or through a division, and whatever subclass of [Exception]
    the text-generation collaborator raises.  An exception outside
    [Exception] ([KeyboardInterrupt], [SystemExit]) is not a value of this
    type: no [except Exception] of the code catches it, and what is proved of
    a collaborator is proved of one whose calls return or raise a subclass of
    [Exception]. *)
Inductive exn :=
| ValueError (msg : string)
| ZeroDivisionError
| ProviderError (msg : string).

(** [str(e)] *)
Definition str_of (e : exn) : string :=
  match e with
  | ValueError msg => msg
  | ZeroDivisionError => "division by zero"
  | ProviderError msg => msg
  end.

Inductive result (A : Type) :=
| Ok (a : A)
| Raise (e : exn).
Arguments Ok {A} a.
Arguments Raise {A} e.

(** Sequencing: an exception raised by [m] passes through [k]. *)
#[global] Instance result_ret : MRet result := @Ok.
#[global] Instance result_bind : MBind result := fun A B k m =>
  match m with
  | Ok a => k a
  | Raise e => Raise e
  end.

(** [try: body  except Exception as e: handler(e)]; every value of [exn]
    is a subclass of [Exception] and is caught. *)
Definition try_except {A} (body : result A) (handler : exn → result A) : result A :=
  match body with
  | Ok a => Ok a
  | Raise e => handler e
  end.

Definition of_nat (n : nat) : Q := inject_Z (Z.of_nat n).

Definition Qltb (x y : Q) : bool := negb (Qle_bool y x).

Definition Qsum (l : list Q) : Q := foldr Qplus 0%Q l.

(** [np.mean(l)] for a non-empty [l]. *)
Definition mean (l : list Q) : Q := (Qsum l / of_nat (length l))%Q.

(** [sum(1 for x in l if p(x))], [sum(p(x) for x in l)] *)
Definition count {A} (p : A → bool) (l : list A) : nat :=
  length (List.filter p l).

(** [a / b] on two [int]s. *)
Definition div (a b : nat) : result Q :=
  match b with
  | O => Raise ZeroDivisionError
  | S _ => Ok (of_nat a / of_nat b)%Q
  end.

(** [d[k] = v] on a dictionary kept in insertion order. *)
Fixpoint setitem {V} (k : string) (v : V) (d : list (string * V)) : list (string * V) :=
  match d with
  | [] => [(k, v)]
  | (k', v') :: r =>
      if String.eqb k k' then (k', v) :: r else (k', v') :: setitem k v r
  end.

(** [d.get(k)] on a dictionary kept in insertion order. *)
Fixpoint getitem {V} (k : string) (d : list (string * V)) : option V :=
  match d with
  | [] => None
  | (k', v) :: r => if String.eqb k k' then Some v else getitem k r
  end.

(** [collections.Counter(l)], keys in order of first insertion. *)
Fixpoint counter_add (x : string) (c : list (string * nat)) : list (string * nat) :=
  match c with
  | [] => [(x, 1%nat)]
  | (y, n) :: r =>
      if String.eqb x y then (y, S n) :: r else (y, n) :: counter_add x r
  end.

Definition Counter (l : list string) : list (string * nat) :=
  fold_left (fun c x => counter_add x c) l [].

(** [c[k]] on a counter: the count of [k], zero for a missing key. *)
Definition count_of (c : list (string * nat)) (k : string) : nat :=
  default 0%nat (getitem k c).

(** [max(items, key=itemgetter(1))] keeps the first of the largest. *)
Fixpoint first_max (best : string * nat) (items : list (string * nat)) : string * nat :=
  match items with
  | [] => best
  | it :: r => first_max (if (snd best <? snd it)%nat then it else best) r
  end.

(** [c.most_common(1)]: a list of at most one pair. *)
Definition most_common_1 (c : list (string * nat)) : list (string * nat) :=
  match c with
  | [] => []
  | it :: r => [first_max it r]
  end.

End Py.

(** ** The detector: [src/detection/hallucination_detector.py] *)

Module HallucinationDetector.
Import PyStr.

(** Values stored in [evidence: Dict[str, Any]]. *)
#[warnings="-register-all"] Inductive value :=
| VNone
| VBool (b : bool)
| VInt (n : Z)
| VFloat (q : Q)
| VInf (negative : bool)
| VStr (s : string)
| VList (l : list value)
| VTuple (l : list value).

(** [@dataclass class HallucinationResult] *)
Record HallucinationResult := {
  is_hallucination : bool;
  confidence : Q;
  hallucination_type : option string;
  evidence : list (string * value);
  detection_method : string
}.

(** Truth value of an [Optional[str]]: neither [None] nor empty. *)
Definition truthy (t : option string) : bool :=
  match t with
  | Some s => negb (String.eqb s "")
  | None => false
  end.

(** [len(a & b) / len(a | b)], appended only [if union > 0]. *)
Definition pair_similarity (a b : gset string) : list Q :=
  let intersection := size (a ∩ b) in
  let union := size (a ∪ b) in
  if (0 <? union)%nat then [(Py.of_nat intersection / Py.of_nat union)%Q] else [].

(** The double loop [for i ...: for j in range(i + 1, ...)]. *)
Fixpoint similarities (token_sets : list (gset string)) : list Q :=
  match token_sets with
  | [] => []
  | a :: rest => flat_map (pair_similarity a) rest ++ similarities rest
  end.

Definition _calculate_agreement (responses : list string) : Q :=
  match responses with
  | [] => 0%Q
  | _ =>
      let counter := Py.Counter responses in
      let most_common_count :=
        match Py.most_common_1 counter with
        | (_, n) :: _ => n
        | [] => 0%nat
        end in
      let exact_agreement := (Py.of_nat most_common_count / Py.of_nat (length responses))%Q in
      let token_sets := map (fun r => token_set r) responses in
      let token_agreement :=
        if (1 <? length token_sets)%nat
        then match similarities token_sets with
             | [] => 0%Q
             | sims => Py.mean sims
             end
        else 1%Q in
      (0.5 * exact_agreement + 0.5 * token_agreement)%Q
  end.

(** A binary64 value as a value of the evidence. *)
Definition value_of_float64 (x : float64) : value :=
  match x with
  | Finite q => VFloat q
  | Infinity negative => VInf negative
  end.

(** [_extract_numbers] *)
Definition _extract_numbers (text : string) : list float64 :=
  let numbers := findall number_pattern text in
  map float_of
      (List.filter (fun n => negb (String.eqb n "") && negb (String.eqb n ".")) numbers).

(** [==] on two lists of floats. *)
Fixpoint float_list_eqb (a b : list float64) : bool :=
  match a, b with
  | [], [] => true
  | x :: a', y :: b' => float64_eqb x y && float_list_eqb a' b'
  | _, _ => false
  end.

Definition normalize (s : string) : string :=
  remove_punctuation (lower (strip s)).

Definition detect_factual_error (claim ground_truth : string) : HallucinationResult :=
  let claim_norm := normalize claim in
  let truth_norm := normalize ground_truth in
  let exact_match := String.eqb claim_norm truth_norm in
  let claim_tokens := token_set claim_norm in
  let truth_tokens := token_set truth_norm in
  if decide (truth_tokens = ∅) then
    {| is_hallucination := false;
       confidence := 0.0%Q;
       hallucination_type := None;
       evidence := [("error", VStr "Empty ground truth")];
       detection_method := "factual_verification" |}
  else
    let overlap :=
      (Py.of_nat (size (claim_tokens ∩ truth_tokens)) / Py.of_nat (size truth_tokens))%Q in
    let claim_numbers := _extract_numbers claim_norm in
    let truth_numbers := _extract_numbers truth_norm in
    let numerical_match :=
      match truth_numbers with
      | [] => true
      | _ => float_list_eqb claim_numbers truth_numbers
      end in
    let is_hallucination :=
      negb (exact_match || Qle_bool 1.0 overlap
            || (Py.Qltb 0.7 overlap && numerical_match)) in
    let hallucination_type :=
      if is_hallucination then
        if negb numerical_match then Some "numerical_error"
        else if Py.Qltb overlap 0.3 then Some "fabrication"
        else Some "factual_error"
      else None in
    {| is_hallucination := is_hallucination;
       confidence := (1.0 - overlap)%Q;
       hallucination_type := hallucination_type;
       evidence :=
         [("claim", VStr claim);
          ("ground_truth", VStr ground_truth);
          ("token_overlap", VFloat overlap);
          ("exact_match", VBool exact_match);
          ("numerical_match", VBool numerical_match);
          ("claim_numbers", VList (map value_of_float64 claim_numbers));
          ("truth_numbers", VList (map value_of_float64 truth_numbers))];
       detection_method := "factual_verification" |}.

Definition detect_entity_hallucination (text : string) (expected_entities : list string)
    : HallucinationResult :=
  let text_lower := lower text in
  let found_entities :=
    List.filter (fun entity => contains (lower entity) text_lower) expected_entities in
  let missing_entities :=
    List.filter (fun entity => negb (contains (lower entity) text_lower)) expected_entities in
  let potential_entities := findall capitalized_pattern text in
  let unexpected_entities :=
    List.filter (fun e => negb (bool_decide (e ∈ expected_entities))) potential_entities in
  let has_unexpected := (0 <? length unexpected_entities)%nat in
  let missing_expected := (0 <? length missing_entities)%nat in
  let is_hallucination :=
    has_unexpected || (missing_expected && (length found_entities =? 0)%nat) in
  {| is_hallucination := is_hallucination;
     confidence := if is_hallucination then 0.8%Q else 0.9%Q;
     hallucination_type := if is_hallucination then Some "entity_error" else None;
     evidence :=
       [("found_entities", VList (map VStr found_entities));
        ("missing_entities", VList (map VStr missing_entities));
        ("unexpected_entities", VList (map VStr (take 5 unexpected_entities)));
        ("expected_count", VInt (Z.of_nat (length expected_entities)));
        ("found_count", VInt (Z.of_nat (length found_entities)))];
     detection_method := "entity_verification" |}.

Definition option_value (o : option Z) : value :=
  match o with Some n => VInt n | None => VNone end.

Definition current_year : Z := 2025.

Definition detect_temporal_error (text : string) (context_year : option Z)
    : HallucinationResult :=
  let years := map int_of (findall year_pattern text) in
  match years with
  | [] =>
    {| is_hallucination := false;
       confidence := 0.0%Q;
       hallucination_type := None;
       evidence := [("note", VStr "No temporal references found")];
       detection_method := "temporal_verification" |}
  | _ =>
    let is_sorted := bool_decide (years = merge_sort Z.le years) in
    let future_years := List.filter (fun y => (current_year <? y)%Z) years in
    let context_mismatch :=
      match context_year with
      | Some cy =>
          if (cy =? 0)%Z then false
          else forallb (fun y => (10 <? Z.abs (y - cy))%Z) years
      | None => false
      end in
    let is_hallucination := (0 <? length future_years)%nat || context_mismatch in
    {| is_hallucination := is_hallucination;
       confidence := if is_hallucination then 0.9%Q else 0.7%Q;
       hallucination_type := if is_hallucination then Some "temporal_error" else None;
       evidence :=
         [("years_found", VList (map VInt years));
          ("chronologically_ordered", VBool is_sorted);
          ("future_years", VList (map VInt future_years));
          ("context_year", option_value context_year);
          ("context_mismatch", VBool context_mismatch)];
       detection_method := "temporal_verification" |}
  end.

(** [results.values()] of a [Dict[str, HallucinationResult]]. *)
Definition values (results : list (string * HallucinationResult)) : list HallucinationResult :=
  map snd results.

Definition aggregate_detection_results (results : list (string * HallucinationResult))
    : bool * Q * string :=
  match results with
  | [] => (false, 0.0%Q, "unknown")
  | _ =>
    let hallucination_votes := Py.count is_hallucination (values results) in
    let total_methods := length results in
    let confidences := map confidence (List.filter is_hallucination (values results)) in
    let avg_confidence :=
      match confidences with [] => 0.0%Q | _ => Py.mean confidences end in
    let is_hallucination :=
      Py.Qltb (Py.of_nat total_methods / 2) (Py.of_nat hallucination_votes) in
    let types :=
      omap hallucination_type
           (List.filter (fun r => truthy (hallucination_type r)) (values results)) in
    let primary_type :=
      match Py.most_common_1 (Py.Counter types) with
      | (t, _) :: _ => t
      | [] => "unknown"
      end in
    (is_hallucination, avg_confidence, primary_type)
  end.

(** The two methods that call the text-generation collaborator.
    [generate i prompt] is the outcome of the [i]-th call of
    [self.llm.generate(prompt, provider=..., temperature=...)] made by the
    method: the [text] of the response, or the subclass of [Exception]
    raised.  The provider and the temperature are passed through
    unchanged. *)
Section WithCollaborator.
Variable generate : nat → string → Py.result string.

(** The sampling loop, from its [i]-th iteration with [num] left. *)
Fixpoint sample (prompt : string) (i num : nat) (responses : list string)
    : Py.result (list string) :=
  match num with
  | O => mret responses
  | S k =>
      responses' ← Py.try_except
                     (text ← generate i prompt;
                      mret (responses ++ [lower (strip text)])%list)
                     (fun _ => mret responses);
      sample prompt (S i) k responses'
  end.

Definition threshold : Q := 0.6%Q.

Definition detect_self_consistency (prompt : string) (num_samples : nat)
    : Py.result HallucinationResult :=
  responses ← sample prompt 0 num_samples [];
  if (length responses <? 2)%nat then
    mret {| is_hallucination := true;
            confidence := 1.0%Q;
            hallucination_type := Some "generation_failed";
            evidence := [("error", VStr "Could not generate responses")];
            detection_method := "self_consistency" |}
  else
    let agreement_score := _calculate_agreement responses in
    let is_hallucination := Py.Qltb agreement_score threshold in
    mret {| is_hallucination := is_hallucination;
            confidence := (Qabs (agreement_score - threshold) / threshold)%Q;
            hallucination_type := if is_hallucination then Some "inconsistency" else None;
            evidence :=
              [("agreement_score", VFloat agreement_score);
               ("num_samples", VInt (Z.of_nat (length responses)));
               ("responses", VList (map VStr responses));
               ("most_common",
                match Py.most_common_1 (Py.Counter responses) with
                | (r, n) :: _ => VTuple [VStr r; VInt (Z.of_nat n)]
                | [] => VNone
                end)];
            detection_method := "self_consistency" |}.

Definition contradiction_prompt (text : string) : string :=
  String "010" "Analyze the following text for internal contradictions or inconsistencies."
  +:+ String "010" "If you find contradictions, list them clearly. If not, say "
  +:+ String "034" "No contradictions found." +:+ String "034" (String "010" (String "010" "Text: "))
  +:+ text
  +:+ String "010" (String "010" "Contradictions:").

Definition detect_contradiction (text : string) : Py.result HallucinationResult :=
  Py.try_except
    (response ← generate 0 (contradiction_prompt text);
     let analysis := strip response in
     let has_contradiction := negb (contains "no contradictions" (lower analysis)) in
     mret {| is_hallucination := has_contradiction;
             confidence := 0.7%Q;
             hallucination_type :=
               if has_contradiction then Some "logical_inconsistency" else None;
             evidence := [("analysis", VStr analysis); ("original_text", VStr text)];
             detection_method := "contradiction_detection" |})
    (fun e =>
     mret {| is_hallucination := false;
             confidence := 0.0%Q;
             hallucination_type := None;
             evidence := [("error", VStr (Py.str_of e))];
             detection_method := "contradiction_detection" |}).
End WithCollaborator.

End HallucinationDetector.


(** ** The metrics: [src/evaluation/metrics.py] *)

Module EvaluationMetrics.
Import PyStr.

(** [zip(a, b)] is stdpp's [zip]; it stops at the shorter list. *)

Definition accuracy (predictions ground_truth : list bool) : Py.result Q :=
  if negb (length predictions =? length ground_truth)%nat then
    Py.Raise (Py.ValueError "Predictions and ground truth must have same length")
  else
    let correct := Py.count (fun '(p, g) => Bool.eqb p g) (zip predictions ground_truth) in
    mret (match predictions with
          | [] => 0.0%Q
          | _ => (Py.of_nat correct / Py.of_nat (length predictions))%Q
          end).

(** The dictionary returned by [precision_recall_f1]. *)
Record prf := {
  precision : Q;
  recall : Q;
  f1 : Q;
  tp : nat;
  fp : nat;
  fn : nat;
  tn : nat
}.

Definition precision_recall_f1 (predictions ground_truth : list bool) : Py.result prf :=
  if negb (length predictions =? length ground_truth)%nat then
    Py.Raise (Py.ValueError "Predictions and ground truth must have same length")
  else
    let pairs := zip predictions ground_truth in
    let tp := Py.count (fun '(p, g) => p && g) pairs in
    let fp := Py.count (fun '(p, g) => p && negb g) pairs in
    let fn := Py.count (fun '(p, g) => negb p && g) pairs in
    let tn := Py.count (fun '(p, g) => negb p && negb g) pairs in
    let precision :=
      if (0 <? tp + fp)%nat then (Py.of_nat tp / Py.of_nat (tp + fp))%Q else 0.0%Q in
    let recall :=
      if (0 <? tp + fn)%nat then (Py.of_nat tp / Py.of_nat (tp + fn))%Q else 0.0%Q in
    let f1 :=
      if Py.Qltb 0 (precision + recall)
      then (2 * precision * recall / (precision + recall))%Q else 0.0%Q in
    mret {| precision := precision; recall := recall; f1 := f1;
            tp := tp; fp := fp; fn := fn; tn := tn |}.

Definition hallucination_rate (predictions : list bool) : Q :=
  match predictions with
  | [] => 0.0%Q
  | _ => (Py.of_nat (Py.count id predictions) / Py.of_nat (length predictions))%Q
  end.

(** One element of the ['bins'] list of [confidence_calibration]. *)
Record bin_info := {
  bin : nat;
  bin_range : Q * Q;
  avg_confidence : Q;
  bin_accuracy : Q;
  bin_count : nat;
  gap : Q
}.

(** The dictionary returned by [confidence_calibration]; the early return
    on empty input has no ['num_bins'] key. *)
Record calibration := {
  ece : Q;
  bins : list bin_info;
  num_bins_key : option nat
}.

(** [np.linspace(0, 1, num)]: [num] evenly spaced points, the step being
    [1 / (num - 1)]. *)
Definition linspace_0_1 (num : nat) : list Q :=
  map (fun j => (Py.of_nat j * (1 / Py.of_nat (num - 1)))%Q) (seq 0 num).

(** [np.digitize(x, edges)] for increasing [edges]: the number of edges
    that are [<= x]. *)
Definition digitize (edges : list Q) (x : Q) : Z :=
  Z.of_nat (Py.count (fun e => Qle_bool e x) edges).

(** [np.clip(a, lo, hi)] is [minimum(hi, maximum(a, lo))]. *)
Definition clip (a lo hi : Z) : Z := Z.min hi (Z.max a lo).

(** [np.array(l)[mask]] *)
Definition select {A} (mask : list bool) (l : list A) : list A :=
  map snd (List.filter fst (zip mask l)).

(** The body of [for i in range(num_bins)], on the pair
    [(total_ece, bin_data)]. *)
Definition bin_step (confidences : list Q) (correct : list bool)
    (edges : list Q) (bin_indices : list Z) (total_samples : nat)
    (st : Q * list bin_info) (i : nat) : Q * list bin_info :=
  let '(total_ece, bin_data) := st in
  let mask := map (fun b => (b =? Z.of_nat i)%Z) bin_indices in
  if negb (existsb id mask) then st
  else
    let bin_confidences := select mask confidences in
    let bin_correct := select mask correct in
    let avg_confidence := Py.mean bin_confidences in
    let accuracy :=
      (Py.of_nat (Py.count id bin_correct) / Py.of_nat (length bin_correct))%Q in
    let count := length bin_confidences in
    let ece_contribution :=
      (Py.of_nat count / Py.of_nat total_samples * Qabs (avg_confidence - accuracy))%Q in
    ((total_ece + ece_contribution)%Q,
     bin_data ++ [ {| bin := i;
                      bin_range := (default 0%Q (edges !! i), default 0%Q (edges !! S i));
                      avg_confidence := avg_confidence;
                      bin_accuracy := accuracy;
                      bin_count := count;
                      gap := Qabs (avg_confidence - accuracy) |} ])%list.

Definition bin_indices_of (confidences : list Q) (num_bins : nat) : list Z :=
  let edges := linspace_0_1 (num_bins + 1) in
  map (fun x => clip (digitize (take num_bins edges) x - 1) 0 (Z.of_nat num_bins - 1))
      confidences.

Definition confidence_calibration (confidences : list Q) (correct : list bool)
    (num_bins : nat) : Py.result calibration :=
  if negb (length confidences =? length correct)%nat then
    Py.Raise (Py.ValueError "Confidences and correct must have same length")
  else
    match confidences with
    | [] => mret {| ece := 0.0%Q; bins := []; num_bins_key := None |}
    | _ =>
      let edges := linspace_0_1 (num_bins + 1) in
      let bin_indices := bin_indices_of confidences num_bins in
      let total_samples := length confidences in
      let '(total_ece, bin_data) :=
        fold_left (bin_step confidences correct edges bin_indices total_samples)
                  (seq 0 num_bins) (0.0%Q, []) in
      mret {| ece := total_ece; bins := bin_data; num_bins_key := Some num_bins |}
    end.

(** The per-type dictionary of [error_analysis_by_type]: the keys of
    [precision_recall_f1] with ['accuracy'] and ['count'] added. *)
Record type_metrics := {
  type_prf : prf;
  type_accuracy : Q;
  type_count : nat
}.

(** [type_data[h_type]['preds'].append(pred)] and the same for ['truth'],
    on a [defaultdict] of two empty lists. *)
Fixpoint group_add (h_type : string) (pred truth : bool)
    (type_data : list (string * (list bool * list bool)))
    : list (string * (list bool * list bool)) :=
  match type_data with
  | [] => [(h_type, ([pred], [truth]))]
  | (k, (preds, truths)) :: r =>
      if String.eqb h_type k
      then (k, (preds ++ [pred], truths ++ [truth])%list) :: r
      else (k, (preds, truths)) :: group_add h_type pred truth r
  end.

Definition error_analysis_by_type (predictions ground_truth : list bool)
    (hallucination_types : list string) : Py.result (list (string * type_metrics)) :=
  if negb ((length predictions =? length ground_truth)%nat
           && (length ground_truth =? length hallucination_types)%nat) then
    Py.Raise (Py.ValueError "All inputs must have same length")
  else
    let type_data :=
      fold_left (fun d '(pred, truth, h_type) => group_add h_type pred truth d)
                (zip (zip predictions ground_truth) hallucination_types) [] in
    mapM (fun '(h_type, (preds, truth)) =>
            metrics ← precision_recall_f1 preds truth;
            acc ← accuracy preds truth;
            mret (h_type, {| type_prf := metrics;
                             type_accuracy := acc;
                             type_count := length preds |}))
         type_data.

(** The per-method dictionary of [compare_methods]. *)
Record method_metrics := {
  method_prf : prf;
  method_accuracy : Q;
  method_hallucination_rate : Q
}.

(** The loop of [compare_methods] over [method_results.items()]. *)
Fixpoint compare_loop (items : list (string * list bool)) (ground_truth : list bool)
    (comparison : list (string * method_metrics))
    : Py.result (list (string * method_metrics)) :=
  match items with
  | [] => mret comparison
  | (method_name, predictions) :: rest =>
      if negb (length predictions =? length ground_truth)%nat then
        (* logger.warning; continue *)
        compare_loop rest ground_truth comparison
      else
        metrics ← precision_recall_f1 predictions ground_truth;
        acc ← accuracy predictions ground_truth;
        compare_loop rest ground_truth
          (Py.setitem method_name
             {| method_prf := metrics;
                method_accuracy := acc;
                method_hallucination_rate := hallucination_rate predictions |}
             comparison)
  end.

Definition compare_methods (method_results : list (string * list bool))
    (ground_truth : list bool) : Py.result (list (string * method_metrics)) :=
  compare_loop method_results ground_truth [].

(** The per-model dictionary of [model_comparison]. *)
Record model_metrics := {
  exact_match_rate : Q;
  avg_token_overlap : Q;
  model_hallucination_rate : Q;
  num_samples : nat
}.

Definition response_overlap (response truth : string) : Q :=
  let r_tokens := token_set (lower response) in
  let g_tokens := token_set (lower truth) in
  if decide (g_tokens = ∅) then 0.0%Q
  else (Py.of_nat (size (r_tokens ∩ g_tokens)) / Py.of_nat (size g_tokens))%Q.

(** The loop of [model_comparison] over [model_responses.items()]. *)
Fixpoint model_loop (items : list (string * list string)) (ground_truths : list string)
    (comparison : list (string * model_metrics))
    : Py.result (list (string * model_metrics)) :=
  match items with
  | [] => mret comparison
  | (model_name, responses) :: rest =>
      if negb (length responses =? length ground_truths)%nat then
        (* logger.warning; continue *)
        model_loop rest ground_truths comparison
      else
        let exact_matches :=
          map (fun '(r, g) => String.eqb (lower (strip r)) (lower (strip g)))
              (zip responses ground_truths) in
        let overlaps :=
          map (fun '(r, g) => response_overlap r g) (zip responses ground_truths) in
        rate ← Py.div (Py.count id exact_matches) (length exact_matches);
        model_loop rest ground_truths
          (Py.setitem model_name
             {| exact_match_rate := rate;
                avg_token_overlap := Py.mean overlaps;
                model_hallucination_rate := (1 - rate)%Q;
                num_samples := length responses |}
             comparison)
  end.

Definition model_comparison (model_responses : list (string * list string))
    (ground_truths : list string) : Py.result (list (string * model_metrics)) :=
  model_loop model_responses ground_truths [].

(** The dictionary returned by [mitigation_effectiveness]. *)
Record effectiveness := {
  baseline_hallucination_rate : Q;
  mitigated_hallucination_rate : Q;
  absolute_reduction : Q;
  relative_reduction_percent : Q;
  improvements : nat;
  degradations : nat;
  unchanged : Z;
  net_improvement : Z
}.

Definition mitigation_effectiveness (baseline_hallucinations mitigated_hallucinations : list bool)
    : Py.result effectiveness :=
  if negb (length baseline_hallucinations =? length mitigated_hallucinations)%nat then
    Py.Raise (Py.ValueError "Inputs must have same length")
  else
    baseline_rate ← Py.div (Py.count id baseline_hallucinations)
                           (length baseline_hallucinations);
    mitigated_rate ← Py.div (Py.count id mitigated_hallucinations)
                            (length mitigated_hallucinations);
    let absolute_reduction := (baseline_rate - mitigated_rate)%Q in
    let relative_reduction :=
      if Py.Qltb 0 baseline_rate
      then (absolute_reduction / baseline_rate * 100)%Q else 0.0%Q in
    let pairs := zip baseline_hallucinations mitigated_hallucinations in
    let improvements := Py.count (fun '(b, m) => b && negb m) pairs in
    let degradations := Py.count (fun '(b, m) => negb b && m) pairs in
    let unchanged :=
      (Z.of_nat (length baseline_hallucinations)
       - Z.of_nat improvements - Z.of_nat degradations)%Z in
    mret {| baseline_hallucination_rate := baseline_rate;
            mitigated_hallucination_rate := mitigated_rate;
            absolute_reduction := absolute_reduction;
            relative_reduction_percent := relative_reduction;
            improvements := improvements;
            degradations := degradations;
            unchanged := unchanged;
            net_improvement := (Z.of_nat improvements - Z.of_nat degradations)%Z |}.

End EvaluationMetrics.


(** ** The specification's notions, stated independently of the code *)

Module Spec.
Import PyStr.

(** Token overlap ratio of factual verification:
    [|claim_tokens ∩ truth_tokens| / |truth_tokens|]. *)
Definition overlap_ratio (claim ground_truth : string) : Q :=
  let claim_tokens := token_set (HallucinationDetector.normalize claim) in
  let truth_tokens := token_set (HallucinationDetector.normalize ground_truth) in
  (Py.of_nat (size (claim_tokens ∩ truth_tokens)) / Py.of_nat (size truth_tokens))%Q.

(** The numbers that factual verification extracts for a claim or a
    ground truth: those of the normalized text. *)
Definition numbers_of (text : string) : list float64 :=
  HallucinationDetector._extract_numbers (HallucinationDetector.normalize text).




(** The maximal runs of decimal digits of a text, in order of appearance.
    [cur] is the run being read. *)
Fixpoint digit_runs_from (cur : string) (s : string) : list string :=
  match s with
  | EmptyString => match cur with EmptyString => [] | _ => [cur] end
  | String c r =>
      if isdigit c then digit_runs_from (cur +:+ String c EmptyString) r
      else match cur with
           | EmptyString => digit_runs_from EmptyString r
           | _ => cur :: digit_runs_from EmptyString r
           end
  end.

Definition digit_runs (s : string) : list string := digit_runs_from EmptyString s.

(** The binary64 value of a run of digits read as a decimal integer. *)
Definition binary64_of_digits (run : string) : float64 :=
  nearest_binary64 (int_of run) 1.

(** [extract_years]: the year-like tokens of a text, as integers, in order
    of appearance. *)
Definition extract_years (text : string) : list Z :=
  map int_of (findall year_pattern text).

(** The verdict of temporal verification on a text without years. *)
Definition no_temporal_reference : HallucinationDetector.HallucinationResult :=
  {| HallucinationDetector.is_hallucination := false;
     HallucinationDetector.confidence := 0.0%Q;
     HallucinationDetector.hallucination_type := None;
     HallucinationDetector.evidence := [("note", HallucinationDetector.VStr "No temporal references found")];
     HallucinationDetector.detection_method := "temporal_verification" |}.

(** A year-like token: four digits [y] standing between [pre] and [suf],
    whose value lies in 1000-1999 or 2000-2029, with no word character
    next to it on either side. *)
Definition last_char (s : string) : option ascii :=
  last (String.list_ascii_of_string s).

Definition all_digits (s : string) : bool :=
  forallb isdigit (String.list_ascii_of_string s).

Definition year_token (pre y suf : string) : Prop :=
  String.length y = 4%nat ∧ all_digits y = true
  ∧ (1000 ≤ int_of y ≤ 2029)%Z
  ∧ isword_at (last_char pre) = false ∧ isword_at (head suf) = false.

Definition no_year_token (text : string) : Prop :=
  ∀ pre y suf, text = pre +:+ y +:+ suf → ¬ year_token pre y suf.

(** The count-weighted sum of [|avg_confidence − accuracy|] over a list of
    bins, for [total] samples. *)
Definition weighted_gap_sum (total : nat) (bins : list EvaluationMetrics.bin_info) : Q :=
  Py.Qsum (map (fun b => (Py.of_nat (EvaluationMetrics.bin_count b) / Py.of_nat total
                          * Qabs (EvaluationMetrics.avg_confidence b - EvaluationMetrics.bin_accuracy b))%Q)
               bins).

(** A bin as the calibration reports it: it is not empty, and its gap is
    the distance between its mean confidence and its accuracy. *)
Definition occupied_bin (b : EvaluationMetrics.bin_info) : Prop :=
  (0 < EvaluationMetrics.bin_count b)%nat
  ∧ EvaluationMetrics.gap b = Qabs (EvaluationMetrics.avg_confidence b - EvaluationMetrics.bin_accuracy b).

(** The running pair [(total_ece, bin_data)] of the calibration loop is
    consistent: the error accumulated so far is the count-weighted gap sum
    of the bins recorded so far, all of them occupied. *)
Definition loop_invariant (total : nat) (st : Q * list EvaluationMetrics.bin_info) : Prop :=
  (fst st == weighted_gap_sum total (snd st))%Q ∧ Forall occupied_bin (snd st).

(** The entries of a mapping from names to sequences whose sequence has
    length [n]. *)
Definition same_length_keys {A} (n : nat) (d : list (string * list A)) (k : string) : Prop :=
  ∃ l, (k, l) ∈ d ∧ length l = n.

(** The verdicts of a mapping that vote "hallucination". *)
Definition voting (results : list (string * HallucinationDetector.HallucinationResult))
    : list HallucinationDetector.HallucinationResult :=
  List.filter HallucinationDetector.is_hallucination (HallucinationDetector.values results).

(** The hallucination types that some verdicts carry: neither null nor
    empty. *)
Definition named_types (verdicts : list HallucinationDetector.HallucinationResult) : list string :=
  flat_map (fun r => match HallucinationDetector.hallucination_type r with
                     | Some t => if String.eqb t "" then [] else [t]
                     | None => []
                     end) verdicts.

Definition occurrences (t : string) (l : list string) : nat :=
  length (List.filter (String.eqb t) l).

(** [t] is one of the most frequent elements of [l]. *)
Definition most_frequent (t : string) (l : list string) : Prop :=
  t ∈ l ∧ ∀ t', (occurrences t' l ≤ occurrences t l)%nat.

(** A verdict that does not vote "hallucination" and yet carries a type;
    the record type allows it. *)
Definition cleared_with_type : HallucinationDetector.HallucinationResult :=
  {| HallucinationDetector.is_hallucination := false;
     HallucinationDetector.confidence := 0.5%Q;
     HallucinationDetector.hallucination_type := Some "factual_error";
     HallucinationDetector.evidence := [];
     HallucinationDetector.detection_method := "external_validation" |}.

(** Two collaborators: one whose every call raises, and one that answers
    every call with the same text. *)
Definition failing (msg : string) : nat → string → Py.result string :=
  fun _ _ => Py.Raise (Py.ProviderError msg).

Definition answering (text : string) : nat → string → Py.result string :=
  fun _ _ => Py.Ok text.

End Spec.

(** ** The detection pipeline: [multi_method_detection] *)

Module DetectionPipeline.
Import PyStr HallucinationDetector.

Section WithCollaborator.
Variable generate : nat → string → Py.result string.

(** The collaborator as a method sees it when [calls] calls were made
    before the method started. *)
Definition after (calls : nat) : nat → string → Py.result string :=
  fun i => generate (calls + i)%nat.

(** The list built when [methods is None]. *)
Definition default_methods (ground_truth : option string) : list string :=
  (["self_consistency"; "contradiction"; "temporal"]
   ++ (if truthy ground_truth then ["factual"] else []))%list.

(** [multi_method_detection(prompt, response_text, ground_truth, methods)].
    [detect_self_consistency(prompt)] runs with its default of 5 samples and
    so makes 5 calls of the collaborator, whatever their outcomes;
    [detect_temporal_error(response_text)] runs without context year. *)
Definition multi_method_detection (prompt response_text : string)
    (ground_truth : option string) (methods : option (list string))
    : Py.result (list (string * HallucinationResult)) :=
  let methods :=
    match methods with
    | Some m => m
    | None => default_methods ground_truth
    end in
  let results : list (string * HallucinationResult) := [] in
  '(results, calls) ←
    (if bool_decide ("self_consistency" ∈ methods)
     then r ← detect_self_consistency generate prompt 5;
          mret (Py.setitem "self_consistency" r results, 5%nat)
     else mret (results, 0%nat));
  let results :=
    match ground_truth with
    | Some truth =>
        if bool_decide ("factual" ∈ methods) && truthy ground_truth
        then Py.setitem "factual" (detect_factual_error response_text truth) results
        else results
    | None => results
    end in
  results ←
    (if bool_decide ("contradiction" ∈ methods)
     then r ← detect_contradiction (after calls) response_text;
          mret (Py.setitem "contradiction" r results)
     else mret results);
  let results :=
    if bool_decide ("temporal" ∈ methods)
    then Py.setitem "temporal" (detect_temporal_error response_text None) results
    else results in
  mret results.

End WithCollaborator.

End DetectionPipeline.

(** ** The provider wrapper: [src/models/llm_wrapper.py] *)

Module LLMWrapper.

(** [@dataclass class LLMResponse]; the values of [metadata] are shown as
    strings. *)
Record LLMResponse := {
  text : string;
  model : string;
  provider : string;
  tokens_used : Z;
  latency : Q;
  metadata : list (string * string)
}.

(** [class RateLimiter]: the limit and the times of the recorded calls,
    oldest first. *)
Record RateLimiter := {
  max_calls : Z;
  calls : list Q
}.

(** What [wait_if_needed] does: it returns, after sleeping for [slept]
    seconds if [slept] is given, leaving the limiter in a new state; or
    [self.calls[0]] raises [IndexError]. *)
Inductive wait_result :=
| Returned (slept : option Q) (self : RateLimiter)
| IndexError.

(** [wait_if_needed(self)], where [now] is the value of [time.time()] read
    on entry. *)
Definition wait_if_needed (self : RateLimiter) (now : Q) : wait_result :=
  let recent := List.filter (fun t => Py.Qltb (now - t) 60) (calls self) in
  if (max_calls self <=? Z.of_nat (length recent))%Z then
    match recent with
    | [] => IndexError
    | oldest :: _ =>
        let sleep_time := (60 - (now - oldest))%Q in
        if Py.Qltb 0 sleep_time
        then Returned (Some sleep_time)
                      {| max_calls := max_calls self; calls := ([] ++ [now])%list |}
        else Returned None
                      {| max_calls := max_calls self; calls := (recent ++ [now])%list |}
    end
  else Returned None {| max_calls := max_calls self; calls := (recent ++ [now])%list |}.

Section WithGenerate.
(** [generate i prompt] is the outcome of the [i]-th call of
    [self.generate(prompt, provider=provider, **kwargs)]: the response, or
    the subclass of [Exception] raised. *)
Variable generate : nat → string → Py.result LLMResponse.

(** The response appended when a call raises. *)
Definition error_response (provider : string) (e : Py.exn) : LLMResponse :=
  {| text := "";
     model := "";
     provider := provider;
     tokens_used := 0;
     latency := 0;
     metadata := [("error", Py.str_of e)] |}.

(** The loop of [batch_generate], from its [i]-th prompt. *)
Fixpoint batch_loop (provider : string) (i : nat) (prompts : list string)
    (responses : list LLMResponse) : Py.result (list LLMResponse) :=
  match prompts with
  | [] => mret responses
  | prompt :: rest =>
      responses' ← Py.try_except
                     (response ← generate i prompt;
                      mret (responses ++ [response])%list)
                     (fun e => mret (responses ++ [error_response provider e])%list);
      batch_loop provider (S i) rest responses'
  end.

Definition batch_generate (prompts : list string) (provider : string)
    : Py.result (list LLMResponse) :=
  batch_loop provider 0 prompts [].

End WithGenerate.

End LLMWrapper.

(** ** Notions used to state further properties of the code *)

Module Notions.
Import PyStr HallucinationDetector.

(** A number of the unit interval. *)
Definition in_unit (q : Q) : Prop := (0 <= q)%Q ∧ (q <= 1)%Q.

(** The normalized texts of the calls that succeed among the first [n]
    calls of the collaborator, in order. *)
Definition successful_responses (generate : nat → string → Py.result string)
    (prompt : string) (first n : nat) : list string :=
  omap (fun i => match generate i prompt with
                 | Py.Ok text => Some (lower (strip text))
                 | Py.Raise _ => None
                 end)
       (seq first n).

(** A verdict carries a type exactly when it votes "hallucination", and
    the type is not the empty string. *)
Definition well_typed (r : HallucinationResult) : Prop :=
  (is_hallucination r = true →
   ∃ t, hallucination_type r = Some t ∧ t ≠ "")
  ∧ (is_hallucination r = false → hallucination_type r = None).

(** The methods [multi_method_detection] runs, in the order in which it
    stores their verdicts. *)
Definition methods_run (ground_truth : option string) (methods : option (list string))
    : list string :=
  let requested :=
    match methods with
    | Some m => m
    | None => DetectionPipeline.default_methods ground_truth
    end in
  List.filter (fun name => bool_decide (name ∈ requested)
                           && (negb (String.eqb name "factual") || truthy ground_truth))
              ["self_consistency"; "factual"; "contradiction"; "temporal"].

(** Numbers of samples over the bins of a calibration, and over the types
    of an error analysis. *)
Definition total_count (bins : list EvaluationMetrics.bin_info) : nat :=
  sum_list (map EvaluationMetrics.bin_count bins).

Definition total_type_count (r : list (string * EvaluationMetrics.type_metrics)) : nat :=
  sum_list (map (fun e => EvaluationMetrics.type_count (snd e)) r).

(** A text without any character of [string.punctuation]. *)
Definition no_punctuation (s : string) : bool :=
  forallb (fun c => negb (ispunct c)) (String.list_ascii_of_string s).

(** A non-negative integer, as a [float]. *)
Definition natural_number (q : Q) : Prop :=
  ∃ z : Z, (0 ≤ z)%Z ∧ (q == inject_Z z)%Q.

(** A binary64 value that is a non-negative integer or positive
    infinity: neither negative nor fractional. *)
Definition natural_or_infinite (x : float64) : Prop :=
  match x with
  | Finite q => natural_number q
  | Infinity negative => negative = false
  end.

(** A group of the analysis by type holds as many predictions as labels;
    the number of samples in a list of groups. *)
Definition balanced (e : string * (list bool * list bool)) : Prop :=
  length (fst (snd e)) = length (snd (snd e)).

Definition group_sizes (d : list (string * (list bool * list bool))) : nat :=
  sum_list (map (fun e => length (fst (snd e))) d).

(** A collaborator that answers in turn with the texts of a list and
    raises when the list is exhausted. *)
Definition scripted (texts : list string) : nat → string → Py.result string :=
  fun i _ => match texts !! i with
             | Some t => Py.Ok t
             | None => Py.Raise (Py.ProviderError "no more answers")
             end.

End Notions.

(** * Theorems *)

Import PyStr HallucinationDetector EvaluationMetrics Spec.

(** ** Comparisons on rationals *)

Lemma Qltb_lt (x y : Q) : Py.Qltb x y = true ↔ (x < y)%Q.
Proof.
  unfold Py.Qltb. rewrite negb_true_iff, <- not_true_iff_false, Qle_bool_iff.
  split; [apply Qnot_le_lt | apply Qlt_not_le].
Qed.

Lemma Qltb_ge (x y : Q) : Py.Qltb x y = false ↔ (y <= x)%Q.
Proof.
  unfold Py.Qltb. rewrite negb_false_iff. apply Qle_bool_iff.
Qed.

Lemma of_nat_pos (n : nat) : (0 < n)%nat → (0 < Py.of_nat n)%Q.
Proof.
  intros Hn. unfold Py.of_nat, Qlt. simpl. lia.
Qed.

Lemma of_nat_div_self (n : nat) : (0 < n)%nat → (Py.of_nat n / Py.of_nat n == 1)%Q.
Proof.
  intros Hn. apply Qmult_inv_r. intros H0.
  apply of_nat_pos in Hn. rewrite H0 in Hn. inversion Hn.
Qed.

(** ** Factual verification *)

Section Factual.

(** C9: a ground truth that normalizes to no token gives the fixed verdict
    "not a hallucination, confidence 0, no type", with the
    "Empty ground truth" entry as evidence; the function returns it for every
    claim. *)
Theorem empty_ground_truth_verdict (claim ground_truth : string) :
  token_set (normalize ground_truth) = ∅ →
  detect_factual_error claim ground_truth
  = {| is_hallucination := false;
       confidence := 0.0%Q;
       hallucination_type := None;
       evidence := [("error", VStr "Empty ground truth")];
       detection_method := "factual_verification" |}.
Proof.
  intros Hempty. unfold detect_factual_error.
  destruct (decide (token_set (normalize ground_truth) = ∅)) as [_|Hne]; [reflexivity|].
  contradiction.
Qed.

Lemma empty_ground_truth_verdict_witness :
  token_set (normalize "  ?! ") = ∅
  ∧ is_hallucination (detect_factual_error "Paris" "  ?! ") = false.
Proof.
  assert (H : token_set (normalize "  ?! ") = ∅) by (vm_compute; reflexivity).
  split; [exact H|].
  rewrite (empty_ground_truth_verdict "Paris" "  ?! " H). reflexivity.
Defined.

(** C4: for a ground truth with at least one token, the verdict is "not a
    hallucination" exactly when the normalized strings are equal, or the
    overlap ratio is at least 1, or it exceeds 0.7 and the numbers match;
    a hallucination is typed "numerical_error" when the numbers mismatch,
    else "fabrication" when the overlap is below 0.3, else "factual_error";
    the confidence is 1 - overlap. *)
Theorem factual_verdict (claim ground_truth : string) :
  token_set (normalize ground_truth) ≠ ∅ →
  let r := detect_factual_error claim ground_truth in
  let overlap := overlap_ratio claim ground_truth in
  ∃ numerical_match : bool,
    Py.getitem "numerical_match" (evidence r) = Some (VBool numerical_match)
    ∧ (is_hallucination r = false ↔
         normalize claim = normalize ground_truth
         ∨ (1 <= overlap)%Q
         ∨ ((0.7 < overlap)%Q ∧ numerical_match = true))
    ∧ (is_hallucination r = true →
         (numerical_match = false → hallucination_type r = Some "numerical_error")
         ∧ (numerical_match = true → (overlap < 0.3)%Q →
            hallucination_type r = Some "fabrication")
         ∧ (numerical_match = true → (0.3 <= overlap)%Q →
            hallucination_type r = Some "factual_error"))
    ∧ (confidence r == 1 - overlap)%Q.
Proof.
  intros Hne r overlap. subst r. unfold detect_factual_error.
  destruct (decide (token_set (normalize ground_truth) = ∅)) as [He|_]; [contradiction|].
  fold (overlap_ratio claim ground_truth). fold overlap.
  set (nm := match _extract_numbers (normalize ground_truth) with
             | [] => true
             | _ => float_list_eqb _ _
             end).
  exists nm. cbn [evidence is_hallucination hallucination_type confidence Py.getitem].
  split; [reflexivity|].
  assert (Hexact : String.eqb (normalize claim) (normalize ground_truth) = true
                   ↔ normalize claim = normalize ground_truth) by apply String.eqb_eq.
  assert (Hone : (1.0 == 1)%Q) by reflexivity.
  assert (Hfull : Qle_bool 1.0 overlap = true ↔ (1 <= overlap)%Q)
    by (rewrite Qle_bool_iff, Hone; reflexivity).
  assert (Hhigh : Py.Qltb 0.7 overlap = true ↔ (0.7 < overlap)%Q) by apply Qltb_lt.
  assert (Hlow : Py.Qltb overlap 0.3 = true ↔ (overlap < 0.3)%Q) by apply Qltb_lt.
  assert (Hmid : Py.Qltb overlap 0.3 = false ↔ (0.3 <= overlap)%Q) by apply Qltb_ge.
  set (verdict := negb _).
  split; [|split; [|rewrite Hone; reflexivity]].
  - unfold verdict.
    rewrite negb_false_iff, !orb_true_iff, andb_true_iff, Hexact, Hfull, Hhigh.
    tauto.
  - intros Hv. rewrite Hv. destruct nm; cbn [negb].
    + split; [discriminate|].
      split; intros _ Hcmp.
      * apply Hlow in Hcmp. rewrite Hcmp. reflexivity.
      * apply Hmid in Hcmp. rewrite Hcmp. reflexivity.
    + split; [reflexivity|]. split; discriminate.
Qed.

Lemma factual_verdict_witness :
  token_set (normalize "Paris") ≠ ∅
  ∧ is_hallucination (detect_factual_error "Lyon" "Paris") = true
  ∧ hallucination_type (detect_factual_error "Lyon" "Paris") = Some "fabrication"
  ∧ (confidence (detect_factual_error "Lyon" "Paris") == 1 - overlap_ratio "Lyon" "Paris")%Q.
Proof.
  assert (Hne : token_set (normalize "Paris") ≠ ∅) by (vm_compute; discriminate).
  split; [exact Hne|].
  destruct (factual_verdict "Lyon" "Paris" Hne) as (nm & _ & _ & _ & Hconf).
  split; [vm_compute; reflexivity|].
  split; [vm_compute; reflexivity|exact Hconf].
Defined.

(** The three examples of the specification. *)
Example factual_exact_match :
  is_hallucination (detect_factual_error "Paris" "Paris") = false
  ∧ (confidence (detect_factual_error "Paris" "Paris") == 0)%Q
  ∧ Py.getitem "exact_match" (evidence (detect_factual_error "Paris" "Paris"))
    = Some (VBool true).
Proof. vm_compute. repeat split. Qed.

Example factual_full_overlap :
  is_hallucination (detect_factual_error "The capital is Paris, France" "Paris") = false
  ∧ (overlap_ratio "The capital is Paris, France" "Paris" == 1)%Q.
Proof. vm_compute. repeat split. Qed.

Example factual_fabrication :
  is_hallucination (detect_factual_error "Lyon" "Paris") = true
  ∧ hallucination_type (detect_factual_error "Lyon" "Paris") = Some "fabrication"
  ∧ (overlap_ratio "Lyon" "Paris" < 0.3)%Q.
Proof. vm_compute. repeat split. Qed.

End Factual.

(** ** Entity verification *)

Section Entities.



End Entities.

(** ** Collaborator failures *)

Section Failures.
Variable generate : nat → string → Py.result string.

Lemma sample_all_fail (prompt : string) (num i : nat) (responses : list string) :
  (∀ j p, ∃ e, generate j p = Py.Raise e) →
  sample generate prompt i num responses = Py.Ok responses.
Proof.
  intros Hfail. revert i. induction num as [|k IH]; intros i; [reflexivity|].
  cbn [sample]. destruct (Hfail i prompt) as [e ->]. cbn. apply IH.
Qed.

(** C8: when every call of the text-generation collaborator raises,
    self-consistency returns the verdict "hallucination, confidence 1.0,
    generation_failed", and contradiction detection returns "not a
    hallucination, confidence 0.0" with the message of the exception in its
    evidence; both return, neither raises. *)
Theorem collaborator_failure_verdicts (prompt text : string) (num_samples : nat) :
  (∀ j p, ∃ e, generate j p = Py.Raise e) →
  detect_self_consistency generate prompt num_samples
  = Py.Ok {| is_hallucination := true;
             confidence := 1.0%Q;
             hallucination_type := Some "generation_failed";
             evidence := [("error", VStr "Could not generate responses")];
             detection_method := "self_consistency" |}
  ∧ ∃ e, generate 0%nat (contradiction_prompt text) = Py.Raise e
         ∧ detect_contradiction generate text
           = Py.Ok {| is_hallucination := false;
                      confidence := 0.0%Q;
                      hallucination_type := None;
                      evidence := [("error", VStr (Py.str_of e))];
                      detection_method := "contradiction_detection" |}.
Proof.
  intros Hfail. split.
  - unfold detect_self_consistency. rewrite sample_all_fail by exact Hfail.
    reflexivity.
  - destruct (Hfail 0%nat (contradiction_prompt text)) as [e He].
    exists e. split; [exact He|].
    unfold detect_contradiction. rewrite He. reflexivity.
Qed.

End Failures.

Lemma collaborator_failure_verdicts_witness :
  (∀ j p, ∃ e, failing "quota exceeded" j p = Py.Raise e)
  ∧ (∃ v, detect_self_consistency (failing "quota exceeded") "Who wrote Hamlet?" 5 = Py.Ok v
          ∧ is_hallucination v = true)
  ∧ (∃ v, detect_contradiction (failing "quota exceeded") "Some text." = Py.Ok v
          ∧ evidence v = [("error", VStr "quota exceeded")]).
Proof.
  assert (Hfail : ∀ j p, ∃ e, failing "quota exceeded" j p = Py.Raise e)
    by (intros; eexists; reflexivity).
  split; [exact Hfail|].
  destruct (collaborator_failure_verdicts (failing "quota exceeded")
              "Who wrote Hamlet?" "Some text." 5 Hfail) as (Hsc & e & He & Hcd).
  split.
  - eexists. split; [exact Hsc|reflexivity].
  - eexists. split; [exact Hcd|]. inversion He. reflexivity.
Defined.

(** ** Self-consistency *)

Section Agreement.

Lemma counter_replicate (r : string) (n k : nat) :
  fold_left (fun c x => Py.counter_add x c) (replicate n r) [(r, k)] = [(r, (k + n)%nat)].
Proof.
  revert k. induction n as [|n IH]; intros k; cbn [replicate fold_left].
  - rewrite Nat.add_0_r. reflexivity.
  - cbn [Py.counter_add]. rewrite String.eqb_refl, IH. f_equal. f_equal. lia.
Qed.

Lemma Counter_replicate (r : string) (n : nat) :
  Py.Counter (replicate (S n) r) = [(r, S n)].
Proof.
  unfold Py.Counter. cbn [replicate fold_left Py.counter_add].
  rewrite counter_replicate. reflexivity.
Qed.

Lemma Qsum_ones (l : list Q) :
  Forall (fun q => q == 1)%Q l → (Py.Qsum l == Py.of_nat (length l))%Q.
Proof.
  induction 1 as [|q l Hq Hl IH]; cbn [Py.Qsum foldr length]; [reflexivity|].
  fold (Py.Qsum l). rewrite Hq, IH. unfold Py.of_nat.
  rewrite Nat2Z.inj_succ, <- Z.add_1_l, inject_Z_plus. reflexivity.
Qed.

Lemma mean_ones (l : list Q) :
  l ≠ [] → Forall (fun q => q == 1)%Q l → (Py.mean l == 1)%Q.
Proof.
  intros Hne Hall. unfold Py.mean. rewrite Qsum_ones by exact Hall.
  apply of_nat_div_self. destruct l; [contradiction|cbn; lia].
Qed.

Lemma pair_similarity_same (T : gset string) :
  T ≠ ∅ → ∃ q, pair_similarity T T = [q] ∧ (q == 1)%Q.
Proof.
  intros Hne. unfold pair_similarity.
  rewrite union_idemp_L, intersection_idemp_L.
  assert (Hpos : (0 < size T)%nat).
  { destruct (size T) eqn:Hs; [|lia]. apply size_empty_inv in Hs.
    apply leibniz_equiv in Hs. contradiction. }
  apply Nat.ltb_lt in Hpos as Hb. rewrite Hb.
  eexists. split; [reflexivity|]. apply of_nat_div_self, Hpos.
Qed.

Lemma pair_similarity_empty : pair_similarity ∅ ∅ = [].
Proof. reflexivity. Qed.

Lemma similarities_same (T : gset string) (n : nat) :
  T ≠ ∅ →
  Forall (fun q => q == 1)%Q (similarities (replicate n T))
  ∧ ((2 ≤ n)%nat → similarities (replicate n T) ≠ []).
Proof.
  intros Hne. destruct (pair_similarity_same T Hne) as (q & Hq & Hq1).
  assert (Hflat : ∀ k, flat_map (pair_similarity T) (replicate k T) = replicate k q).
  { induction k as [|k IH]; [reflexivity|].
    cbn [replicate flat_map]. rewrite Hq, IH. reflexivity. }
  split.
  - induction n as [|n IH]; cbn [replicate similarities]; [constructor|].
    rewrite Hflat. apply Forall_app. split; [|exact IH].
    apply Forall_forall. intros x Hx. apply elem_of_replicate in Hx as [-> _].
    exact Hq1.
  - intros Hn. destruct n as [|[|n]]; [lia..|].
    cbn [replicate similarities flat_map]. rewrite Hq. discriminate.
Qed.

Lemma similarities_empty (n : nat) : similarities (replicate n (∅ : gset string)) = [].
Proof.
  induction n as [|n IH]; [reflexivity|].
  cbn [replicate similarities]. rewrite IH, app_nil_r.
  clear IH. induction n as [|n IH]; [reflexivity|].
  cbn [replicate flat_map]. rewrite pair_similarity_empty. exact IH.
Qed.

Lemma map_replicate {A B} (f : A → B) (n : nat) (x : A) :
  map f (replicate n x) = replicate n (f x).
Proof. induction n as [|n IH]; [reflexivity|]. cbn. rewrite IH. reflexivity. Qed.

Lemma agreement_nonempty (x : string) (l : list string) :
  _calculate_agreement (x :: l)
  = let responses := x :: l in
    let most_common_count :=
      match Py.most_common_1 (Py.Counter responses) with
      | (_, n) :: _ => n
      | [] => 0%nat
      end in
    let token_sets := map (fun r => token_set r) responses in
    (0.5 * (Py.of_nat most_common_count / Py.of_nat (length responses))
     + 0.5 * (if (1 <? length token_sets)%nat
              then match similarities token_sets with
                   | [] => 0
                   | sims => Py.mean sims
                   end
              else 1))%Q.
Proof. reflexivity. Qed.

Lemma agreement_identical (r : string) (n : nat) :
  (2 ≤ n)%nat →
  (token_set r ≠ ∅ → (_calculate_agreement (replicate n r) == 1)%Q)
  ∧ (token_set r = ∅ → (_calculate_agreement (replicate n r) == 0.5)%Q).
Proof.
  intros Hn. destruct n as [|[|n]]; [lia..|].
  change (replicate (S (S n)) r) with (r :: replicate (S n) r).
  rewrite agreement_nonempty.
  change (r :: replicate (S n) r) with (replicate (S (S n)) r).
  cbv zeta. rewrite Counter_replicate. cbn [Py.most_common_1 Py.first_max].
  rewrite map_replicate, !length_replicate.
  change (1 <? S (S n))%nat with true. cbv iota.
  pose proof (of_nat_div_self (S (S n)) ltac:(lia)) as Hexact.
  split; intros HT.
  - destruct (similarities_same (token_set r) (S (S n)) HT) as [Hall Hnonempty].
    specialize (Hnonempty ltac:(lia)).
    destruct (similarities (replicate (S (S n)) (token_set r))) as [|q qs] eqn:Es;
      [contradiction|].
    rewrite Hexact, (mean_ones (q :: qs)) by (discriminate || exact Hall).
    reflexivity.
  - rewrite HT, similarities_empty, Hexact. reflexivity.
Qed.

Lemma sample_answering (text prompt : string) (num i : nat) (responses : list string) :
  sample (answering text) prompt i num responses
  = Py.Ok (responses ++ replicate num (lower (strip text)))%list.
Proof.
  revert i responses. induction num as [|k IH]; intros i responses.
  - cbn. rewrite app_nil_r. reflexivity.
  - cbn [sample]. unfold answering at 1. cbn. rewrite IH, <- app_assoc. reflexivity.
Qed.

(** C7, as the code has it: on a list of at least two identical responses
    that contain a token, the agreement score is 1 and self-consistency
    reports no hallucination; on identical responses without any token
    (empty after stripping) the score is 0.5 and a hallucination is
    reported. *)
Theorem identical_responses_agreement (r : string) (n : nat) :
  (2 ≤ n)%nat →
  (token_set r ≠ ∅ →
     (_calculate_agreement (replicate n r) == 1)%Q
     ∧ ∀ generate prompt num_samples,
         sample generate prompt 0 num_samples [] = Py.Ok (replicate n r) →
         ∃ v, detect_self_consistency generate prompt num_samples = Py.Ok v
              ∧ is_hallucination v = false)
  ∧ (token_set r = ∅ →
     (_calculate_agreement (replicate n r) == 0.5)%Q
     ∧ ∀ generate prompt num_samples,
         sample generate prompt 0 num_samples [] = Py.Ok (replicate n r) →
         ∃ v, detect_self_consistency generate prompt num_samples = Py.Ok v
              ∧ is_hallucination v = true).
Proof.
  intros Hn. destruct (agreement_identical r n Hn) as [Hfull Hhalf].
  assert (Hlen : (length (replicate n r) <? 2)%nat = false)
    by (rewrite length_replicate; apply Nat.ltb_ge; exact Hn).
  split; intros HT.
  - split; [exact (Hfull HT)|].
    intros generate prompt num_samples Hs. unfold detect_self_consistency.
    rewrite Hs. cbn [mbind Py.result_bind]. rewrite Hlen.
    eexists. split; [reflexivity|]. cbn [is_hallucination].
    apply Qltb_ge. rewrite (Hfull HT). unfold threshold. discriminate.
  - split; [exact (Hhalf HT)|].
    intros generate prompt num_samples Hs. unfold detect_self_consistency.
    rewrite Hs. cbn [mbind Py.result_bind]. rewrite Hlen.
    eexists. split; [reflexivity|]. cbn [is_hallucination].
    apply Qltb_lt. rewrite (Hhalf HT). unfold threshold. reflexivity.
Qed.

Lemma identical_responses_agreement_witness :
  (2 ≤ 5)%nat
  ∧ token_set "paris" ≠ ∅
  ∧ (_calculate_agreement (replicate 5 "paris") == 1)%Q
  ∧ ∃ v, detect_self_consistency (answering " Paris ") "Capital of France?" 5 = Py.Ok v
         ∧ is_hallucination v = false.
Proof.
  assert (Hn : (2 ≤ 5)%nat) by lia.
  assert (HT : token_set "paris" ≠ ∅) by (vm_compute; discriminate).
  split; [exact Hn|]. split; [exact HT|].
  destruct (identical_responses_agreement "paris" 5 Hn) as [Hfull _].
  destruct (Hfull HT) as [Hscore Hdetect].
  split; [exact Hscore|].
  apply Hdetect. rewrite sample_answering. reflexivity.
Defined.

(** C7, as stated, fails: two identical empty responses have agreement 0.5,
    and self-consistency flags them. *)
Lemma identical_empty_responses_disagree :
  ¬ (_calculate_agreement [""; ""] == 1.0)%Q
  ∧ ∃ v, detect_self_consistency (answering "  ") "Capital of France?" 2 = Py.Ok v
         ∧ is_hallucination v = true.
Proof.
  split.
  - vm_compute. discriminate.
  - eexists. split; [vm_compute; reflexivity|reflexivity].
Qed.

End Agreement.

(** ** Counters *)

Section Counters.

Lemma getitem_counter_add (k x : string) (c : list (string * nat)) :
  Py.getitem k (Py.counter_add x c)
  = if String.eqb k x then Some (S (Py.count_of c x)) else Py.getitem k c.
Proof.
  unfold Py.count_of. induction c as [|[y n] r IH]; cbn [Py.counter_add Py.getitem].
  - destruct (String.eqb k x); reflexivity.
  - destruct (String.eqb_spec x y) as [->|Hxy]; cbn [Py.getitem].
    + destruct (String.eqb k y); reflexivity.
    + rewrite IH. destruct (String.eqb_spec k y) as [->|Hky].
      * destruct (String.eqb_spec y x) as [->|_]; [contradiction|reflexivity].
      * reflexivity.
Qed.

Lemma count_of_fold (l : list string) (c : list (string * nat)) (k : string) :
  Py.count_of (fold_left (fun c x => Py.counter_add x c) l c) k
  = (Py.count_of c k + occurrences k l)%nat.
Proof.
  revert c. induction l as [|x l IH]; intros c; cbn [fold_left].
  - unfold occurrences. cbn. lia.
  - rewrite IH. unfold Py.count_of at 1. rewrite getitem_counter_add.
    unfold occurrences. cbn [List.filter].
    destruct (String.eqb_spec k x) as [->|Hkx]; cbn [default from_option length id].
    + lia.
    + fold (Py.count_of c k). lia.
Qed.

Lemma keys_counter_add (k x : string) (c : list (string * nat)) :
  k ∈ (Py.counter_add x c).*1 ↔ k = x ∨ k ∈ c.*1.
Proof.
  induction c as [|[y n] r IH]; cbn [Py.counter_add].
  - cbn. rewrite list_elem_of_singleton. split; [left; assumption|].
    intros [H|H]; [assumption|inversion H].
  - destruct (String.eqb_spec x y) as [->|Hxy]; cbn [fmap list_fmap fst].
    + rewrite elem_of_cons. tauto.
    + rewrite !elem_of_cons, IH. tauto.
Qed.

Lemma keys_counter_add_NoDup (x : string) (c : list (string * nat)) :
  NoDup c.*1 → NoDup (Py.counter_add x c).*1.
Proof.
  induction c as [|[y n] r IH]; cbn [Py.counter_add]; intros Hnd.
  - cbn. apply NoDup_singleton.
  - destruct (String.eqb_spec x y) as [->|Hxy]; [exact Hnd|].
    cbn [fmap list_fmap fst] in *. apply NoDup_cons in Hnd as [Hy Hr].
    apply NoDup_cons. split; [|apply IH, Hr].
    change (y ∉ (Py.counter_add x r).*1). rewrite keys_counter_add.
    intros [->|Hin]; [contradiction|]. exact (Hy Hin).
Qed.

Lemma keys_fold (l : list string) (c : list (string * nat)) (k : string) :
  k ∈ (fold_left (fun c x => Py.counter_add x c) l c).*1 ↔ k ∈ l ∨ k ∈ c.*1.
Proof.
  revert c. induction l as [|x l IH]; intros c; cbn [fold_left].
  - split; [right; assumption|]. intros [H|H]; [inversion H|assumption].
  - rewrite IH, keys_counter_add, elem_of_cons. tauto.
Qed.

Lemma keys_fold_NoDup (l : list string) (c : list (string * nat)) :
  NoDup c.*1 → NoDup (fold_left (fun c x => Py.counter_add x c) l c).*1.
Proof.
  revert c. induction l as [|x l IH]; intros c Hnd; cbn [fold_left]; [exact Hnd|].
  apply IH, keys_counter_add_NoDup, Hnd.
Qed.

Lemma getitem_of_elem (k : string) (n : nat) (c : list (string * nat)) :
  NoDup c.*1 → (k, n) ∈ c → Py.getitem k c = Some n.
Proof.
  induction c as [|[y m] r IH]; intros Hnd Hin; [inversion Hin|].
  cbn [fmap list_fmap fst] in Hnd. apply NoDup_cons in Hnd as [Hy Hr].
  cbn [Py.getitem]. apply elem_of_cons in Hin as [Heq|Hin].
  - inversion Heq; subst. rewrite String.eqb_refl. reflexivity.
  - destruct (String.eqb_spec k y) as [->|_]; [|apply IH; assumption].
    exfalso. apply Hy. change (y ∈ r.*1). apply list_elem_of_fmap.
    exists (y, n). split; [reflexivity|exact Hin].
Qed.

Lemma elem_of_getitem (k : string) (n : nat) (c : list (string * nat)) :
  Py.getitem k c = Some n → (k, n) ∈ c.
Proof.
  induction c as [|[y m] r IH]; cbn [Py.getitem]; [discriminate|].
  destruct (String.eqb_spec k y) as [->|_].
  - intros [= ->]. apply elem_of_cons. left. reflexivity.
  - intros H. apply elem_of_cons. right. apply IH, H.
Qed.

Lemma first_max_spec (best : string * nat) (items : list (string * nat)) :
  Py.first_max best items ∈ best :: items
  ∧ ∀ e, e ∈ best :: items → (snd e ≤ snd (Py.first_max best items))%nat.
Proof.
  revert best. induction items as [|it r IH]; intros best; cbn [Py.first_max].
  - split; [apply elem_of_cons; left; reflexivity|].
    intros e He. apply list_elem_of_singleton in He as ->. lia.
  - destruct (IH (if (snd best <? snd it)%nat then it else best)) as [Hin Hmax].
    split.
    + rewrite !elem_of_cons. apply elem_of_cons in Hin as [Heq|Hin].
      * rewrite Heq. destruct (snd best <? snd it)%nat; tauto.
      * tauto.
    + intros e He.
      assert (Hpick : (snd best ≤ snd (if (snd best <? snd it)%nat then it else best)
                       ∧ snd it ≤ snd (if (snd best <? snd it)%nat then it else best))%nat).
      { destruct (Nat.ltb_spec (snd best) (snd it)); lia. }
      pose proof (Hmax _ ltac:(apply elem_of_cons; left; reflexivity)) as Hp.
      apply elem_of_cons in He as [->|He]; [lia|].
      apply elem_of_cons in He as [->|He]; [lia|].
      apply Hmax. apply elem_of_cons. right. exact He.
Qed.

(** [Counter(l).most_common(1)] names a most frequent element of a
    non-empty [l]. *)
Lemma most_common_most_frequent (l : list string) :
  l ≠ [] →
  ∃ t n, Py.most_common_1 (Py.Counter l) = [(t, n)] ∧ most_frequent t l.
Proof.
  intros Hne.
  assert (Hcount : ∀ k, Py.count_of (Py.Counter l) k = occurrences k l).
  { intros k. unfold Py.Counter. rewrite count_of_fold. reflexivity. }
  assert (Hkeys : ∀ k, k ∈ (Py.Counter l).*1 ↔ k ∈ l).
  { intros k. unfold Py.Counter. rewrite keys_fold. split; [|left; assumption].
    intros [H|H]; [assumption|inversion H]. }
  assert (Hnd : NoDup (Py.Counter l).*1).
  { unfold Py.Counter. apply keys_fold_NoDup. constructor. }
  destruct (Py.Counter l) as [|it r] eqn:Ec.
  { destruct l as [|x l]; [contradiction|].
    exfalso. assert (Hx : x ∈ ([] : list (string * nat)).*1).
    { apply Hkeys. left. } inversion Hx. }
  cbn [Py.most_common_1]. destruct (first_max_spec it r) as [Hin Hmax].
  destruct (Py.first_max it r) as [t n] eqn:Ef.
  exists t, n. split; [reflexivity|]. split.
  - apply Hkeys. apply list_elem_of_fmap. exists (t, n). split; [reflexivity|exact Hin].
  - intros t'. rewrite <- !Hcount. unfold Py.count_of.
    rewrite (getitem_of_elem t n _ Hnd Hin). cbn [default].
    destruct (Py.getitem t' (it :: r)) as [m|] eqn:Eg; cbn [default]; [|lia].
    apply elem_of_getitem in Eg. exact (Hmax _ Eg).
Qed.

End Counters.

(** ** Aggregation *)

Section Aggregation.

Lemma half_lt (total votes : nat) :
  (Py.of_nat total / 2 < Py.of_nat votes)%Q ↔ (total < 2 * votes)%nat.
Proof.
  unfold Py.of_nat, Qlt, Qdiv, Qmult, Qinv, inject_Z. cbn. lia.
Qed.

Lemma code_types_named (verdicts : list HallucinationResult) :
  omap hallucination_type
       (List.filter (fun r => truthy (hallucination_type r)) verdicts)
  = named_types verdicts.
Proof.
  unfold named_types.
  induction verdicts as [|r rs IH]; [reflexivity|].
  cbn [List.filter flat_map]. unfold truthy at 1.
  destruct (hallucination_type r) as [t|] eqn:Et; [|exact IH].
  destruct (String.eqb t "") eqn:Ee; cbn [negb]; [exact IH|].
  cbn [omap list_omap]. rewrite Et. cbn [app]. f_equal. exact IH.
Qed.

Lemma named_types_voting (results : list (string * HallucinationResult)) :
  (∀ r, r ∈ values results → is_hallucination r = false → hallucination_type r = None) →
  named_types (values results) = named_types (voting results).
Proof.
  unfold voting. induction (values results) as [|r rs IH]; intros Hnull; [reflexivity|].
  assert (Hrs : named_types rs = named_types (List.filter is_hallucination rs)).
  { apply IH. intros r' Hr'. apply Hnull. apply elem_of_cons. right. exact Hr'. }
  cbn [List.filter]. destruct (is_hallucination r) eqn:Eh.
  - unfold named_types in *. cbn [flat_map]. rewrite Hrs. reflexivity.
  - unfold named_types in *. cbn [flat_map].
    rewrite (Hnull r ltac:(apply elem_of_cons; left; reflexivity) Eh). exact Hrs.
Qed.

(** C6, as the code has it: on a non-empty mapping, the verdict is a
    hallucination exactly when the hallucination votes exceed half of the
    total; the confidence is the mean confidence of the voting verdicts, 0
    when none votes; the primary type is a most frequent one among the
    non-empty types of all the verdicts of the mapping, voting or not, and
    "unknown" when no verdict has one.  When no non-voting verdict carries a
    type, these are the types of the voting verdicts. *)
Theorem aggregate_verdict (results : list (string * HallucinationResult)) :
  results ≠ [] →
  ∃ (verdict : bool) (conf : Q) (primary_type : string),
    aggregate_detection_results results = (verdict, conf, primary_type)
    ∧ (verdict = true ↔ (length results < 2 * length (voting results))%nat)
    ∧ (voting results = [] → conf == 0)%Q
    ∧ (voting results ≠ [] →
       conf == Py.Qsum (map confidence (voting results))
               / Py.of_nat (length (voting results)))%Q
    ∧ (named_types (values results) = [] → primary_type = "unknown")
    ∧ (named_types (values results) ≠ [] →
       most_frequent primary_type (named_types (values results)))
    ∧ ((∀ r, r ∈ values results → is_hallucination r = false →
             hallucination_type r = None) →
       named_types (values results) = named_types (voting results)).
Proof.
  intros Hne. destruct results as [|entry rest] eqn:Er; [contradiction|].
  rewrite <- Er in *. clear Hne.
  assert (Hunfold : aggregate_detection_results results
    = (Py.Qltb (Py.of_nat (length results) / 2)
               (Py.of_nat (length (voting results))),
       match map confidence (voting results) with
       | [] => 0.0%Q
       | _ => Py.mean (map confidence (voting results))
       end,
       match Py.most_common_1 (Py.Counter (named_types (values results))) with
       | (t, _) :: _ => t
       | [] => "unknown"
       end)).
  { rewrite <- code_types_named. rewrite Er. reflexivity. }
  do 3 eexists. split; [exact Hunfold|].
  split; [rewrite Qltb_lt; apply half_lt|].
  split; [intros ->; reflexivity|].
  split.
  { intros Hv. destruct (voting results) as [|v vs]; [contradiction|].
    cbn [map]. unfold Py.mean. cbn [length]. rewrite length_map. reflexivity. }
  split; [intros ->; reflexivity|].
  split; [|apply named_types_voting].
  intros Htypes. destruct (most_common_most_frequent _ Htypes) as (t & n & -> & Hmost).
  exact Hmost.
Qed.

Lemma aggregate_verdict_witness :
  [("factual", detect_factual_error "Lyon" "Paris");
   ("entity", detect_entity_hallucination "The capital is Lyon" ["Paris"]);
   ("temporal", detect_temporal_error "The capital is Lyon" None)] ≠ []
  ∧ ∃ conf,
      aggregate_detection_results
        [("factual", detect_factual_error "Lyon" "Paris");
         ("entity", detect_entity_hallucination "The capital is Lyon" ["Paris"]);
         ("temporal", detect_temporal_error "The capital is Lyon" None)]
      = (true, conf, "fabrication")
      ∧ (conf == 0.9)%Q.
Proof.
  split; [discriminate|].
  destruct (aggregate_verdict
              [("factual", detect_factual_error "Lyon" "Paris");
               ("entity", detect_entity_hallucination "The capital is Lyon" ["Paris"]);
               ("temporal", detect_temporal_error "The capital is Lyon" None)]
              ltac:(discriminate))
    as (verdict & conf & primary & Hagg & _ & _ & Hconf & _).
  exists conf. split.
  - rewrite Hagg. vm_compute in Hagg. inversion Hagg. reflexivity.
  - rewrite Hconf by (vm_compute; discriminate). vm_compute. reflexivity.
Defined.

(** C6, as stated, fails: a single verdict that does not vote
    "hallucination" but carries a type makes that type the primary type,
    where the claim has "unknown" because no verdict votes. *)
Lemma aggregate_counts_non_voting_types :
  named_types (voting [("external", cleared_with_type)]) = []
  ∧ aggregate_detection_results [("external", cleared_with_type)]
    = (false, 0.0%Q, "factual_error")
  ∧ (aggregate_detection_results [("external", cleared_with_type)]).2 ≠ "unknown".
Proof. split; [reflexivity|]. split; [reflexivity|discriminate]. Qed.

End Aggregation.

(** ** Temporal verification *)

Section Temporal.

Lemma append_cons (c : ascii) (a b : string) :
  String c a +:+ b = String c (a +:+ b).
Proof. reflexivity. Qed.

Lemma append_empty (b : string) : EmptyString +:+ b = b.
Proof. reflexivity. Qed.

Lemma app_snoc (pre : string) (c : ascii) (r : string) :
  (pre +:+ String c EmptyString) +:+ r = pre +:+ String c r.
Proof.
  induction pre as [|a pre IH]; [reflexivity|].
  change (String a ((pre +:+ String c EmptyString) +:+ r) = String a (pre +:+ String c r)).
  rewrite IH. reflexivity.
Qed.

Lemma last_char_snoc (pre : string) (c : ascii) :
  last_char (pre +:+ String c EmptyString) = Some c.
Proof.
  unfold last_char.
  assert (Hsplit : String.list_ascii_of_string (pre +:+ String c EmptyString)
                   = (String.list_ascii_of_string pre ++ [c])%list).
  { induction pre as [|a pre IH]; [reflexivity|].
    change (a :: String.list_ascii_of_string (pre +:+ String c EmptyString)
            = a :: (String.list_ascii_of_string pre ++ [c])%list).
    rewrite IH. reflexivity. }
  rewrite Hsplit. apply last_snoc.
Qed.

(** Where the pattern matches nowhere, [findall] finds nothing. *)
Lemma findall_from_nil (m : matcher) (text : string) :
  (∀ p s, text = p +:+ s → m (last_char p) s = None) →
  ∀ s pre skip, text = pre +:+ s → findall_from m skip (last_char pre) s = [].
Proof.
  intros Hnone. induction s as [|c r IH]; intros pre skip Htext; [reflexivity|].
  assert (Hnext : ∀ k, findall_from m k (Some c) r = []).
  { intros k. rewrite <- (last_char_snoc pre c). apply IH.
    rewrite app_snoc. exact Htext. }
  cbn [findall_from]. destruct skip as [|k]; [|apply Hnext].
  rewrite (Hnone pre (String c r) Htext). apply Hnext.
Qed.

(** What [findall] finds, the pattern matched somewhere. *)
Lemma findall_from_elem (m : matcher) (x : string) :
  ∀ s skip prev, x ∈ findall_from m skip prev s →
  ∃ prev' s' n, m prev' s' = Some n ∧ x = String.substring 0 n s'.
Proof.
  induction s as [|c r IH]; intros skip prev; cbn [findall_from]; [inversion 1|].
  destruct skip as [|k]; [|apply IH].
  destruct (m prev (String c r)) as [n|] eqn:Em; [|apply IH].
  intros Hin. apply elem_of_cons in Hin as [->|Hin]; [|exact (IH _ _ Hin)].
  exists prev, (String c r), n. split; [exact Em|reflexivity].
Qed.

Lemma isdigit_code (c : ascii) : isdigit c = true → (48 ≤ code c ≤ 57)%N.
Proof.
  unfold isdigit, in_range. rewrite andb_true_iff, !N.leb_le. tauto.
Qed.

Lemma isdigit_isword (c : ascii) : isdigit c = true → isword c = true.
Proof.
  intros H. unfold isword. rewrite H. destruct (isupper c), (islower c); reflexivity.
Qed.

(** A match of the year pattern is a year-like token. *)
Lemma year_pattern_token (prev : option ascii) (s : string) (n : nat) :
  year_pattern prev s = Some n →
  ∃ y suf, s = y +:+ suf ∧ String.substring 0 n s = y
           ∧ String.length y = 4%nat ∧ all_digits y = true
           ∧ (1000 ≤ int_of y ≤ 2029)%Z
           ∧ isword_at prev = false ∧ isword_at (head suf) = false.
Proof.
  unfold year_pattern.
  destruct s as [|a [|b [|c [|d rest]]]]; try discriminate.
  destruct (boundary prev (Some a)) eqn:Hb1; [|discriminate].
  destruct (boundary (Some d) (head rest)) eqn:Hb2;
    [|rewrite andb_false_r; discriminate].
  rewrite andb_true_l, andb_true_r.
  destruct (_ || _) eqn:Hshape; [|discriminate]. intros [= <-].
  assert (Hdigits : isdigit a = true ∧ isdigit b = true ∧ isdigit c = true
                    ∧ isdigit d = true
                    ∧ ((code a = 49)%N
                       ∨ (code a = 50 ∧ code b = 48 ∧ code c ≤ 50)%N)).
  { apply orb_true_iff in Hshape as [H|H];
      rewrite !andb_true_iff in H; unfold is_char in H.
    - destruct H as [[[Ha Hb] Hc] Hd]. apply N.eqb_eq in Ha.
      repeat split; try assumption; [|left; exact Ha].
      unfold isdigit, in_range. rewrite Ha. reflexivity.
    - destruct H as [[[Ha Hb] Hc] Hd]. apply N.eqb_eq in Ha, Hb.
      unfold in_range in Hc. rewrite andb_true_iff, !N.leb_le in Hc.
      repeat split; try assumption.
      + unfold isdigit, in_range. rewrite Ha. reflexivity.
      + unfold isdigit, in_range. rewrite Hb. reflexivity.
      + unfold isdigit, in_range. rewrite andb_true_iff, !N.leb_le. lia.
      + right. repeat split; [exact Ha|exact Hb|tauto]. }
  destruct Hdigits as (Ha & Hb & Hc & Hd & Hwindow).
  exists (String a (String b (String c (String d EmptyString)))), rest.
  split; [reflexivity|]. split; [destruct rest; reflexivity|]. split; [reflexivity|].
  split; [unfold all_digits; cbn; rewrite Ha, Hb, Hc, Hd; reflexivity|].
  split.
  - unfold int_of. cbn [digits_value]. rewrite Ha, Hb, Hc, Hd.
    apply isdigit_code in Ha, Hb, Hc, Hd. lia.
  - unfold boundary in Hb1, Hb2. cbn [isword_at] in Hb1, Hb2.
    rewrite (isdigit_isword a Ha) in Hb1. rewrite (isdigit_isword d Hd) in Hb2.
    split.
    + destruct (isword_at prev); [discriminate|reflexivity].
    + destruct (isword_at (head rest)); [discriminate|reflexivity].
Qed.

Lemma no_year_token_no_years (text : string) :
  no_year_token text → extract_years text = [].
Proof.
  intros Hno. unfold extract_years, findall.
  change None with (last_char EmptyString).
  rewrite (findall_from_nil year_pattern text); [reflexivity| |reflexivity].
  intros p s Htext. destruct (year_pattern (last_char p) s) as [n|] eqn:Em; [|reflexivity].
  apply year_pattern_token in Em as (y & suf & -> & _ & Hlen & Hdig & Hwin & Hpre & Hsuf).
  exfalso. apply (Hno p y suf Htext).
  exact (conj Hlen (conj Hdig (conj Hwin (conj Hpre Hsuf)))).
Qed.

Lemma extract_years_window (text : string) :
  Forall (fun y => 1000 ≤ y ≤ 2029)%Z (extract_years text).
Proof.
  unfold extract_years, findall. apply Forall_forall. intros y Hy.
  apply list_elem_of_In, in_map_iff in Hy as (x & <- & Hx).
  apply list_elem_of_In, findall_from_elem in Hx as (prev & s & n & Hm & ->).
  apply year_pattern_token in Hm as (tok & suf & _ & -> & _ & _ & Hwin & _).
  exact Hwin.
Qed.

(** A text without any digit has no year-like token. *)
Lemma no_digit_no_year_token (text : string) :
  forallb (fun c => negb (isdigit c)) (String.list_ascii_of_string text) = true →
  no_year_token text.
Proof.
  intros Hnodigit pre y suf Htext (Hlen & Hdig & _).
  destruct y as [|a y]; [discriminate|].
  unfold all_digits in Hdig.
  cbn [String.list_ascii_of_string forallb] in Hdig.
  apply andb_true_iff in Hdig as [Ha _].
  subst text. clear Hlen. induction pre as [|p pre IH].
  - rewrite append_empty, append_cons in Hnodigit.
    cbn [String.list_ascii_of_string forallb] in Hnodigit.
    rewrite Ha in Hnodigit. discriminate.
  - rewrite append_cons in Hnodigit.
    cbn [String.list_ascii_of_string forallb] in Hnodigit.
    apply andb_true_iff in Hnodigit as [_ Hrest]. exact (IH Hrest).
Qed.

(** C2, as the code has it: "It happened in 2099" has no year in the
    extraction window, so it gets the verdict of a text without temporal
    reference (not a hallucination, confidence 0.0), whereas 2029, inside
    the window and past the cutoff 2025, is flagged "temporal_error" with
    years_found = [2029]; every text without a year-like token gets the
    verdict "not a hallucination, confidence 0.0"; and extraction yields only
    values in 1000-2029, which are the years reported as found. *)
Theorem temporal_extraction_window :
  (∀ context_year,
     detect_temporal_error "It happened in 2099" context_year = no_temporal_reference)
  ∧ (is_hallucination (detect_temporal_error "It happened in 2029" None) = true
     ∧ hallucination_type (detect_temporal_error "It happened in 2029" None)
       = Some "temporal_error"
     ∧ Py.getitem "years_found" (evidence (detect_temporal_error "It happened in 2029" None))
       = Some (VList [VInt 2029]))
  ∧ (∀ text context_year,
       no_year_token text →
       is_hallucination (detect_temporal_error text context_year) = false
       ∧ confidence (detect_temporal_error text context_year) = 0.0%Q)
  ∧ (∀ text context_year,
       Forall (fun y => 1000 ≤ y ≤ 2029)%Z (extract_years text)
       ∧ (extract_years text ≠ [] →
          Py.getitem "years_found" (evidence (detect_temporal_error text context_year))
          = Some (VList (map VInt (extract_years text))))).
Proof.
  split; [intros ctx; reflexivity|].
  split; [repeat split|].
  split.
  - intros text ctx Hno. unfold detect_temporal_error.
    fold (extract_years text). rewrite (no_year_token_no_years text Hno).
    split; reflexivity.
  - intros text ctx. split; [apply extract_years_window|].
    intros Hne. unfold detect_temporal_error. fold (extract_years text).
    destruct (extract_years text) as [|y ys]; [contradiction|reflexivity].
Qed.

Lemma temporal_extraction_window_witness :
  no_year_token "Plain text, no dates"
  ∧ is_hallucination (detect_temporal_error "Plain text, no dates" None) = false
  ∧ confidence (detect_temporal_error "Plain text, no dates" None) = 0.0%Q.
Proof.
  assert (Hno : no_year_token "Plain text, no dates")
    by (apply no_digit_no_year_token; reflexivity).
  split; [exact Hno|].
  destruct temporal_extraction_window as (_ & _ & Hplain & _).
  exact (Hplain "Plain text, no dates" None Hno).
Defined.

(** C2, as stated, fails: "It happened in 2099" is not flagged. *)
Lemma temporal_2099_not_flagged :
  ¬ (is_hallucination (detect_temporal_error "It happened in 2099" None) = true
     ∧ hallucination_type (detect_temporal_error "It happened in 2099" None)
       = Some "temporal_error"
     ∧ Py.getitem "years_found" (evidence (detect_temporal_error "It happened in 2099" None))
       = Some (VList [VInt 2099])).
Proof. intros [H _]. vm_compute in H. discriminate. Qed.

End Temporal.

(** ** Metrics: length mismatches *)

Section Lengths.

Lemma length_neq_eqb (a b : nat) : a ≠ b → negb (a =? b)%nat = true.
Proof. intros H. apply negb_true_iff, Nat.eqb_neq, H. Qed.

Lemma length_eq_eqb (a b : nat) : a = b → negb (a =? b)%nat = false.
Proof. intros H. apply negb_false_iff, Nat.eqb_eq, H. Qed.

Lemma accuracy_returns (predictions ground_truth : list bool) :
  length predictions = length ground_truth →
  ∃ q, accuracy predictions ground_truth = Py.Ok q.
Proof.
  intros H. unfold accuracy. rewrite (length_eq_eqb _ _ H). eexists. reflexivity.
Qed.

Lemma precision_recall_f1_returns (predictions ground_truth : list bool) :
  length predictions = length ground_truth →
  ∃ m, precision_recall_f1 predictions ground_truth = Py.Ok m.
Proof.
  intros H. unfold precision_recall_f1. rewrite (length_eq_eqb _ _ H).
  eexists. reflexivity.
Qed.

Lemma keys_setitem {V} (k x : string) (v : V) (d : list (string * V)) :
  k ∈ (Py.setitem x v d).*1 ↔ k = x ∨ k ∈ d.*1.
Proof.
  induction d as [|[y w] r IH]; cbn [Py.setitem].
  - cbn. rewrite list_elem_of_singleton. split; [left; assumption|].
    intros [H|H]; [assumption|inversion H].
  - destruct (String.eqb_spec x y) as [->|Hxy]; cbn [fmap list_fmap fst].
    + rewrite elem_of_cons. tauto.
    + rewrite !elem_of_cons, IH. tauto.
Qed.

Lemma same_length_keys_cons {A} (n : nat) (k name : string) (l : list A)
    (d : list (string * list A)) :
  same_length_keys n ((name, l) :: d) k
  ↔ (k = name ∧ length l = n) ∨ same_length_keys n d k.
Proof.
  unfold same_length_keys. split.
  - intros (l' & Hin & Hlen). apply elem_of_cons in Hin as [Heq|Hin].
    + injection Heq as -> ->. left. split; [reflexivity|exact Hlen].
    + right. exists l'. split; assumption.
  - intros [[-> Hlen]|(l' & Hin & Hlen)].
    + exists l. split; [apply elem_of_cons; left; reflexivity|assumption].
    + exists l'. split; [apply elem_of_cons; right; assumption|assumption].
Qed.

(** The loop of [compare_methods] returns, and stores exactly the methods
    whose predictions are as long as the ground truth. *)
Lemma compare_loop_returns (ground_truth : list bool) :
  ∀ items comparison,
  ∃ r, compare_loop items ground_truth comparison = Py.Ok r
       ∧ ∀ k, k ∈ r.*1 ↔ k ∈ comparison.*1
                          ∨ same_length_keys (length ground_truth) items k.
Proof.
  induction items as [|[name predictions] rest IH]; intros comparison.
  - exists comparison. split; [reflexivity|]. intros k. split; [left; assumption|].
    intros [H|(l & Hin & _)]; [assumption|inversion Hin].
  - cbn [compare_loop].
    destruct (Nat.eq_dec (length predictions) (length ground_truth)) as [Heq|Hne].
    + rewrite (length_eq_eqb _ _ Heq).
      destruct (precision_recall_f1_returns _ _ Heq) as [m ->].
      destruct (accuracy_returns _ _ Heq) as [q ->].
      cbn [mbind Py.result_bind].
      destruct (IH (Py.setitem name
                      {| method_prf := m; method_accuracy := q;
                         method_hallucination_rate := hallucination_rate predictions |}
                      comparison)) as (r & Hr & Hkeys).
      exists r. split; [exact Hr|]. intros k.
      rewrite Hkeys, keys_setitem, same_length_keys_cons. tauto.
    + rewrite (length_neq_eqb _ _ Hne).
      destruct (IH comparison) as (r & Hr & Hkeys).
      exists r. split; [exact Hr|]. intros k.
      rewrite Hkeys, same_length_keys_cons. tauto.
Qed.

(** The loop of [model_comparison] never raises a length-mismatch error,
    and with a non-empty list of ground truths it returns, storing exactly the
    models whose responses are as long as the ground truths. *)
Lemma model_loop_returns (ground_truths : list string) :
  ∀ items comparison,
  (∀ msg, model_loop items ground_truths comparison ≠ Py.Raise (Py.ValueError msg))
  ∧ (ground_truths ≠ [] →
     ∃ r, model_loop items ground_truths comparison = Py.Ok r
          ∧ ∀ k, k ∈ r.*1 ↔ k ∈ comparison.*1
                             ∨ same_length_keys (length ground_truths) items k).
Proof.
  induction items as [|[name responses] rest IH]; intros comparison.
  - split; [discriminate|]. intros _.
    exists comparison. split; [reflexivity|]. intros k. split; [left; assumption|].
    intros [H|(l & Hin & _)]; [assumption|inversion Hin].
  - cbn [model_loop].
    destruct (Nat.eq_dec (length responses) (length ground_truths)) as [Heq|Hne].
    + rewrite (length_eq_eqb _ _ Heq).
      rewrite length_map, length_zip, <- Heq, Nat.min_id.
      destruct responses as [|x xs].
      * split; [discriminate|]. intros Hgt. destruct ground_truths; [contradiction|].
        discriminate.
      * cbn [length Py.div mbind Py.result_bind].
        match goal with
        | |- context [model_loop rest ground_truths ?c] =>
            destruct (IH c) as [Hno Hret]
        end.
        split; [exact Hno|]. intros Hgt. destruct (Hret Hgt) as (r & Hr & Hkeys).
        exists r. split; [exact Hr|]. intros k.
        rewrite Hkeys, keys_setitem, same_length_keys_cons, <- Heq. cbn [length]. tauto.
    + rewrite (length_neq_eqb _ _ Hne). destruct (IH comparison) as [Hno Hret].
      split; [exact Hno|]. intros Hgt. destruct (Hret Hgt) as (r & Hr & Hkeys).
      exists r. split; [exact Hr|]. intros k.
      rewrite Hkeys, same_length_keys_cons. tauto.
Qed.

(** C3, as the code has it: [accuracy], [precision_recall_f1],
    [confidence_calibration], [error_analysis_by_type] and
    [mitigation_effectiveness] raise a length-mismatch [ValueError] on
    sequences of unequal length; [compare_methods] and [model_comparison]
    raise no such error: they leave out the entries whose sequence differs in
    length from the ground truth and report on exactly the others
    ([compare_methods] always returns; [model_comparison] returns whenever
    the list of ground truths is not empty). *)
Theorem length_mismatch_handling :
  (∀ predictions ground_truth : list bool,
     length predictions ≠ length ground_truth →
     accuracy predictions ground_truth
     = Py.Raise (Py.ValueError "Predictions and ground truth must have same length")
     ∧ precision_recall_f1 predictions ground_truth
       = Py.Raise (Py.ValueError "Predictions and ground truth must have same length")
     ∧ mitigation_effectiveness predictions ground_truth
       = Py.Raise (Py.ValueError "Inputs must have same length"))
  ∧ (∀ (confidences : list Q) (correct : list bool) (num_bins : nat),
       length confidences ≠ length correct →
       confidence_calibration confidences correct num_bins
       = Py.Raise (Py.ValueError "Confidences and correct must have same length"))
  ∧ (∀ (predictions ground_truth : list bool) (hallucination_types : list string),
       ¬ (length predictions = length ground_truth
          ∧ length ground_truth = length hallucination_types) →
       error_analysis_by_type predictions ground_truth hallucination_types
       = Py.Raise (Py.ValueError "All inputs must have same length"))
  ∧ (∀ (method_results : list (string * list bool)) (ground_truth : list bool),
       ∃ r, compare_methods method_results ground_truth = Py.Ok r
            ∧ ∀ k, k ∈ r.*1 ↔ same_length_keys (length ground_truth) method_results k)
  ∧ (∀ (model_responses : list (string * list string)) (ground_truths : list string),
       (∀ msg, model_comparison model_responses ground_truths
               ≠ Py.Raise (Py.ValueError msg))
       ∧ (ground_truths ≠ [] →
          ∃ r, model_comparison model_responses ground_truths = Py.Ok r
               ∧ ∀ k, k ∈ r.*1
                      ↔ same_length_keys (length ground_truths) model_responses k)).
Proof.
  split; [|split; [|split; [|split]]].
  - intros p g Hne. unfold accuracy, precision_recall_f1, mitigation_effectiveness.
    rewrite (length_neq_eqb _ _ Hne). repeat split.
  - intros c k n Hne. unfold confidence_calibration.
    rewrite (length_neq_eqb _ _ Hne). reflexivity.
  - intros p g t Hne. unfold error_analysis_by_type.
    destruct (negb _) eqn:E; [reflexivity|].
    apply negb_false_iff, andb_true_iff in E as [E1 E2].
    apply Nat.eqb_eq in E1, E2. tauto.
  - intros mr gt. unfold compare_methods.
    destruct (compare_loop_returns gt mr []) as (r & Hr & Hkeys).
    exists r. split; [exact Hr|]. intros k. rewrite Hkeys. split; [|right; assumption].
    intros [H|H]; [inversion H|assumption].
  - intros mr gt. unfold model_comparison.
    destruct (model_loop_returns gt mr []) as [Hno Hret].
    split; [exact Hno|]. intros Hgt. destruct (Hret Hgt) as (r & Hr & Hkeys).
    exists r. split; [exact Hr|]. intros k. rewrite Hkeys. split; [|right; assumption].
    intros [H|H]; [inversion H|assumption].
Qed.

Lemma length_mismatch_handling_witness :
  length [true; false; true] ≠ length [true; false]
  ∧ accuracy [true; false; true] [true; false]
    = Py.Raise (Py.ValueError "Predictions and ground truth must have same length")
  ∧ ["Paris"; "Rome"] ≠ []
  ∧ ∃ r, model_comparison [("small", ["Paris"]); ("large", ["paris"; "Milan"])]
                          ["Paris"; "Rome"] = Py.Ok r
         ∧ r.*1 = ["large"].
Proof.
  destruct length_mismatch_handling as (Hraise & _ & _ & _ & Hmodels).
  assert (Hne : length [true; false; true] ≠ length [true; false]) by discriminate.
  assert (Hgt : ["Paris"; "Rome"] ≠ []) by discriminate.
  split; [exact Hne|].
  split; [exact (proj1 (Hraise _ _ Hne))|].
  split; [exact Hgt|].
  destruct (proj2 (Hmodels [("small", ["Paris"]); ("large", ["paris"; "Milan"])]
                           ["Paris"; "Rome"]) Hgt) as (r & Hr & _).
  exists r. split; [exact Hr|].
  vm_compute in Hr. inversion Hr. reflexivity.
Defined.

(** C3, as stated, fails: on predictions longer than the ground truth
    [compare_methods] raises nothing and returns the empty mapping, and so
    does [model_comparison]. *)
Lemma comparisons_skip_length_mismatch :
  length [true; false] ≠ length [true]
  ∧ compare_methods [("self_consistency", [true; false])] [true] = Py.Ok []
  ∧ model_comparison [("gemini", ["Paris"; "Rome"])] ["Paris"] = Py.Ok [].
Proof. split; [discriminate|]. split; reflexivity. Qed.

End Lengths.

(** ** Metrics: calibration *)

Section Calibration.

Lemma Qsum_snoc (l : list Q) (x : Q) : (Py.Qsum (l ++ [x]) == Py.Qsum l + x)%Q.
Proof.
  unfold Py.Qsum. induction l as [|y l IH]; cbn [app foldr].
  - ring.
  - rewrite IH. ring.
Qed.

Lemma select_nonempty {A} (mask : list bool) (l : list A) :
  length mask = length l → existsb id mask = true → select mask l ≠ [].
Proof.
  unfold select. revert l. induction mask as [|b mask IH]; intros [|x l] Hlen Hex;
    try discriminate.
  cbn [zip zip_with List.filter fst]. destruct b; [discriminate|].
  apply IH; [cbn in Hlen; lia|exact Hex].
Qed.

Lemma bin_step_invariant (confidences : list Q) (correct : list bool)
    (edges : list Q) (bin_indices : list Z) (st : Q * list bin_info) (i : nat) :
  length bin_indices = length confidences →
  loop_invariant (length confidences) st →
  loop_invariant (length confidences)
    (bin_step confidences correct edges bin_indices (length confidences) st i).
Proof.
  intros Hlen [Hsum Hocc]. destruct st as [total_ece bin_data].
  unfold bin_step. destruct (negb _) eqn:Emask; [split; assumption|].
  apply negb_false_iff in Emask.
  assert (Hne : select (map (fun b => (b =? Z.of_nat i)%Z) bin_indices) confidences ≠ []).
  { apply select_nonempty; [rewrite length_map; exact Hlen|exact Emask]. }
  split; cbn [fst snd] in *.
  - unfold weighted_gap_sum in *. rewrite map_app. cbn [map].
    rewrite Qsum_snoc, Hsum.
    cbn [bin_count avg_confidence bin_accuracy]. reflexivity.
  - apply Forall_app. split; [exact Hocc|]. constructor; [|constructor].
    split; cbn [bin_count gap avg_confidence bin_accuracy]; [|reflexivity].
    destruct (select _ confidences); [contradiction|cbn; lia].
Qed.

Lemma fold_bin_step_invariant (confidences : list Q) (correct : list bool)
    (edges : list Q) (bin_indices : list Z) (range : list nat) (st : Q * list bin_info) :
  length bin_indices = length confidences →
  loop_invariant (length confidences) st →
  loop_invariant (length confidences)
    (fold_left (bin_step confidences correct edges bin_indices (length confidences)) range st).
Proof.
  intros Hlen. revert st. induction range as [|i range IH]; intros st Hinv; [exact Hinv|].
  cbn [fold_left]. apply IH, bin_step_invariant; assumption.
Qed.

(** [confidence_calibration] returns on sequences of equal length, and its
    error is the count-weighted gap sum of the occupied bins it lists. *)
Lemma calibration_weighted_sum (confidences : list Q) (correct : list bool)
    (num_bins : nat) :
  length confidences = length correct →
  ∃ r, confidence_calibration confidences correct num_bins = Py.Ok r
       ∧ (ece r == weighted_gap_sum (length confidences) (bins r))%Q
       ∧ Forall occupied_bin (bins r).
Proof.
  intros Hlen. unfold confidence_calibration. rewrite (length_eq_eqb _ _ Hlen).
  destruct confidences as [|c cs] eqn:Ec.
  { eexists. split; [reflexivity|]. split; [reflexivity|constructor]. }
  rewrite <- Ec in *. clear Ec.
  pose proof (fold_bin_step_invariant confidences correct
                (linspace_0_1 (num_bins + 1)) (bin_indices_of confidences num_bins)
                (seq 0 num_bins) (0.0%Q, [])) as Hinv.
  destruct (fold_left _ _ _) as [total_ece bin_data].
  destruct Hinv as [Hsum Hocc].
  - unfold bin_indices_of. rewrite length_map. reflexivity.
  - split; [reflexivity|constructor].
  - eexists. split; [reflexivity|]. split; [exact Hsum|exact Hocc].
Qed.

(** C1, as the code has it: for confidences [0.9, 0.9], both correct, and
    10 bins, the only occupied bin is bin 9 with 2 samples, mean confidence
    0.9 and accuracy 1.0, and the expected calibration error is their
    distance 0.1; in general the error returned is the count-weighted sum of
    [|avg_confidence − accuracy|] over the non-empty bins. *)
Theorem calibration_example :
  (∃ r b, confidence_calibration [0.9; 0.9]%Q [true; true] 10 = Py.Ok r
          ∧ (ece r == 0.1)%Q
          ∧ bins r = [b]
          ∧ bin b = 9%nat ∧ bin_count b = 2%nat
          ∧ (avg_confidence b == 0.9)%Q ∧ (bin_accuracy b == 1.0)%Q
          ∧ (gap b == 0.1)%Q)
  ∧ (∀ (confidences : list Q) (correct : list bool) (num_bins : nat),
       length confidences = length correct →
       ∃ r, confidence_calibration confidences correct num_bins = Py.Ok r
            ∧ (ece r == weighted_gap_sum (length confidences) (bins r))%Q
            ∧ Forall occupied_bin (bins r)).
Proof.
  split; [|exact calibration_weighted_sum].
  do 2 eexists. split; [vm_compute; reflexivity|].
  cbn [ece bins]. split; [reflexivity|]. split; [reflexivity|].
  cbn [bin bin_count avg_confidence bin_accuracy gap]. repeat split.
Qed.

Lemma calibration_example_witness :
  length [0.95; 0.15; 1; 0; 0.1]%Q = length [true; true; false; false; true]
  ∧ ∃ r, confidence_calibration [0.95; 0.15; 1; 0; 0.1]%Q
                                [true; true; false; false; true] 10 = Py.Ok r
         ∧ (ece r == weighted_gap_sum 5 (bins r))%Q
         ∧ map bin (bins r) = [0; 1; 9]%nat.
Proof.
  assert (Hlen : length [0.95; 0.15; 1; 0; 0.1]%Q
                 = length [true; true; false; false; true]) by reflexivity.
  split; [exact Hlen|].
  destruct (proj2 calibration_example [0.95; 0.15; 1; 0; 0.1]%Q
              [true; true; false; false; true] 10%nat Hlen) as (r & Hr & Hsum & _).
  exists r. split; [exact Hr|]. split; [exact Hsum|].
  vm_compute in Hr. inversion Hr. reflexivity.
Defined.

(** C1, as stated, fails: the error on that input is not 0.0. *)
Lemma calibration_example_ece_not_zero :
  ¬ ∃ r, confidence_calibration [0.9; 0.9]%Q [true; true] 10 = Py.Ok r
         ∧ (ece r == 0.0)%Q.
Proof.
  intros (r & Hr & Hece). vm_compute in Hr. inversion Hr; subst r.
  vm_compute in Hece. discriminate.
Qed.

End Calibration.

(** * Further properties of the code *)

Import DetectionPipeline Notions.

(** ** Self-consistency: sampling and the agreement score *)

Section Sampling.
Variable generate : nat → string → Py.result string.

(** The sampling loop returns, whatever the collaborator does, and keeps
    the normalized texts of the calls that succeeded. *)
Lemma sample_collects (prompt : string) (num i : nat) (responses : list string) :
  sample generate prompt i num responses
  = Py.Ok (responses ++ successful_responses generate prompt i num)%list.
Proof.
  unfold successful_responses. revert i responses.
  induction num as [|k IH]; intros i responses.
  - cbn. rewrite app_nil_r. reflexivity.
  - cbn [sample seq omap list_omap].
    destruct (generate i prompt) as [text|e]; cbn; rewrite IH.
    + rewrite <- app_assoc. reflexivity.
    + reflexivity.
Qed.

Lemma self_consistency_unfold (prompt : string) (num_samples : nat) :
  ∃ v, detect_self_consistency generate prompt num_samples = Py.Ok v
       ∧ ((length (successful_responses generate prompt 0 num_samples) < 2)%nat →
          hallucination_type v = Some "generation_failed"
          ∧ is_hallucination v = true ∧ confidence v = 1.0%Q)
       ∧ ((2 ≤ length (successful_responses generate prompt 0 num_samples))%nat →
          let score :=
            _calculate_agreement (successful_responses generate prompt 0 num_samples) in
          is_hallucination v = Py.Qltb score threshold
          ∧ confidence v = (Qabs (score - threshold) / threshold)%Q
          ∧ hallucination_type v
            = (if Py.Qltb score threshold then Some "inconsistency" else None)
          ∧ Py.getitem "responses" (evidence v)
            = Some (VList (map VStr (successful_responses generate prompt 0 num_samples)))).
Proof.
  unfold detect_self_consistency. rewrite sample_collects. cbn [app mbind Py.result_bind].
  destruct (length (successful_responses generate prompt 0 num_samples) <? 2)%nat eqn:E.
  - eexists. split; [reflexivity|]. apply Nat.ltb_lt in E. split.
    + intros _. repeat split.
    + intros H. lia.
  - eexists. split; [reflexivity|]. apply Nat.ltb_ge in E. split.
    + intros H. lia.
    + intros _. repeat split.
Qed.

(** X1: the two detection methods that call the text-generation
    collaborator return a verdict whenever each call of the collaborator
    returns or raises a subclass of [Exception], be it that some, all or none
    of the calls raise: their [except Exception] catches each of these.  (An
    exception outside [Exception] would pass through; it is not an outcome
    of [Py.result].) *)
Theorem collaborator_methods_return (prompt text : string) (num_samples : nat) :
  (∃ v, detect_self_consistency generate prompt num_samples = Py.Ok v)
  ∧ (∃ v, detect_contradiction generate text = Py.Ok v).
Proof.
  split.
  - destruct (self_consistency_unfold prompt num_samples) as (v & Hv & _).
    exists v. exact Hv.
  - unfold detect_contradiction.
    destruct (generate 0%nat (contradiction_prompt text)); eexists; reflexivity.
Qed.

(** X2: self-consistency gives up with "generation_failed" exactly when
    fewer than two of its calls succeed; otherwise it judges the responses of
    the calls that succeeded, and a failed call costs nothing else. *)
Theorem generation_failed_iff (prompt : string) (num_samples : nat) :
  ∃ v, detect_self_consistency generate prompt num_samples = Py.Ok v
       ∧ (hallucination_type v = Some "generation_failed"
          ↔ (length (successful_responses generate prompt 0 num_samples) < 2)%nat)
       ∧ ((2 ≤ length (successful_responses generate prompt 0 num_samples))%nat →
          Py.getitem "responses" (evidence v)
          = Some (VList (map VStr (successful_responses generate prompt 0 num_samples)))
          ∧ Py.getitem "agreement_score" (evidence v)
            = Some (VFloat (_calculate_agreement
                              (successful_responses generate prompt 0 num_samples)))).
Proof.
  destruct (self_consistency_unfold prompt num_samples) as (v & Hv & Hfew & Hmany).
  exists v. split; [exact Hv|]. split.
  - split; [|intros H; exact (proj1 (Hfew H))].
    intros Htype.
    destruct (Nat.lt_ge_cases (length (successful_responses generate prompt 0 num_samples)) 2)
      as [Hlt|Hge]; [exact Hlt|].
    destruct (Hmany Hge) as (_ & _ & Ht & _). rewrite Ht in Htype.
    destruct (Py.Qltb _ threshold); discriminate.
  - intros Hge. split; [exact (proj2 (proj2 (proj2 (Hmany Hge))))|].
    unfold detect_self_consistency in Hv. rewrite sample_collects in Hv.
    cbn [app mbind Py.result_bind] in Hv.
    apply Nat.ltb_ge in Hge. rewrite Hge in Hv. injection Hv as <-. reflexivity.
Qed.

End Sampling.

Lemma generation_failed_iff_witness :
  (2 ≤ length (successful_responses (scripted ["Paris"; " paris "; "Lyon"]) "Capital?" 0 5))%nat
  ∧ ∃ v, detect_self_consistency (scripted ["Paris"; " paris "; "Lyon"]) "Capital?" 5 = Py.Ok v
         ∧ Py.getitem "responses" (evidence v)
           = Some (VList [VStr "paris"; VStr "paris"; VStr "lyon"]).
Proof.
  assert (H : (2 ≤ length (successful_responses (scripted ["Paris"; " paris "; "Lyon"])
                             "Capital?" 0 5))%nat) by (vm_compute; lia).
  split; [exact H|].
  destruct (generation_failed_iff (scripted ["Paris"; " paris "; "Lyon"]) "Capital?" 5)
    as (v & Hv & _ & Hmany).
  exists v. split; [exact Hv|]. exact (proj1 (Hmany H)).
Defined.

(** ** Scores and confidences lie in the unit interval *)

Section UnitInterval.

Lemma most_common_count (l : list string) :
  l ≠ [] →
  ∃ t n, Py.most_common_1 (Py.Counter l) = [(t, n)]
         ∧ n = occurrences t l ∧ (1 ≤ n ≤ length l)%nat.
Proof.
  intros Hne.
  assert (Hcount : ∀ k, Py.count_of (Py.Counter l) k = occurrences k l).
  { intros k. unfold Py.Counter. rewrite count_of_fold. reflexivity. }
  assert (Hkeys : ∀ k, k ∈ (Py.Counter l).*1 ↔ k ∈ l).
  { intros k. unfold Py.Counter. rewrite keys_fold. split; [|left; assumption].
    intros [H|H]; [assumption|inversion H]. }
  assert (Hnd : NoDup (Py.Counter l).*1).
  { unfold Py.Counter. apply keys_fold_NoDup. constructor. }
  destruct (Py.Counter l) as [|it r] eqn:Ec.
  { destruct l as [|x l]; [contradiction|].
    exfalso. assert (Hx : x ∈ ([] : list (string * nat)).*1).
    { apply Hkeys. left. } inversion Hx. }
  cbn [Py.most_common_1]. destruct (first_max_spec it r) as [Hin _].
  destruct (Py.first_max it r) as [t n] eqn:Ef.
  exists t, n. split; [reflexivity|].
  assert (Hn : n = occurrences t l).
  { rewrite <- Hcount. unfold Py.count_of.
    rewrite (getitem_of_elem t n _ Hnd Hin). reflexivity. }
  split; [exact Hn|].
  assert (Ht : t ∈ l).
  { apply Hkeys. apply list_elem_of_fmap. exists (t, n). split; [reflexivity|exact Hin]. }
  subst n. unfold occurrences. split.
  - apply list_elem_of_In in Ht.
    assert (Hf : In t (List.filter (String.eqb t) l)).
    { apply filter_In. split; [exact Ht|apply String.eqb_refl]. }
    destruct (List.filter (String.eqb t) l); [inversion Hf|cbn; lia].
  - apply filter_length_le.
Qed.

Lemma of_nat_nonneg (n : nat) : (0 <= Py.of_nat n)%Q.
Proof. unfold Py.of_nat, Qle. cbn. lia. Qed.

Lemma of_nat_le (a b : nat) : (a ≤ b)%nat → (Py.of_nat a <= Py.of_nat b)%Q.
Proof. intros H. unfold Py.of_nat, Qle. cbn. lia. Qed.

(** A ratio of two counts, the first at most the second, is in the unit
    interval. *)
Lemma ratio_in_unit (a b : nat) :
  (a ≤ b)%nat → (0 < b)%nat → in_unit (Py.of_nat a / Py.of_nat b).
Proof.
  intros Hab Hb. pose proof (of_nat_pos b Hb) as Hpos.
  split.
  - apply Qle_shift_div_l; [exact Hpos|]. rewrite Qmult_0_l. apply of_nat_nonneg.
  - apply Qle_shift_div_r; [exact Hpos|]. rewrite Qmult_1_l. apply of_nat_le, Hab.
Qed.

Lemma Qsum_in_unit (l : list Q) :
  Forall in_unit l → (0 <= Py.Qsum l)%Q ∧ (Py.Qsum l <= Py.of_nat (length l))%Q.
Proof.
  induction 1 as [|q l [Hq0 Hq1] Hl [IH0 IH1]]; cbn [Py.Qsum foldr length].
  - split; [apply Qle_refl|]. unfold Py.of_nat, Qle. cbn. lia.
  - fold (Py.Qsum l). split; [lra|].
    assert (Hs : (Py.of_nat (S (length l)) == 1 + Py.of_nat (length l))%Q).
    { unfold Py.of_nat. rewrite Nat2Z.inj_succ, <- Z.add_1_l, inject_Z_plus. reflexivity. }
    rewrite Hs. lra.
Qed.

Lemma mean_in_unit (l : list Q) : l ≠ [] → Forall in_unit l → in_unit (Py.mean l).
Proof.
  intros Hne Hall. destruct (Qsum_in_unit l Hall) as [H0 H1].
  assert (Hpos : (0 < Py.of_nat (length l))%Q).
  { apply of_nat_pos. destruct l; [contradiction|cbn; lia]. }
  unfold Py.mean. split.
  - apply Qle_shift_div_l; [exact Hpos|]. rewrite Qmult_0_l. exact H0.
  - apply Qle_shift_div_r; [exact Hpos|]. rewrite Qmult_1_l. exact H1.
Qed.

Lemma pair_similarity_in_unit (a b : gset string) : Forall in_unit (pair_similarity a b).
Proof.
  unfold pair_similarity. destruct (0 <? size (a ∪ b))%nat eqn:E; [|constructor].
  constructor; [|constructor]. apply ratio_in_unit; [|apply Nat.ltb_lt, E].
  apply subseteq_size. intros x Hx. apply elem_of_intersection in Hx as [Hx _].
  apply elem_of_union. left. exact Hx.
Qed.

Lemma similarities_in_unit (token_sets : list (gset string)) :
  Forall in_unit (similarities token_sets).
Proof.
  induction token_sets as [|a rest IH]; cbn [similarities]; [constructor|].
  apply Forall_app. split; [|exact IH].
  clear IH. induction rest as [|b rest IH]; cbn [flat_map]; [constructor|].
  apply Forall_app. split; [apply pair_similarity_in_unit|exact IH].
Qed.

Lemma agreement_in_unit (responses : list string) :
  in_unit (_calculate_agreement responses).
Proof.
  destruct responses as [|x l]; [split; cbn; lra|].
  rewrite agreement_nonempty. cbv zeta.
  destruct (most_common_count (x :: l)) as (t & n & -> & _ & Hn1 & Hn2); [discriminate|].
  assert (He : in_unit (Py.of_nat n / Py.of_nat (length (x :: l))))
    by (apply ratio_in_unit; [exact Hn2|cbn; lia]).
  assert (Ht : in_unit
                 (if (1 <? length (map (fun r => token_set r) (x :: l)))%nat
                  then match similarities (map (fun r => token_set r) (x :: l)) with
                       | [] => 0
                       | sims => Py.mean sims
                       end
                  else 1)).
  { destruct (1 <? _)%nat; [|split; lra].
    pose proof (similarities_in_unit (map (fun r => token_set r) (x :: l))) as Hall.
    destruct (similarities _) as [|q qs] eqn:Es; [split; lra|].
    apply mean_in_unit; [discriminate|exact Hall]. }
  destruct He as [He0 He1], Ht as [Ht0 Ht1]. split; lra.
Qed.

(** X3: the agreement score of any list of responses lies between 0 and
    1, and it is 0 only for the empty list. *)
Theorem agreement_score_bounds (responses : list string) :
  in_unit (_calculate_agreement responses)
  ∧ ((0 < _calculate_agreement responses)%Q ↔ responses ≠ []).
Proof.
  split; [apply agreement_in_unit|].
  destruct responses as [|x l].
  - split; [intros H; cbn in H; inversion H|contradiction].
  - split; [discriminate|]. intros _.
    rewrite agreement_nonempty. cbv zeta.
    destruct (most_common_count (x :: l)) as (t & n & -> & _ & Hn1 & Hn2); [discriminate|].
    assert (He : (0 < Py.of_nat n / Py.of_nat (length (x :: l)))%Q).
    { apply Qlt_shift_div_l; [apply of_nat_pos; cbn; lia|].
      rewrite Qmult_0_l. apply of_nat_pos. lia. }
    assert (Ht : (0 <= (if (1 <? length (map (fun r => token_set r) (x :: l)))%nat
                        then match similarities (map (fun r => token_set r) (x :: l)) with
                             | [] => 0
                             | sims => Py.mean sims
                             end
                        else 1))%Q).
    { destruct (1 <? _)%nat; [|lra].
      pose proof (similarities_in_unit (map (fun r => token_set r) (x :: l))) as Hall.
      destruct (similarities _) as [|q qs] eqn:Es; [lra|].
      apply mean_in_unit; [discriminate|exact Hall]. }
    lra.
Qed.

Lemma overlap_in_unit (claim_tokens truth_tokens : gset string) :
  truth_tokens ≠ ∅ →
  in_unit (Py.of_nat (size (claim_tokens ∩ truth_tokens)) / Py.of_nat (size truth_tokens)).
Proof.
  intros Hne. apply ratio_in_unit.
  - apply subseteq_size. intros x Hx. apply elem_of_intersection in Hx as [_ Hx]. exact Hx.
  - destruct (size truth_tokens) eqn:Hs; [|lia]. apply size_empty_inv in Hs.
    apply leibniz_equiv in Hs. contradiction.
Qed.

Lemma self_consistency_confidence_in_unit (score : Q) :
  in_unit score → in_unit (Qabs (score - threshold) / threshold).
Proof.
  intros [H0 H1]. unfold threshold.
  assert (Hpos : (0 < 0.6)%Q) by reflexivity.
  split.
  - apply Qle_shift_div_l; [exact Hpos|]. rewrite Qmult_0_l. apply Qabs_nonneg.
  - apply Qle_shift_div_r; [exact Hpos|]. rewrite Qmult_1_l.
    apply Qabs_Qle_condition. split; lra.
Qed.

Lemma verdict_confidence_bounds_helper :
  (∀ claim ground_truth, in_unit (confidence (detect_factual_error claim ground_truth)))
  ∧ (∀ text context_year, in_unit (confidence (detect_temporal_error text context_year)))
  ∧ (∀ text expected_entities,
       in_unit (confidence (detect_entity_hallucination text expected_entities))).
Proof.
  split; [|split].
  - intros claim truth. unfold detect_factual_error.
    destruct (decide (token_set (normalize truth) = ∅)) as [He|Hne];
      cbn [confidence]; [split; lra|].
    destruct (overlap_in_unit (token_set (normalize claim)) _ Hne) as [H0 H1].
    split; lra.
  - intros text ctx. unfold detect_temporal_error.
    destruct (map int_of _); cbn [confidence]; [split; lra|].
    destruct (_ || _); split; lra.
  - intros text expected. unfold detect_entity_hallucination. cbn [confidence].
    destruct (_ || _); split; lra.
Qed.

(** X4: the confidence of every verdict of the five detection methods
    lies between 0 and 1. *)
Theorem verdict_confidence_in_unit :
  (∀ claim ground_truth, in_unit (confidence (detect_factual_error claim ground_truth)))
  ∧ (∀ text expected_entities,
       in_unit (confidence (detect_entity_hallucination text expected_entities)))
  ∧ (∀ text context_year, in_unit (confidence (detect_temporal_error text context_year)))
  ∧ (∀ generate prompt num_samples,
       ∃ v, detect_self_consistency generate prompt num_samples = Py.Ok v
            ∧ in_unit (confidence v))
  ∧ (∀ generate text,
       ∃ v, detect_contradiction generate text = Py.Ok v ∧ in_unit (confidence v)).
Proof.
  destruct verdict_confidence_bounds_helper as (Hfact & Htemp & Hent).
  split; [exact Hfact|]. split; [exact Hent|]. split; [exact Htemp|]. split.
  - intros generate prompt n.
    destruct (self_consistency_unfold generate prompt n) as (v & Hv & Hfew & Hmany).
    exists v. split; [exact Hv|].
    destruct (Nat.lt_ge_cases (length (successful_responses generate prompt 0 n)) 2)
      as [Hlt|Hge].
    + destruct (Hfew Hlt) as (_ & _ & ->). split; lra.
    + destruct (Hmany Hge) as (_ & -> & _).
      apply self_consistency_confidence_in_unit, agreement_in_unit.
  - intros generate text. unfold detect_contradiction.
    destruct (generate 0%nat (contradiction_prompt text)); cbn;
      eexists; (split; [reflexivity|]); cbn [confidence]; split; lra.
Qed.

End UnitInterval.

(** ** Verdicts are well typed; the detection pipeline *)

Section Pipeline.

Lemma factual_well_typed (claim ground_truth : string) :
  well_typed (detect_factual_error claim ground_truth).
Proof.
  unfold detect_factual_error, well_typed.
  destruct (decide (token_set (normalize ground_truth) = ∅)) as [He|Hne];
    cbn [is_hallucination hallucination_type]; [split; [discriminate|reflexivity]|].
  destruct (negb (_ || _ || _)); split; try discriminate; try reflexivity.
  intros _. destruct (negb _); [|destruct (Py.Qltb _ _)];
    eexists; (split; [reflexivity|discriminate]).
Qed.

Lemma entity_well_typed (text : string) (expected_entities : list string) :
  well_typed (detect_entity_hallucination text expected_entities).
Proof.
  unfold detect_entity_hallucination, well_typed.
  cbn [is_hallucination hallucination_type].
  destruct (_ || _); split; try discriminate; try reflexivity.
  intros _. eexists. split; [reflexivity|discriminate].
Qed.

Lemma temporal_well_typed (text : string) (context_year : option Z) :
  well_typed (detect_temporal_error text context_year).
Proof.
  unfold detect_temporal_error, well_typed.
  destruct (map int_of _); cbn [is_hallucination hallucination_type];
    [split; [discriminate|reflexivity]|].
  destruct (_ || _); split; try discriminate; try reflexivity.
  intros _. eexists. split; [reflexivity|discriminate].
Qed.

Lemma self_consistency_verdict (generate : nat → string → Py.result string)
    (prompt : string) (num_samples : nat) :
  ∃ v, detect_self_consistency generate prompt num_samples = Py.Ok v
       ∧ well_typed v ∧ in_unit (confidence v).
Proof.
  destruct (self_consistency_unfold generate prompt num_samples) as (v & Hv & Hfew & Hmany).
  exists v. split; [exact Hv|].
  destruct (Nat.lt_ge_cases (length (successful_responses generate prompt 0 num_samples)) 2)
    as [Hlt|Hge].
  - destruct (Hfew Hlt) as (Ht & Hh & Hc). split.
    + split; [|rewrite Hh; discriminate].
      intros _. eexists. split; [exact Ht|discriminate].
    + rewrite Hc. split; lra.
  - destruct (Hmany Hge) as (Hh & Hc & Ht & _). split.
    + unfold well_typed. rewrite Hh, Ht.
      destruct (Py.Qltb _ threshold); split; try discriminate; try reflexivity.
      intros _. eexists. split; [reflexivity|discriminate].
    + rewrite Hc. apply self_consistency_confidence_in_unit, agreement_in_unit.
Qed.

Lemma contradiction_verdict (generate : nat → string → Py.result string) (text : string) :
  ∃ v, detect_contradiction generate text = Py.Ok v
       ∧ well_typed v ∧ in_unit (confidence v).
Proof.
  unfold detect_contradiction, well_typed.
  destruct (generate 0%nat (contradiction_prompt text)) as [response|e]; cbn.
  - eexists. split; [reflexivity|]. cbn [is_hallucination hallucination_type confidence].
    split; [|split; lra].
    destruct (negb _); split; try discriminate; try reflexivity.
    intros _. eexists. split; [reflexivity|discriminate].
  - eexists. split; [reflexivity|]. cbn [is_hallucination hallucination_type confidence].
    split; [split; [discriminate|reflexivity]|split; lra].
Qed.

(** X5: every verdict of the five detection methods carries a type
    exactly when it votes "hallucination", and the type is never empty. *)
Theorem verdicts_well_typed :
  (∀ claim ground_truth, well_typed (detect_factual_error claim ground_truth))
  ∧ (∀ text expected_entities,
       well_typed (detect_entity_hallucination text expected_entities))
  ∧ (∀ text context_year, well_typed (detect_temporal_error text context_year))
  ∧ (∀ generate prompt num_samples,
       ∃ v, detect_self_consistency generate prompt num_samples = Py.Ok v ∧ well_typed v)
  ∧ (∀ generate text,
       ∃ v, detect_contradiction generate text = Py.Ok v ∧ well_typed v).
Proof.
  split; [exact factual_well_typed|].
  split; [exact entity_well_typed|].
  split; [exact temporal_well_typed|].
  split.
  - intros generate prompt n.
    destruct (self_consistency_verdict generate prompt n) as (v & Hv & Hw & _).
    exists v. split; assumption.
  - intros generate text.
    destruct (contradiction_verdict generate text) as (v & Hv & Hw & _).
    exists v. split; assumption.
Qed.

(** What a stored verdict is known to satisfy. *)
Lemma pipeline_returns (generate : nat → string → Py.result string)
    (prompt response_text : string) (ground_truth : option string)
    (methods : option (list string)) :
  ∃ results,
    multi_method_detection generate prompt response_text ground_truth methods
    = Py.Ok results
    ∧ results.*1 = methods_run ground_truth methods
    ∧ Forall (fun r => well_typed r ∧ in_unit (confidence r)) (values results).
Proof.
  unfold multi_method_detection, methods_run.
  set (requested := match methods with
                    | Some m => m
                    | None => default_methods ground_truth
                    end).
  destruct (self_consistency_verdict generate prompt 5) as (sc & -> & Hsc).
  cbn [List.filter]. cbn [String.eqb Ascii.eqb Bool.eqb negb orb andb].
  rewrite !andb_true_r.
  assert (Hfact : ∀ truth, well_typed (detect_factual_error response_text truth)
                           ∧ in_unit (confidence (detect_factual_error response_text truth))).
  { intros truth. split; [apply factual_well_typed|].
    apply (proj1 verdict_confidence_bounds_helper). }
  pose proof (conj (temporal_well_typed response_text None)
                (proj1 (proj2 verdict_confidence_bounds_helper) response_text None)) as Htemp.
  destruct (bool_decide ("self_consistency" ∈ requested));
    cbn [mbind Py.result_bind mret Py.result_ret Py.setitem];
    [destruct (contradiction_verdict (after generate 5) response_text) as (cd & Hcd & Hcdw)
    |destruct (contradiction_verdict (after generate 0) response_text) as (cd & Hcd & Hcdw)];
    rewrite ?Hcd;
    destruct (bool_decide ("factual" ∈ requested));
    destruct (bool_decide ("contradiction" ∈ requested));
    destruct (bool_decide ("temporal" ∈ requested));
    destruct ground_truth as [truth|]; cbn [andb];
    try destruct (truthy (Some truth));
    cbn [mbind Py.result_bind mret Py.result_ret Py.setitem String.eqb Ascii.eqb Bool.eqb
         fmap list_fmap fst values map snd];
    rewrite ?Hcd;
    cbn [mbind Py.result_bind mret Py.result_ret Py.setitem String.eqb Ascii.eqb Bool.eqb
         fmap list_fmap fst values map snd];
    eexists; (split; [reflexivity|]); (split; [reflexivity|]);
    cbn [fmap list_fmap fst values map snd];
    repeat first [exact Hsc | exact Hcdw | apply Hfact | exact Htemp
                 | apply List.Forall_nil | apply List.Forall_cons].
Qed.

End Pipeline.

Section PipelineProperties.
Variable generate : nat → string → Py.result string.

(** X6: for a collaborator whose calls return or raise a subclass of
    [Exception], [multi_method_detection] returns;
    it stores a verdict for exactly the requested methods it knows, in the
    fixed order self_consistency, factual, contradiction, temporal, the
    factual one only when a non-empty ground truth is given (an unknown
    method name, or "factual" without ground truth, is passed over in
    silence); and each stored verdict is well typed. *)
Theorem pipeline_methods (prompt response_text : string) (ground_truth : option string)
    (methods : option (list string)) :
  ∃ results,
    multi_method_detection generate prompt response_text ground_truth methods
    = Py.Ok results
    ∧ results.*1 = methods_run ground_truth methods
    ∧ Forall well_typed (values results).
Proof.
  destruct (pipeline_returns generate prompt response_text ground_truth methods)
    as (results & Hr & Hkeys & Hall).
  exists results. split; [exact Hr|]. split; [exact Hkeys|].
  eapply Forall_impl; [exact Hall|]. intros r [Hw _]. exact Hw.
Qed.

Lemma aggregate_unfold (results : list (string * HallucinationResult)) :
  aggregate_detection_results results
  = match results with
    | [] => (false, 0.0%Q, "unknown")
    | _ =>
      (Py.Qltb (Py.of_nat (length results) / 2) (Py.of_nat (length (voting results))),
       match map confidence (voting results) with
       | [] => 0.0%Q
       | _ => Py.mean (map confidence (voting results))
       end,
       match Py.most_common_1 (Py.Counter (named_types (values results))) with
       | (t, _) :: _ => t
       | [] => "unknown"
       end)
    end.
Proof.
  destruct results as [|entry rest]; [reflexivity|].
  rewrite <- code_types_named. reflexivity.
Qed.

Lemma named_types_nonempty (verdicts : list HallucinationResult) :
  Forall well_typed verdicts →
  List.filter is_hallucination verdicts ≠ [] →
  named_types (List.filter is_hallucination verdicts) ≠ [].
Proof.
  induction 1 as [|r rs [Hyes _] Hrs IH]; cbn [List.filter]; [contradiction|].
  destruct (is_hallucination r) eqn:Eh; [|exact IH].
  intros _. unfold named_types. cbn [flat_map].
  destruct (Hyes eq_refl) as (t & -> & Ht).
  apply String.eqb_neq in Ht. rewrite Ht. discriminate.
Qed.

(** X7: aggregating what [multi_method_detection] returns gives a
    confidence between 0 and 1 and, as primary type, a most frequent type
    among the verdicts that vote "hallucination", or "unknown" when none
    votes. *)
Theorem pipeline_aggregate (prompt response_text : string) (ground_truth : option string)
    (methods : option (list string)) :
  ∃ results verdict conf primary_type,
    multi_method_detection generate prompt response_text ground_truth methods
    = Py.Ok results
    ∧ aggregate_detection_results results = (verdict, conf, primary_type)
    ∧ in_unit conf
    ∧ (voting results = [] → primary_type = "unknown")
    ∧ (voting results ≠ [] →
       most_frequent primary_type (named_types (voting results))).
Proof.
  destruct (pipeline_returns generate prompt response_text ground_truth methods)
    as (results & Hr & _ & Hall).
  assert (Hw : Forall well_typed (values results))
    by (eapply Forall_impl; [exact Hall|]; intros r [H _]; exact H).
  assert (Htypes : named_types (values results) = named_types (voting results)).
  { apply named_types_voting. intros r Hin Hno.
    rewrite Forall_forall in Hw. exact (proj2 (Hw r Hin) Hno). }
  assert (Hconf : Forall in_unit (map confidence (voting results))).
  { unfold voting. apply Forall_forall. intros q Hq.
    apply list_elem_of_In, in_map_iff in Hq as (r & <- & Hin).
    apply filter_In in Hin as [Hin _]. rewrite Forall_forall in Hall.
    exact (proj2 (Hall r (proj2 (list_elem_of_In _ _) Hin))). }
  exists results. rewrite aggregate_unfold.
  destruct results as [|entry rest] eqn:Er.
  { do 3 eexists. split; [exact Hr|]. split; [reflexivity|].
    split; [split; lra|]. split; [reflexivity|]. intros H. contradiction H. reflexivity. }
  rewrite <- Er in *. rewrite Htypes.
  do 3 eexists. split; [exact Hr|]. split; [reflexivity|]. split; [|split].
  - destruct (map confidence (voting results)) as [|q qs] eqn:Eq; [split; lra|].
    apply mean_in_unit; [discriminate|exact Hconf].
  - intros ->. reflexivity.
  - intros Hv.
    destruct (most_common_most_frequent (named_types (voting results)))
      as (t & n & -> & Hmost); [|exact Hmost].
    apply named_types_nonempty; assumption.
Qed.

Lemma temporal_verdict_shape (text : string) :
  ∃ b, is_hallucination (detect_temporal_error text None) = b
       ∧ hallucination_type (detect_temporal_error text None)
         = (if b then Some "temporal_error" else None)
       ∧ (b = true → confidence (detect_temporal_error text None) = 0.9%Q).
Proof.
  unfold detect_temporal_error. destruct (map int_of _) as [|y ys].
  - exists false. repeat split. discriminate.
  - cbn [is_hallucination hallucination_type confidence].
    destruct (_ || _); eexists; repeat split. discriminate.
Qed.

(** X8: when every call of the collaborator raises an exception and the
    default methods run without ground truth, three verdicts are stored:
    self-consistency votes "hallucination" with confidence 1.0 and type
    "generation_failed", contradiction detection does not vote, and the
    temporal check votes or not.  So the temporal vote decides the strict
    majority and the aggregated verdict is that of the temporal check; the
    primary type is "generation_failed" either way, the first of the types
    counted; and the confidence is the mean over the voters, 1.0, or 0.95
    when the temporal check votes too. *)
Theorem pipeline_without_collaborator (prompt response_text : string) :
  (∀ j p, ∃ e, generate j p = Py.Raise e) →
  ∃ results conf,
    multi_method_detection generate prompt response_text None None = Py.Ok results
    ∧ results.*1 = ["self_consistency"; "contradiction"; "temporal"]
    ∧ aggregate_detection_results results
      = (is_hallucination (detect_temporal_error response_text None), conf,
         "generation_failed")
    ∧ (conf == if is_hallucination (detect_temporal_error response_text None)
               then 0.95 else 1)%Q
    ∧ ∃ sc cd,
        Py.getitem "self_consistency" results = Some sc
        ∧ is_hallucination sc = true ∧ (confidence sc == 1)%Q
        ∧ hallucination_type sc = Some "generation_failed"
        ∧ Py.getitem "contradiction" results = Some cd
        ∧ is_hallucination cd = false ∧ hallucination_type cd = None
        ∧ Py.getitem "temporal" results = Some (detect_temporal_error response_text None).
Proof.
  intros Hfail. unfold multi_method_detection.
  cbn [default_methods truthy app bool_decide].
  unfold detect_self_consistency. rewrite sample_all_fail by exact Hfail.
  assert (Hcd : ∃ e, detect_contradiction (after generate 5) response_text
                     = Py.Ok {| is_hallucination := false;
                                confidence := 0.0%Q;
                                hallucination_type := None;
                                evidence := [("error", VStr (Py.str_of e))];
                                detection_method := "contradiction_detection" |}).
  { unfold detect_contradiction, after.
    destruct (Hfail (5 + 0)%nat (contradiction_prompt response_text)) as [e ->].
    exists e. reflexivity. }
  destruct Hcd as [e Hcd].
  destruct (temporal_verdict_shape response_text) as (b & Hb & Ht & Hc).
  destruct (detect_temporal_error response_text None) as [tb tc tt te tm] eqn:Etv.
  cbn [is_hallucination hallucination_type confidence] in Hb, Ht, Hc. subst tb tt.
  assert (Hsel : ∀ name, name ∈ ["self_consistency"; "contradiction"; "temporal"] →
                 bool_decide (name ∈ ["self_consistency"; "contradiction"; "temporal"]) = true).
  { intros name H. apply bool_decide_eq_true. exact H. }
  rewrite !Hsel
    by (apply list_elem_of_In; cbn [In]; repeat first [left; reflexivity | right]).
  cbn [length Nat.ltb Nat.leb mbind Py.result_bind mret Py.result_ret Py.setitem].
  rewrite Hcd.
  cbn [mbind Py.result_bind mret Py.result_ret Py.setitem String.eqb Ascii.eqb Bool.eqb].
  destruct b.
  - rewrite (Hc eq_refl). do 2 eexists. split; [reflexivity|]. split; [reflexivity|].
    split; [reflexivity|]. split; [reflexivity|].
    do 2 eexists. cbn [Py.getitem String.eqb Ascii.eqb Bool.eqb].
    repeat (split; [reflexivity|]). reflexivity.
  - do 2 eexists. split; [reflexivity|]. split; [reflexivity|].
    split; [reflexivity|]. split; [reflexivity|].
    do 2 eexists. cbn [Py.getitem String.eqb Ascii.eqb Bool.eqb].
    repeat (split; [reflexivity|]). reflexivity.
Qed.

End PipelineProperties.

Lemma pipeline_without_collaborator_witness :
  (∀ j p, ∃ e, failing "quota exceeded" j p = Py.Raise e)
  ∧ ∃ results conf,
      multi_method_detection (failing "quota exceeded") "When?" "It happened in 2029"
                             None None = Py.Ok results
      ∧ aggregate_detection_results results = (true, conf, "generation_failed")
      ∧ (conf == 0.95)%Q.
Proof.
  assert (Hfail : ∀ j p, ∃ e, failing "quota exceeded" j p = Py.Raise e)
    by (intros; eexists; reflexivity).
  split; [exact Hfail|].
  destruct (pipeline_without_collaborator (failing "quota exceeded") "When?"
              "It happened in 2029" Hfail) as (results & conf & Hr & _ & Hagg & Hconf & _).
  exists results, conf. split; [exact Hr|]. split; [exact Hagg|exact Hconf].
Defined.

(** ** Factual verification: overlap and numbers *)

Section FactualMore.

(** X9: with a ground truth that has a token, the overlap ratio reaches 1
    exactly when every token of the ground truth is a token of the claim;
    then the claim is not a hallucination, with confidence 0, whatever else
    it says and whatever its numbers are. *)
Theorem full_overlap_iff_subset (claim ground_truth : string) :
  token_set (normalize ground_truth) ≠ ∅ →
  ((1 <= overlap_ratio claim ground_truth)%Q
   ↔ token_set (normalize ground_truth) ⊆ token_set (normalize claim))
  ∧ (token_set (normalize ground_truth) ⊆ token_set (normalize claim) →
     is_hallucination (detect_factual_error claim ground_truth) = false
     ∧ (confidence (detect_factual_error claim ground_truth) == 0)%Q).
Proof.
  intros Hne. unfold overlap_ratio.
  set (C := token_set (normalize claim)). set (T := token_set (normalize ground_truth)).
  assert (Hpos : (0 < size T)%nat).
  { destruct (size T) eqn:Hs; [|lia]. apply size_empty_inv in Hs.
    apply leibniz_equiv in Hs. contradiction. }
  assert (Hsub : C ∩ T ⊆ T).
  { intros x Hx. apply elem_of_intersection in Hx as [_ Hx]. exact Hx. }
  assert (Hiff : (1 <= Py.of_nat (size (C ∩ T)) / Py.of_nat (size T))%Q ↔ T ⊆ C).
  { split.
    - intros Hle.
      assert (Hsize : (size T ≤ size (C ∩ T))%nat).
      { destruct (Nat.le_gt_cases (size T) (size (C ∩ T))) as [H|H]; [exact H|].
        exfalso. revert Hle. apply Qlt_not_le.
        apply Qlt_shift_div_r; [apply of_nat_pos, Hpos|].
        rewrite Qmult_1_l. unfold Py.of_nat, Qlt. cbn. lia. }
      pose proof (set_subseteq_size_eq _ _ Hsub Hsize) as Heq.
      intros x Hx. rewrite <- Heq in Hx. apply elem_of_intersection in Hx as [Hx _].
      exact Hx.
    - intros HTC. assert (Heq : C ∩ T = T).
      { apply leibniz_equiv. intros x. rewrite elem_of_intersection. split; [tauto|].
        intros Hx. split; [apply HTC, Hx|exact Hx]. }
      rewrite Heq. rewrite of_nat_div_self by exact Hpos. apply Qle_refl. }
  split; [exact Hiff|].
  intros HTC. apply Hiff in HTC. unfold detect_factual_error.
  destruct (decide (token_set (normalize ground_truth) = ∅)) as [He|_]; [contradiction|].
  fold C T. cbn [is_hallucination confidence].
  assert (Hone : (1.0 == 1)%Q) by reflexivity.
  assert (Hb : Qle_bool 1.0 (Py.of_nat (size (C ∩ T)) / Py.of_nat (size T)) = true).
  { apply Qle_bool_iff. rewrite Hone. exact HTC. }
  rewrite Hb, orb_true_r. cbn [orb negb]. split; [reflexivity|].
  destruct (overlap_in_unit C T Hne) as [_ Hle1]. lra.
Qed.

Lemma full_overlap_iff_subset_witness :
  token_set (normalize "Paris") ≠ ∅
  ∧ token_set (normalize "Paris") ⊆ token_set (normalize "Paris, founded in 1066 by Martians")
  ∧ is_hallucination (detect_factual_error "Paris, founded in 1066 by Martians" "Paris")
    = false.
Proof.
  assert (Hne : token_set (normalize "Paris") ≠ ∅) by (vm_compute; discriminate).
  destruct (full_overlap_iff_subset "Paris, founded in 1066 by Martians" "Paris" Hne)
    as [Hiff Hsub].
  assert (HTC : token_set (normalize "Paris")
                ⊆ token_set (normalize "Paris, founded in 1066 by Martians")).
  { apply Hiff. vm_compute. discriminate. }
  split; [exact Hne|]. split; [exact HTC|]. exact (proj1 (Hsub HTC)).
Defined.

End FactualMore.

(** ** Numbers of a normalized text *)

Section NormalizedNumbers.

Lemma remove_punctuation_clean (s : string) : no_punctuation (remove_punctuation s) = true.
Proof.
  unfold no_punctuation. induction s as [|c r IH]; [reflexivity|].
  cbn [remove_punctuation]. destruct (ispunct c) eqn:E; [exact IH|].
  cbn [String.list_ascii_of_string forallb]. rewrite E. exact IH.
Qed.

Lemma no_punctuation_suffix (pre s : string) :
  no_punctuation (pre +:+ s) = true → no_punctuation s = true.
Proof.
  unfold no_punctuation. induction pre as [|c pre IH]; [rewrite append_empty; tauto|].
  rewrite append_cons. cbn [String.list_ascii_of_string forallb].
  intros H. apply andb_true_iff in H as [_ H]. exact (IH H).
Qed.

Lemma no_punctuation_drop (k : nat) (s : string) :
  no_punctuation s = true → no_punctuation (drop k s) = true.
Proof.
  unfold no_punctuation. revert s. induction k as [|k IH]; intros [|c r] H;
    cbn [drop]; try exact H.
  cbn [String.list_ascii_of_string forallb] in H.
  apply andb_true_iff in H as [_ H]. exact (IH r H).
Qed.

Lemma digits_value_nonneg (s : string) (acc : Z) :
  (0 ≤ acc)%Z → (0 ≤ digits_value acc s)%Z.
Proof.
  revert acc. induction s as [|c r IH]; intros acc Hacc; cbn [digits_value]; [exact Hacc|].
  destruct (isdigit c); [|exact Hacc]. apply IH. lia.
Qed.

Lemma run_length_all_digits (s : string) :
  all_digits s = true → run_length isdigit s = String.length s.
Proof.
  unfold all_digits. induction s as [|c r IH]; [reflexivity|].
  cbn [String.list_ascii_of_string forallb run_length String.length].
  intros H. apply andb_true_iff in H as [Hc Hr]. rewrite Hc, (IH Hr). reflexivity.
Qed.

Lemma drop_beyond (s : string) : drop (S (String.length s)) s = EmptyString.
Proof. induction s as [|c r IH]; [reflexivity|]. cbn [String.length drop]. exact IH. Qed.

(** On a text without punctuation the number pattern matches the run of
    digits at the position, if there is one. *)
Lemma number_pattern_run (prev : option ascii) (s : string) :
  no_punctuation s = true →
  number_pattern prev s
  = match run_length isdigit s with
    | O => None
    | S k => Some (S k)
    end.
Proof.
  intros Hclean. unfold number_pattern.
  assert (Hsign : match s with
                  | String c _ => if is_char 45 c then 1%nat else 0%nat
                  | EmptyString => 0%nat
                  end = 0%nat).
  { destruct s as [|c r]; [reflexivity|].
    unfold no_punctuation in Hclean. cbn [String.list_ascii_of_string forallb] in Hclean.
    apply andb_true_iff in Hclean as [Hc _]. apply negb_true_iff in Hc.
    destruct (is_char 45 c) eqn:E; [|reflexivity].
    unfold is_char in E. apply N.eqb_eq in E.
    unfold ispunct, in_range in Hc. rewrite E in Hc. discriminate. }
  rewrite Hsign. cbv zeta. cbn [drop].
  destruct (run_length isdigit s) as [|k] eqn:Erun; [reflexivity|].
  pose proof (no_punctuation_drop (S k) s Hclean) as Hdrop.
  destruct (drop (S k) s) as [|c s3] eqn:Ed; [reflexivity|].
  unfold no_punctuation in Hdrop. cbn [String.list_ascii_of_string forallb] in Hdrop.
  apply andb_true_iff in Hdrop as [Hc _]. apply negb_true_iff in Hc.
  destruct (is_char 46 c) eqn:E; [|reflexivity].
  unfold is_char in E. apply N.eqb_eq in E.
  unfold ispunct, in_range in Hc. rewrite E in Hc. discriminate.
Qed.

(** The number pattern does not look behind, and a match is passed over
    character by character. *)
Lemma findall_number_skip (k : nat) (prev prev' : option ascii) (s : string) :
  findall_from number_pattern k prev s
  = findall_from number_pattern 0 prev' (drop k s).
Proof.
  revert prev prev' s. induction k as [|k IH]; intros prev prev' [|c r];
    cbn [drop findall_from]; try reflexivity.
  apply IH.
Qed.

Lemma append_empty_r (s : string) : s +:+ EmptyString = s.
Proof.
  induction s as [|c r IH]; [reflexivity|]. rewrite append_cons, IH. reflexivity.
Qed.

(** Reading the runs of digits from the end of the run at hand. *)
Lemma digit_runs_from_step (s cur : string) :
  digit_runs_from cur s
  = (match cur +:+ String.substring 0 (run_length isdigit s) s with
     | EmptyString => []
     | run => [run]
     end ++ digit_runs_from EmptyString (drop (run_length isdigit s) s))%list.
Proof.
  revert cur. induction s as [|c r IH]; intros cur.
  - cbn [run_length String.substring drop digit_runs_from].
    rewrite append_empty_r, app_nil_r. destruct cur; reflexivity.
  - cbn [run_length digit_runs_from]. destruct (isdigit c) eqn:Ec.
    + rewrite IH. cbn [String.substring drop]. rewrite app_snoc. reflexivity.
    + cbn [String.substring drop digit_runs_from]. rewrite Ec, append_empty_r.
      destruct cur; reflexivity.
Qed.

Lemma drop_length (k : nat) (s : string) :
  (String.length (drop k s) ≤ String.length s)%nat.
Proof.
  revert s. induction k as [|k IH]; intros [|c r]; cbn [drop String.length]; try lia.
  specialize (IH r). lia.
Qed.

(** On a text without punctuation the literals that the number pattern
    finds are the maximal runs of digits. *)
Lemma findall_number_runs (n : nat) :
  ∀ (s : string) (prev : option ascii),
  (String.length s ≤ n)%nat → no_punctuation s = true →
  findall_from number_pattern 0 prev s = digit_runs_from EmptyString s.
Proof.
  induction n as [|n IH]; intros [|c r] prev Hlen Hclean; try reflexivity.
  { cbn [String.length] in Hlen. lia. }
  cbn [String.length] in Hlen.
  assert (Hr : no_punctuation r = true).
  { unfold no_punctuation in *. cbn [String.list_ascii_of_string forallb] in Hclean.
    apply andb_true_iff in Hclean as [_ H]. exact H. }
  cbn [findall_from]. rewrite (number_pattern_run prev _ Hclean).
  rewrite (digit_runs_from_step (String c r)). cbn [run_length].
  destruct (isdigit c) eqn:Ec.
  - cbn [String.substring drop Nat.pred]. rewrite append_empty.
    cbn [app]. f_equal.
    rewrite (findall_number_skip _ (Some c) None). apply IH.
    + pose proof (drop_length (run_length isdigit r) r). lia.
    + apply no_punctuation_drop, Hr.
  - cbn [String.substring drop app append_empty]. rewrite append_empty.
    cbn [digit_runs_from]. cbn [app].
    destruct (isdigit c); [discriminate Ec|]. apply IH; [lia|exact Hr].
Qed.

Lemma all_digits_snoc (cur : string) (c : ascii) :
  all_digits cur = true → isdigit c = true →
  all_digits (cur +:+ String c EmptyString) = true.
Proof.
  unfold all_digits. intros Hcur Hc. induction cur as [|a cur IH].
  - rewrite append_empty. cbn [String.list_ascii_of_string forallb]. rewrite Hc. reflexivity.
  - rewrite append_cons. cbn [String.list_ascii_of_string forallb] in *.
    apply andb_true_iff in Hcur as [Ha Hcur]. rewrite Ha. exact (IH Hcur).
Qed.

Lemma snoc_nonempty (cur : string) (c : ascii) : cur +:+ String c EmptyString ≠ EmptyString.
Proof. destruct cur; discriminate. Qed.

(** Every run is made of digits and is not empty. *)
Lemma digit_runs_from_shape (s cur : string) :
  all_digits cur = true →
  Forall (fun run => all_digits run = true ∧ run ≠ EmptyString) (digit_runs_from cur s).
Proof.
  revert cur. induction s as [|c r IH]; intros cur Hcur; cbn [digit_runs_from].
  - destruct cur; [constructor|].
    constructor; [split; [exact Hcur|discriminate]|constructor].
  - destruct (isdigit c) eqn:Ec.
    + apply IH, all_digits_snoc; assumption.
    + destruct cur; [apply IH; reflexivity|].
      constructor; [split; [exact Hcur|discriminate]|apply IH; reflexivity].
Qed.

Lemma filter_all {A} (p : A → bool) (l : list A) :
  Forall (fun x => p x = true) l → List.filter p l = l.
Proof.
  induction 1 as [|x l Hx Hl IH]; [reflexivity|].
  cbn [List.filter]. rewrite Hx, IH. reflexivity.
Qed.

(** The [float] of a run of digits is the binary64 value of the integer
    it denotes. *)
Lemma float_of_digits (run : string) :
  all_digits run = true → float_of run = binary64_of_digits run.
Proof.
  intros Hd. unfold float_of, binary64_of_digits, int_of.
  assert (Hneg : match run with String c _ => is_char 45 c | EmptyString => false end = false).
  { destruct run as [|c r]; [reflexivity|].
    unfold all_digits in Hd. cbn [String.list_ascii_of_string forallb] in Hd.
    apply andb_true_iff in Hd as [Hc _]. apply isdigit_code in Hc.
    unfold is_char. apply N.eqb_neq. lia. }
  rewrite Hneg. cbv zeta. rewrite (run_length_all_digits run Hd), drop_beyond.
  cbn [run_length digits_value Z.of_nat]. rewrite Z.pow_0_r, Z.mul_1_r, Z.add_0_r.
  reflexivity.
Qed.

(** The numbers of factual verification are the binary64 values of the
    maximal runs of digits of the normalized text. *)
Lemma numbers_of_runs (text : string) :
  numbers_of text = map binary64_of_digits (digit_runs (normalize text)).
Proof.
  unfold numbers_of, _extract_numbers, findall, digit_runs.
  rewrite (findall_number_runs (String.length (normalize text)));
    [|lia|apply remove_punctuation_clean].
  pose proof (digit_runs_from_shape (normalize text) EmptyString eq_refl) as Hshape.
  rewrite filter_all.
  - apply map_ext_in. intros run Hin. apply float_of_digits.
    rewrite List.Forall_forall in Hshape. exact (proj1 (Hshape run Hin)).
  - eapply Forall_impl; [exact Hshape|]. intros run [Hd Hne]. cbn beta.
    apply andb_true_iff. split; apply negb_true_iff, String.eqb_neq.
    + exact Hne.
    + intros ->. discriminate Hd.
Qed.



(** ** Rounding to binary64 *)

Lemma round_half_even_bounds (n d : Z) :
  (0 < d)%Z → (n / d ≤ round_half_even n d ≤ n / d + 1)%Z.
Proof.
  intros Hd. unfold round_half_even.
  destruct (2 * (n mod d) ?= d)%Z; [destruct (Z.even (n / d))|..]; lia.
Qed.

Lemma round_half_even_exact (n : Z) : round_half_even n 1 = n.
Proof.
  unfold round_half_even. rewrite Z.mod_1_r, Z.div_1_r. reflexivity.
Qed.

(** The binary64 value nearest to a non-negative integer is a non-negative
    integer or infinity. *)
Lemma nearest_binary64_natural (n : Z) :
  (0 ≤ n)%Z → natural_or_infinite (nearest_binary64 n 1).
Proof.
  intros Hn. unfold nearest_binary64.
  destruct (n =? 0)%Z; [exists 0%Z; split; [lia|reflexivity]|].
  cbv beta zeta. set (e := Z.max _ (-1074)). clearbody e.
  destruct (Z.leb_spec 0 e) as [He|He]; cbn [fst snd].
  - destruct (_ <=? _)%Z; [reflexivity|].
    cbn [natural_or_infinite]. eexists. split; [|reflexivity].
    assert (Hp : (0 < 1 * 2 ^ e)%Z) by (pose proof (Z.pow_pos_nonneg 2 e); lia).
    pose proof (round_half_even_bounds n (1 * 2 ^ e) Hp) as [Hlo _].
    pose proof (Z.div_pos n (1 * 2 ^ e) Hn Hp).
    apply Z.mul_nonneg_nonneg; lia.
  - cbn [natural_or_infinite]. exists n. split; [exact Hn|].
    rewrite Qred_correct, round_half_even_exact.
    assert (Hp : (0 < 2 ^ (- e))%Z) by (apply Z.pow_pos_nonneg; lia).
    unfold Qeq. cbn [Qnum Qden inject_Z]. rewrite Z2Pos.id by exact Hp. lia.
Qed.

(** Below [10 ^ 308] the nearest binary64 value is finite. *)
Lemma nearest_binary64_finite (n : Z) :
  (0 ≤ n < 10 ^ 308)%Z → ∃ q, nearest_binary64 n 1 = Finite q.
Proof.
  intros [Hn0 Hn]. unfold nearest_binary64.
  destruct (n =? 0)%Z eqn:E0; [eexists; reflexivity|]. apply Z.eqb_neq in E0.
  cbv beta zeta.
  assert (Hlog : (Z.log2 n ≤ 1023)%Z).
  { transitivity (Z.log2 (10 ^ 308 - 1)); [apply Z.log2_le_mono; lia|].
    vm_compute. discriminate. }
  assert (Hbig : (10 ^ 308 + 2 ^ 971 < 2 ^ 1024)%Z) by (vm_compute; reflexivity).
  set (e1 := if (_ <? _)%Z then _ else _).
  assert (He1 : (e1 ≤ 971)%Z).
  { unfold e1. change (Z.log2 1) with 0%Z. destruct (_ <? _)%Z; lia. }
  set (e := Z.max e1 (-1074)).
  assert (He : (e ≤ 971)%Z) by lia.
  clearbody e. clear He1. clearbody e1.
  destruct (Z.leb_spec 0 e) as [Hpos|Hneg]; cbn [fst snd]; [|eexists; reflexivity].
  destruct (Z.leb_spec (2 ^ 1024) (round_half_even n (1 * 2 ^ e) * 2 ^ e)) as [Hover|_];
    [exfalso|eexists; reflexivity].
  rewrite Z.mul_1_l in Hover.
  assert (Hp : (0 < 2 ^ e)%Z) by (apply Z.pow_pos_nonneg; lia).
  assert (Hp' : (2 ^ e ≤ 2 ^ 971)%Z) by (apply Z.pow_le_mono_r; lia).
  pose proof (round_half_even_bounds n (2 ^ e) Hp) as [_ Hhi].
  pose proof (Z.mul_div_le n (2 ^ e) Hp) as Hdiv.
  assert (Hm : (round_half_even n (2 ^ e) * 2 ^ e ≤ (n / 2 ^ e + 1) * 2 ^ e)%Z)
    by (apply Z.mul_le_mono_nonneg_r; lia).
  remember (2 ^ e)%Z as P. remember (2 ^ 971)%Z as P971. remember (2 ^ 1024)%Z as T.
  remember (10 ^ 308)%Z as B. remember (n / P)%Z as q.
  remember (round_half_even n P) as m.
  rewrite Z.mul_add_distr_r in Hm. lia.
Qed.

Lemma digits_value_bound (s : string) (acc : Z) :
  all_digits s = true → (0 ≤ acc)%Z →
  (digits_value acc s < (acc + 1) * 10 ^ Z.of_nat (String.length s))%Z.
Proof.
  unfold all_digits. revert acc. induction s as [|c r IH]; intros acc Hd Hacc.
  - cbn [digits_value String.length Z.of_nat]. rewrite Z.pow_0_r. lia.
  - cbn [String.list_ascii_of_string forallb] in Hd.
    apply andb_true_iff in Hd as [Hc Hr]. cbn [digits_value String.length]. rewrite Hc.
    pose proof (isdigit_code c Hc) as Hcode.
    eapply Z.lt_le_trans; [apply IH; [exact Hr|lia]|].
    rewrite Nat2Z.inj_succ, Z.pow_succ_r by lia.
    assert (Hp : (0 < 10 ^ Z.of_nat (String.length r))%Z) by (apply Z.pow_pos_nonneg; lia).
    remember (10 ^ Z.of_nat (String.length r))%Z as X.
    replace ((acc + 1) * (10 * X))%Z with ((10 * acc + 10) * X)%Z by ring.
    apply Z.mul_le_mono_nonneg_r; lia.
Qed.

(** The binary64 value of a run of digits is never negative nor
    fractional, and it is finite for a run of at most 308 digits. *)
Lemma binary64_of_digits_natural (run : string) :
  natural_or_infinite (binary64_of_digits run).
Proof. apply nearest_binary64_natural, digits_value_nonneg. lia. Qed.

Lemma binary64_of_digits_finite (run : string) :
  all_digits run = true → (String.length run ≤ 308)%nat →
  ∃ q, binary64_of_digits run = Finite q ∧ natural_number q.
Proof.
  intros Hd Hlen. pose proof (binary64_of_digits_natural run) as Hnat.
  destruct (nearest_binary64_finite (int_of run)) as [q Hq].
  - split; [apply digits_value_nonneg; lia|].
    eapply Z.lt_le_trans; [apply (digits_value_bound run 0 Hd); lia|].
    rewrite Z.add_0_l, Z.mul_1_l. apply Z.pow_le_mono_r; lia.
  - unfold binary64_of_digits in *. rewrite Hq in *. exists q. split; [reflexivity|exact Hnat].
Qed.

(** ** Factual verification: the numbers compared *)




(** What the normalization and the rounding do to the numbers: a decimal
    point or a separator joins the digits around it, a sign is lost, and two
    integers beyond [2 ^ 53] can be the same binary64 value. *)
Example numerical_match_examples :
  numbers_of "299,792,458 meters per second" = [Finite 299792458]
  ∧ Py.getitem "numerical_match" (evidence (detect_factual_error "costs 3.5" "costs 3.50"))
    = Some (VBool false)
  ∧ Py.getitem "numerical_match" (evidence (detect_factual_error "-3.5" "35"))
    = Some (VBool true)
  ∧ Py.getitem "numerical_match"
      (evidence (detect_factual_error "9007199254740993" "9007199254740992"))
    = Some (VBool true).
Proof. vm_compute. repeat split. Qed.

(** X10: normalization removes the minus sign and the decimal point with
    the rest of the punctuation, so every number that factual verification
    extracts is the binary64 value of a run of digits: never negative nor
    fractional.  It is a non-negative integer when the run has at most 308
    digits; a longer run can give infinity. *)
Theorem normalized_numbers_natural (text : string) :
  no_punctuation (normalize text) = true
  ∧ Forall natural_or_infinite (numbers_of text)
  ∧ (Forall (fun run => (String.length run ≤ 308)%nat) (digit_runs (normalize text)) →
     Forall (fun x => ∃ q, x = Finite q ∧ natural_number q) (numbers_of text))
  ∧ numbers_of (String "1"%char (String.string_of_list_ascii (replicate 400 "0"%char)))
    = [Infinity false].
Proof.
  split; [apply remove_punctuation_clean|].
  rewrite numbers_of_runs. split; [|split].
  - apply Forall_map, Forall_forall. intros run _. apply binary64_of_digits_natural.
  - intros Hshort. apply Forall_map.
    pose proof (digit_runs_from_shape (normalize text) EmptyString eq_refl) as Hshape.
    fold (digit_runs (normalize text)) in Hshape.
    rewrite List.Forall_forall in Hshort, Hshape. apply List.Forall_forall.
    intros run Hin. apply binary64_of_digits_finite; [exact (proj1 (Hshape run Hin))|].
    exact (Hshort run Hin).
  - vm_compute. reflexivity.
Qed.

Lemma normalized_numbers_natural_witness :
  Forall (fun run => (String.length run ≤ 308)%nat)
         (digit_runs (normalize "Between -2.5 and 3,000."))
  ∧ Forall (fun x => ∃ q, x = Finite q ∧ natural_number q)
           (numbers_of "Between -2.5 and 3,000.")
  ∧ numbers_of "Between -2.5 and 3,000." = [Finite 25; Finite 3000].
Proof.
  assert (Hshort : Forall (fun run => (String.length run ≤ 308)%nat)
                          (digit_runs (normalize "Between -2.5 and 3,000."))).
  { vm_compute. repeat (apply List.Forall_cons; [lia|]). apply List.Forall_nil. }
  split; [exact Hshort|].
  split; [|vm_compute; reflexivity].
  exact (proj1 (proj2 (proj2 (normalized_numbers_natural "Between -2.5 and 3,000."))) Hshort).
Defined.

End NormalizedNumbers.

(** ** Temporal verification: what is flagged *)

Section TemporalMore.

(** X11: without a context year, a text is flagged exactly when one of
    the years 2026, 2027, 2028, 2029 is extracted from it; no other future
    year can be flagged, since the others are not extracted. *)
Theorem flagged_years_without_context (text : string) :
  is_hallucination (detect_temporal_error text None) = true
  ↔ ∃ y, y ∈ extract_years text ∧ (2026 ≤ y ≤ 2029)%Z.
Proof.
  unfold detect_temporal_error. fold (extract_years text).
  pose proof (extract_years_window text) as Hwin.
  destruct (extract_years text) as [|y0 ys] eqn:Ey; cbn [is_hallucination].
  - split; [discriminate|]. intros (y & Hy & _). inversion Hy.
  - rewrite orb_false_r, Nat.ltb_lt. rewrite Forall_forall in Hwin. split.
    + intros Hlen. destruct (List.filter _ (y0 :: ys)) as [|f fs] eqn:Ef; [cbn in Hlen; lia|].
      assert (Hf : In f (List.filter (fun y => (current_year <? y)%Z) (y0 :: ys)))
        by (rewrite Ef; left; reflexivity).
      apply filter_In in Hf as [Hin Hgt]. apply Z.ltb_lt in Hgt. unfold current_year in Hgt.
      apply list_elem_of_In in Hin. exists f. split; [exact Hin|].
      specialize (Hwin f Hin). lia.
    + intros (y & Hy & Hrange).
      assert (Hf : In y (List.filter (fun y => (current_year <? y)%Z) (y0 :: ys))).
      { apply filter_In. split; [apply list_elem_of_In, Hy|].
        apply Z.ltb_lt. unfold current_year. lia. }
      destruct (List.filter _ (y0 :: ys)); [inversion Hf|cbn; lia].
Qed.

Lemma sorted_iff (years : list Z) :
  years = merge_sort Z.le years ↔ Sorted Z.le years.
Proof.
  split.
  - intros ->. apply Sorted_merge_sort. intros x y. apply Z.le_total.
  - intros Hs. apply (Sorted_unique Z.le); [exact Hs| |].
    + apply Sorted_merge_sort. intros x y. apply Z.le_total.
    + symmetry. apply merge_sort_Permutation.
Qed.

Lemma permutation_verdict (years1 years2 : list Z) (context_year : option Z) :
  years1 ≡ₚ years2 →
  ((0 <? length (List.filter (fun y => (current_year <? y)%Z) years1))%nat
   = (0 <? length (List.filter (fun y => (current_year <? y)%Z) years2))%nat)
  ∧ match context_year with
    | Some cy =>
        if (cy =? 0)%Z then false
        else forallb (fun y => (10 <? Z.abs (y - cy))%Z) years1
    | None => false
    end
    = match context_year with
      | Some cy =>
          if (cy =? 0)%Z then false
          else forallb (fun y => (10 <? Z.abs (y - cy))%Z) years2
      | None => false
      end.
Proof.
  intros Hp. split.
  - assert (Hlen : length (List.filter (fun y => (current_year <? y)%Z) years1)
                   = length (List.filter (fun y => (current_year <? y)%Z) years2)).
    { induction Hp as [|x l l' _ IH|x y l|l l' l'' _ IH1 _ IH2]; cbn [List.filter].
      - reflexivity.
      - destruct (current_year <? x)%Z; cbn; lia.
      - destruct (current_year <? x)%Z, (current_year <? y)%Z; reflexivity.
      - lia. }
    rewrite Hlen. reflexivity.
  - destruct context_year as [cy|]; [|reflexivity].
    destruct (cy =? 0)%Z; [reflexivity|].
    induction Hp as [|x l l' _ IH|x y l|l l' l'' _ IH1 _ IH2]; cbn [forallb].
    + reflexivity.
    + rewrite IH. reflexivity.
    + destruct (10 <? Z.abs (x - cy))%Z, (10 <? Z.abs (y - cy))%Z; reflexivity.
    + congruence.
Qed.

(** X12: the order of the years is reported and never judged.  When
    years are found, the evidence "chronologically_ordered" says whether they
    appear in non-decreasing order; and two texts with the same years in any
    order get the same verdict, confidence and type. *)
Theorem chronology_reported_not_judged :
  (∀ text context_year,
     extract_years text ≠ [] →
     ∃ ordered : bool,
       Py.getitem "chronologically_ordered"
         (evidence (detect_temporal_error text context_year)) = Some (VBool ordered)
       ∧ (ordered = true ↔ Sorted Z.le (extract_years text)))
  ∧ (∀ text1 text2 context_year,
       extract_years text1 ≡ₚ extract_years text2 →
       is_hallucination (detect_temporal_error text1 context_year)
       = is_hallucination (detect_temporal_error text2 context_year)
       ∧ confidence (detect_temporal_error text1 context_year)
         = confidence (detect_temporal_error text2 context_year)
       ∧ hallucination_type (detect_temporal_error text1 context_year)
         = hallucination_type (detect_temporal_error text2 context_year)).
Proof.
  split.
  - intros text ctx Hne. unfold detect_temporal_error. fold (extract_years text).
    destruct (extract_years text) as [|y ys] eqn:Ey; [contradiction|].
    cbn [evidence Py.getitem String.eqb Ascii.eqb Bool.eqb].
    eexists. split; [reflexivity|].
    rewrite bool_decide_eq_true. apply sorted_iff.
  - intros text1 text2 ctx Hp. unfold detect_temporal_error.
    fold (extract_years text1) (extract_years text2).
    destruct (permutation_verdict _ _ ctx Hp) as [Hfuture Hctx].
    destruct (extract_years text1) as [|y1 ys1] eqn:E1;
      destruct (extract_years text2) as [|y2 ys2] eqn:E2.
    + repeat split.
    + apply Permutation_nil_l in Hp. discriminate.
    + apply Permutation_nil_r in Hp. discriminate.
    + cbn [is_hallucination confidence hallucination_type].
      rewrite Hfuture, Hctx. repeat split.
Qed.

Lemma chronology_reported_not_judged_witness :
  extract_years "Born in 2001, moved in 1999" ≠ []
  ∧ extract_years "moved in 1999, born in 2001" ≡ₚ extract_years "Born in 2001, moved in 1999"
  ∧ Py.getitem "chronologically_ordered"
      (evidence (detect_temporal_error "Born in 2001, moved in 1999" None))
    = Some (VBool false)
  ∧ is_hallucination (detect_temporal_error "moved in 1999, born in 2001" None)
    = is_hallucination (detect_temporal_error "Born in 2001, moved in 1999" None).
Proof.
  destruct chronology_reported_not_judged as [Hreport Hsame].
  assert (Hne : extract_years "Born in 2001, moved in 1999" ≠ [])
    by (vm_compute; discriminate).
  assert (Hp : extract_years "moved in 1999, born in 2001"
               ≡ₚ extract_years "Born in 2001, moved in 1999")
    by (vm_compute; apply Permutation_swap).
  split; [exact Hne|]. split; [exact Hp|]. split.
  - destruct (Hreport "Born in 2001, moved in 1999" None Hne) as (ordered & Hget & _).
    rewrite Hget. vm_compute in Hget. inversion Hget. reflexivity.
  - exact (proj1 (Hsame _ _ None Hp)).
Defined.

End TemporalMore.

(** ** Entity verification: spans and bookkeeping *)

Section EntitiesMore.

Lemma span_scan_lower_bound (s : string) :
  ∀ st committed k n,
  span_scan st committed k s = Some n →
  (∀ j, committed = Some j → (2 ≤ j)%nat) → (2 ≤ k)%nat → (2 ≤ n)%nat.
Proof.
  induction s as [|c r IH]; intros st cm k n; cbn [span_scan].
  - destruct st; intros H Hcm Hk; try (exact (Hcm n H)). injection H as <-. exact Hk.
  - destruct st.
    + destruct (islower c); [|intros H Hcm _; exact (Hcm n H)].
      intros H Hcm Hk. apply (IH _ _ _ _ H Hcm). lia.
    + destruct (islower c).
      { intros H Hcm Hk. apply (IH _ _ _ _ H Hcm). lia. }
      destruct (isspace c).
      { intros H Hcm Hk. apply (IH _ _ _ _ H); [|lia]. intros j [= <-]. exact Hk. }
      destruct (isword c); [intros H Hcm _; exact (Hcm n H)|].
      intros [= <-] _ Hk. exact Hk.
    + destruct (isspace c).
      { intros H Hcm Hk. apply (IH _ _ _ _ H Hcm). lia. }
      destruct (isupper c); [|intros H Hcm _; exact (Hcm n H)].
      intros H Hcm Hk. apply (IH _ _ _ _ H Hcm). lia.
Qed.

Lemma capitalized_match_shape (prev : option ascii) (s : string) (n : nat) :
  capitalized_pattern prev s = Some n →
  ∃ c1 c2 rest, String.substring 0 n s = String c1 (String c2 rest)
                ∧ isupper c1 = true ∧ islower c2 = true.
Proof.
  unfold capitalized_pattern. destruct s as [|c1 r]; [discriminate|].
  destruct (boundary prev (Some c1)); [|discriminate]. cbn [andb].
  destruct (isupper c1) eqn:Eu; [|discriminate].
  destruct r as [|c2 r']; [discriminate|]. cbn [span_scan].
  destruct (islower c2) eqn:El; [|discriminate].
  intros H. assert (Hn : (2 ≤ n)%nat).
  { apply (span_scan_lower_bound _ _ _ _ _ H); [discriminate|lia]. }
  destruct n as [|[|m]]; [lia..|].
  exists c1, c2, (String.substring 0 m r'). repeat split; assumption.
Qed.

(** X13: every capitalized span taken as a candidate entity begins with
    an upper-case letter followed by a lower-case letter; so a lone capital,
    an acronym in capitals or a word in lower case is never a candidate. *)
Theorem candidate_entities_shape (text : string) (x : string) :
  x ∈ findall capitalized_pattern text →
  ∃ c1 c2 rest, x = String c1 (String c2 rest)
                ∧ isupper c1 = true ∧ islower c2 = true.
Proof.
  intros Hx. apply findall_from_elem in Hx as (prev & s & n & Hm & ->).
  exact (capitalized_match_shape prev s n Hm).
Qed.

Lemma candidate_entities_shape_witness :
  "New York" ∈ findall capitalized_pattern "NASA and I saw New York"
  ∧ findall capitalized_pattern "NASA and I saw New York" = ["New York"].
Proof.
  assert (H : "New York" ∈ findall capitalized_pattern "NASA and I saw New York")
    by (vm_compute; left).
  split; [exact H|].
  destruct (candidate_entities_shape _ _ H) as (c1 & c2 & rest & _ & _ & _).
  vm_compute. reflexivity.
Defined.

Lemma filter_partition_length {A} (p : A → bool) (l : list A) :
  (length (List.filter p l) + length (List.filter (fun x => negb (p x)) l))%nat = length l.
Proof.
  induction l as [|x l IH]; [reflexivity|].
  cbn [List.filter]. destruct (p x); cbn [negb length]; lia.
Qed.

Lemma filter_partition_elem {A} (p : A → bool) (l : list A) (e : A) :
  (e ∈ l ↔ e ∈ List.filter p l ∨ e ∈ List.filter (fun x => negb (p x)) l)
  ∧ (e ∈ List.filter p l → e ∉ List.filter (fun x => negb (p x)) l).
Proof.
  rewrite !list_elem_of_In, !filter_In. split.
  - destruct (p e); cbn [negb]; split.
    + intros H. left. split; [exact H|reflexivity].
    + intros [[H _]|[_ H]]; [exact H|discriminate].
    + intros H. right. split; [exact H|reflexivity].
    + intros [[_ H]|[H _]]; [discriminate|exact H].
  - intros [_ Hp] [_ Hn]. rewrite Hp in Hn. discriminate.
Qed.

(** X14: the evidence of entity verification is consistent: every
    expected entity is reported either as found or as missing and never as
    both, the counts add up to the number of expected entities, and at most
    five unexpected entities are listed. *)
Theorem entity_evidence_consistent (text : string) (expected_entities : list string) :
  ∃ found missing unexpected,
    evidence (detect_entity_hallucination text expected_entities)
    = [("found_entities", VList (map VStr found));
       ("missing_entities", VList (map VStr missing));
       ("unexpected_entities", VList (map VStr unexpected));
       ("expected_count", VInt (Z.of_nat (length expected_entities)));
       ("found_count", VInt (Z.of_nat (length found)))]
    ∧ (length found + length missing)%nat = length expected_entities
    ∧ (∀ e, e ∈ expected_entities ↔ e ∈ found ∨ e ∈ missing)
    ∧ (∀ e, e ∈ found → e ∉ missing)
    ∧ (length unexpected ≤ 5)%nat
    ∧ (∀ e, e ∈ unexpected → e ∈ findall capitalized_pattern text ∧ e ∉ expected_entities).
Proof.
  unfold detect_entity_hallucination. cbn [evidence].
  do 3 eexists. split; [reflexivity|].
  split; [apply (filter_partition_length
                   (fun entity => contains (lower entity) (lower text)))|].
  split; [|split; [|split]].
  - intros e. apply (filter_partition_elem
                       (fun entity => contains (lower entity) (lower text))).
  - intros e. apply (filter_partition_elem
                       (fun entity => contains (lower entity) (lower text))).
  - rewrite length_take. lia.
  - intros e He. apply elem_of_take in He as (i & He & _).
    apply list_elem_of_lookup_2 in He. apply list_elem_of_In, filter_In in He as [Hin Hnot].
    split; [apply list_elem_of_In, Hin|].
    apply negb_true_iff, bool_decide_eq_false in Hnot. exact Hnot.
Qed.

End EntitiesMore.

(** ** Metrics: the confusion matrix *)

Section Confusion.

Lemma of_nat_add (a b : nat) : (Py.of_nat (a + b) == Py.of_nat a + Py.of_nat b)%Q.
Proof. unfold Py.of_nat. rewrite Nat2Z.inj_add, inject_Z_plus. reflexivity. Qed.

Lemma zip_length_same {A B} (a : list A) (b : list B) :
  length a = length b → length (zip a b) = length a.
Proof. intros H. rewrite length_zip. lia. Qed.

(** Each pair of a prediction and a label falls in exactly one class. *)
Lemma confusion_classes (pairs : list (bool * bool)) :
  (Py.count (fun '(p, g) => p && g) pairs
   + Py.count (fun '(p, g) => p && negb g) pairs
   + Py.count (fun '(p, g) => negb p && g) pairs
   + Py.count (fun '(p, g) => negb p && negb g) pairs)%nat = length pairs.
Proof.
  unfold Py.count. induction pairs as [|[p g] l IH]; [reflexivity|].
  cbn [List.filter]. destruct p, g; cbn [andb negb length]; lia.
Qed.

Lemma correct_classes (pairs : list (bool * bool)) :
  Py.count (fun '(p, g) => Bool.eqb p g) pairs
  = (Py.count (fun '(p, g) => p && g) pairs
     + Py.count (fun '(p, g) => negb p && negb g) pairs)%nat.
Proof.
  unfold Py.count. induction pairs as [|[p g] l IH]; [reflexivity|].
  cbn [List.filter]. destruct p, g; cbn [andb negb Bool.eqb length]; lia.
Qed.

Lemma positive_classes (predictions ground_truth : list bool) :
  length predictions = length ground_truth →
  Py.count id predictions
  = (Py.count (fun '(p, g) => p && g) (zip predictions ground_truth)
     + Py.count (fun '(p, g) => p && negb g) (zip predictions ground_truth))%nat.
Proof.
  unfold Py.count. revert ground_truth.
  induction predictions as [|p ps IH]; intros [|g gs] Hlen; try discriminate; [reflexivity|].
  cbn [zip zip_with List.filter]. injection Hlen as Hlen. specialize (IH gs Hlen).
  destruct p, g; cbn [id andb negb length]; lia.
Qed.

(** The harmonic mean of [a / (a + b)] and [a / (a + c)]. *)
Lemma harmonic_mean (a b c : Q) :
  (0 < a)%Q → (0 <= b)%Q → (0 <= c)%Q →
  (2 * (a / (a + b)) * (a / (a + c)) / (a / (a + b) + a / (a + c))
   == 2 * a / (2 * a + b + c))%Q.
Proof.
  intros Ha Hb Hc. field. repeat split; try lra.
  intros H. assert (Hprod : (0 < a * (2 * a + b + c))%Q) by (apply Qmult_lt_0_compat; lra).
  lra.
Qed.

Lemma precision_recall_f1_values (predictions ground_truth : list bool) :
  length predictions = length ground_truth →
  ∃ m, precision_recall_f1 predictions ground_truth = Py.Ok m
       ∧ (tp m + fp m + fn m + tn m)%nat = length predictions
       ∧ tp m = Py.count (fun '(p, g) => p && g) (zip predictions ground_truth)
       ∧ fp m = Py.count (fun '(p, g) => p && negb g) (zip predictions ground_truth)
       ∧ tn m = Py.count (fun '(p, g) => negb p && negb g) (zip predictions ground_truth)
       ∧ (precision m == if (0 <? tp m + fp m)%nat
                         then Py.of_nat (tp m) / Py.of_nat (tp m + fp m) else 0)%Q
       ∧ (recall m == if (0 <? tp m + fn m)%nat
                      then Py.of_nat (tp m) / Py.of_nat (tp m + fn m) else 0)%Q
       ∧ (f1 m == if (0 <? tp m)%nat
                  then 2 * Py.of_nat (tp m) / Py.of_nat (2 * tp m + fp m + fn m) else 0)%Q.
Proof.
  intros Hlen. unfold precision_recall_f1. rewrite (length_eq_eqb _ _ Hlen).
  set (pairs := zip predictions ground_truth).
  set (TP := Py.count (fun '(p, g) => p && g) pairs).
  set (FP := Py.count (fun '(p, g) => p && negb g) pairs).
  set (FN := Py.count (fun '(p, g) => negb p && g) pairs).
  set (TN := Py.count (fun '(p, g) => negb p && negb g) pairs).
  eexists. split; [reflexivity|]. cbn [tp fp fn tn precision recall f1].
  split.
  { pose proof (confusion_classes pairs) as H. fold TP FP FN TN in H.
    rewrite H. apply zip_length_same, Hlen. }
  split; [reflexivity|]. split; [reflexivity|]. split; [reflexivity|].
  split; [destruct (0 <? TP + FP)%nat; reflexivity|].
  split; [destruct (0 <? TP + FN)%nat; reflexivity|].
  destruct TP as [|k] eqn:Etp.
  - cbn [Nat.add Nat.ltb Nat.leb].
    assert (Hp : ((if (0 <? FP)%nat then Py.of_nat 0 / Py.of_nat FP else 0.0) == 0)%Q)
      by (destruct (0 <? FP)%nat; reflexivity).
    assert (Hr : ((if (0 <? FN)%nat then Py.of_nat 0 / Py.of_nat FN else 0.0) == 0)%Q)
      by (destruct (0 <? FN)%nat; reflexivity).
    destruct (Py.Qltb 0 _) eqn:E; [|reflexivity].
    apply Qltb_lt in E. rewrite Hp, Hr in E. inversion E.
  - change (0 <? S k + FP)%nat with true. change (0 <? S k + FN)%nat with true.
    change (0 <? S k)%nat with true. cbv iota.
    assert (Ha : (0 < Py.of_nat (S k))%Q) by (apply of_nat_pos; lia).
    pose proof (of_nat_nonneg FP) as Hb. pose proof (of_nat_nonneg FN) as Hc.
    assert (Hsum : (0 < Py.of_nat (S k) / Py.of_nat (S k + FP)
                        + Py.of_nat (S k) / Py.of_nat (S k + FN))%Q).
    { assert (H1 : (0 < Py.of_nat (S k) / Py.of_nat (S k + FP))%Q).
      { apply Qlt_shift_div_l; [apply of_nat_pos; lia|]. rewrite Qmult_0_l. exact Ha. }
      assert (H2 : (0 < Py.of_nat (S k) / Py.of_nat (S k + FN))%Q).
      { apply Qlt_shift_div_l; [apply of_nat_pos; lia|]. rewrite Qmult_0_l. exact Ha. }
      lra. }
    apply Qltb_lt in Hsum. rewrite Hsum.
    rewrite !of_nat_add.
    assert (H2 : (Py.of_nat (2 * S k) == 2 * Py.of_nat (S k))%Q).
    { unfold Py.of_nat. rewrite Nat2Z.inj_mul, inject_Z_mult. reflexivity. }
    rewrite H2. apply harmonic_mean; assumption.
Qed.

(** X15: on sequences of equal length [precision_recall_f1] returns; its
    four counts add up to the number of samples; precision, recall and F1
    lie between 0 and 1; and F1 is [2 tp / (2 tp + fp + fn)], or 0 when there
    is no true positive. *)
Theorem confusion_matrix (predictions ground_truth : list bool) :
  length predictions = length ground_truth →
  ∃ m, precision_recall_f1 predictions ground_truth = Py.Ok m
       ∧ (tp m + fp m + fn m + tn m)%nat = length predictions
       ∧ in_unit (precision m) ∧ in_unit (recall m) ∧ in_unit (f1 m)
       ∧ (tp m = 0%nat → f1 m == 0)%Q
       ∧ ((0 < tp m)%nat →
          f1 m == 2 * Py.of_nat (tp m) / Py.of_nat (2 * tp m + fp m + fn m))%Q.
Proof.
  intros Hlen.
  destruct (precision_recall_f1_values predictions ground_truth Hlen)
    as (m & Hm & Hsum & _ & _ & _ & Hp & Hr & Hf).
  exists m. split; [exact Hm|]. split; [exact Hsum|].
  assert (Hunit0 : in_unit 0) by (split; lra).
  split; [|split; [|split; [|split]]].
  - unfold in_unit. rewrite Hp. destruct (0 <? tp m + fp m)%nat eqn:E; [|exact Hunit0].
    apply ratio_in_unit; [lia|apply Nat.ltb_lt, E].
  - unfold in_unit. rewrite Hr. destruct (0 <? tp m + fn m)%nat eqn:E; [|exact Hunit0].
    apply ratio_in_unit; [lia|apply Nat.ltb_lt, E].
  - unfold in_unit. rewrite Hf. destruct (0 <? tp m)%nat eqn:E; [|exact Hunit0].
    apply Nat.ltb_lt in E.
    assert (H2 : (2 * Py.of_nat (tp m) == Py.of_nat (2 * tp m))%Q).
    { unfold Py.of_nat. rewrite Nat2Z.inj_mul, inject_Z_mult. reflexivity. }
    rewrite H2. apply ratio_in_unit; lia.
  - intros H0. rewrite Hf, H0. reflexivity.
  - intros Hpos. rewrite Hf. apply Nat.ltb_lt in Hpos. rewrite Hpos. reflexivity.
Qed.

Lemma confusion_matrix_witness :
  length [true; false; true; false; false; true; false; true]
  = length [true; false; false; false; true; true; false; true]
  ∧ ∃ m, precision_recall_f1 [true; false; true; false; false; true; false; true]
                             [true; false; false; false; true; true; false; true] = Py.Ok m
         ∧ (tp m, fp m, fn m, tn m) = (3, 1, 1, 3)%nat
         ∧ (f1 m == 3 / 4)%Q.
Proof.
  split; [reflexivity|].
  destruct (confusion_matrix [true; false; true; false; false; true; false; true]
              [true; false; false; false; true; true; false; true] eq_refl)
    as (m & Hm & _ & _ & _ & _ & _ & Hf).
  exists m. split; [exact Hm|].
  vm_compute in Hm. injection Hm as <-. split; [reflexivity|].
  reflexivity.
Defined.

(** X16: for non-empty sequences of equal length, [accuracy] is the share
    of true positives and true negatives, and [hallucination_rate] of the
    predictions is the share of true and false positives, of the confusion
    matrix that [precision_recall_f1] returns; both lie between 0 and 1. *)
Theorem accuracy_from_confusion (predictions ground_truth : list bool) :
  length predictions = length ground_truth →
  predictions ≠ [] →
  ∃ acc m,
    accuracy predictions ground_truth = Py.Ok acc
    ∧ precision_recall_f1 predictions ground_truth = Py.Ok m
    ∧ (acc == Py.of_nat (tp m + tn m) / Py.of_nat (length predictions))%Q
    ∧ (hallucination_rate predictions
       == Py.of_nat (tp m + fp m) / Py.of_nat (length predictions))%Q
    ∧ in_unit acc ∧ in_unit (hallucination_rate predictions).
Proof.
  intros Hlen Hne.
  destruct (precision_recall_f1_values predictions ground_truth Hlen)
    as (m & Hm & Hsum & Htp & Hfp & Htn & _).
  unfold accuracy, hallucination_rate. rewrite (length_eq_eqb _ _ Hlen).
  destruct predictions as [|p ps] eqn:Ep; [contradiction|]. rewrite <- Ep in *.
  assert (Hpos : (0 < length predictions)%nat) by (rewrite Ep; cbn; lia).
  do 2 eexists. split; [reflexivity|]. split; [exact Hm|].
  rewrite correct_classes, <- Htp, <- Htn.
  rewrite (positive_classes predictions ground_truth Hlen), <- Htp, <- Hfp.
  split; [reflexivity|]. split; [reflexivity|].
  split; apply ratio_in_unit; (lia || exact Hpos).
Qed.

Lemma accuracy_from_confusion_witness :
  length [true; false; true] = length [true; true; true]
  ∧ [true; false; true] ≠ []
  ∧ ∃ acc, accuracy [true; false; true] [true; true; true] = Py.Ok acc
           ∧ (acc == 2 / 3)%Q.
Proof.
  split; [reflexivity|]. split; [discriminate|].
  destruct (accuracy_from_confusion [true; false; true] [true; true; true] eq_refl
              ltac:(discriminate)) as (acc & m & Hacc & Hm & Heq & _).
  exists acc. split; [exact Hacc|].
  rewrite Heq. vm_compute in Hm. injection Hm as <-. reflexivity.
Defined.

End Confusion.

(** ** Metrics: mitigation effectiveness *)

Section Mitigation.

Lemma label_classes (predictions ground_truth : list bool) :
  length predictions = length ground_truth →
  Py.count id ground_truth
  = (Py.count (fun '(p, g) => p && g) (zip predictions ground_truth)
     + Py.count (fun '(p, g) => negb p && g) (zip predictions ground_truth))%nat.
Proof.
  unfold Py.count. revert ground_truth.
  induction predictions as [|p ps IH]; intros [|g gs] Hlen; try discriminate; [reflexivity|].
  cbn [zip zip_with List.filter]. injection Hlen as Hlen. specialize (IH gs Hlen).
  destruct p, g; cbn [id andb negb length]; lia.
Qed.

Lemma mitigation_values (baseline mitigated : list bool) :
  length baseline = length mitigated →
  baseline ≠ [] →
  let pairs := zip baseline mitigated in
  let both := Py.count (fun '(b, m) => b && m) pairs in
  let improved := Py.count (fun '(b, m) => b && negb m) pairs in
  let degraded := Py.count (fun '(b, m) => negb b && m) pairs in
  let n := length baseline in
  ∃ e, mitigation_effectiveness baseline mitigated = Py.Ok e
       ∧ improvements e = improved ∧ degradations e = degraded
       ∧ unchanged e = (Z.of_nat n - Z.of_nat improved - Z.of_nat degraded)%Z
       ∧ net_improvement e = (Z.of_nat improved - Z.of_nat degraded)%Z
       ∧ (improved + degraded ≤ n)%nat
       ∧ (baseline_hallucination_rate e == Py.of_nat (both + improved) / Py.of_nat n)%Q
       ∧ (mitigated_hallucination_rate e == Py.of_nat (both + degraded) / Py.of_nat n)%Q
       ∧ (absolute_reduction e
          == baseline_hallucination_rate e - mitigated_hallucination_rate e)%Q
       ∧ (relative_reduction_percent e
          == if Py.Qltb 0 (baseline_hallucination_rate e)
             then absolute_reduction e / baseline_hallucination_rate e * 100 else 0)%Q.
Proof.
  intros Hlen Hne pairs both improved degraded n.
  unfold mitigation_effectiveness. rewrite (length_eq_eqb _ _ Hlen).
  rewrite <- Hlen. fold n.
  assert (Hn : (0 < n)%nat) by (subst n; destruct baseline; [contradiction|cbn; lia]).
  destruct n as [|k] eqn:En; [lia|].
  cbn [Py.div mbind Py.result_bind mret Py.result_ret].
  eexists. split; [reflexivity|].
  cbn [improvements degradations unchanged net_improvement baseline_hallucination_rate
       mitigated_hallucination_rate absolute_reduction relative_reduction_percent].
  fold pairs improved degraded.
  split; [reflexivity|]. split; [reflexivity|]. split; [reflexivity|].
  split; [reflexivity|]. split.
  { pose proof (confusion_classes pairs) as Hc.
    pose proof (zip_length_same baseline mitigated Hlen) as Hz.
    fold pairs in Hz. fold both improved degraded in Hc. unfold n in En. lia. }
  split.
  { rewrite (positive_classes baseline mitigated Hlen). fold pairs both improved.
    reflexivity. }
  split.
  { rewrite (label_classes baseline mitigated Hlen). fold pairs both degraded.
    reflexivity. }
  split; [reflexivity|].
  destruct (Py.Qltb 0 _); reflexivity.
Qed.

(** X17: on non-empty sequences of equal length [mitigation_effectiveness]
    returns; improvements, degradations and unchanged samples add up to the
    number of samples and none is negative; both rates lie between 0 and 1;
    and the absolute reduction of the rate is the net improvement (the
    improvements minus the degradations) divided by the number of samples.
    On two empty sequences it raises [ZeroDivisionError]. *)
Theorem mitigation_accounting :
  mitigation_effectiveness [] [] = Py.Raise Py.ZeroDivisionError
  ∧ ∀ baseline mitigated : list bool,
      length baseline = length mitigated →
      baseline ≠ [] →
      ∃ e, mitigation_effectiveness baseline mitigated = Py.Ok e
           ∧ (Z.of_nat (improvements e) + Z.of_nat (degradations e) + unchanged e
              = Z.of_nat (length baseline))%Z
           ∧ (0 ≤ unchanged e)%Z
           ∧ net_improvement e
             = (Z.of_nat (improvements e) - Z.of_nat (degradations e))%Z
           ∧ in_unit (baseline_hallucination_rate e)
           ∧ in_unit (mitigated_hallucination_rate e)
           ∧ (absolute_reduction e
              == inject_Z (net_improvement e) / Py.of_nat (length baseline))%Q.
Proof.
  split; [reflexivity|]. intros baseline mitigated Hlen Hne.
  destruct (mitigation_values baseline mitigated Hlen Hne)
    as (e & He & Hi & Hd & Hu & Hnet & Hle & Hb & Hm & Ha & _).
  assert (Hn : (0 < length baseline)%nat) by (destruct baseline; [contradiction|cbn; lia]).
  pose proof (confusion_classes (zip baseline mitigated)) as Hc.
  rewrite (zip_length_same baseline mitigated Hlen) in Hc.
  exists e. split; [exact He|]. rewrite Hi, Hd, Hu, Hnet.
  split; [lia|]. split; [lia|]. split; [reflexivity|].
  split; [unfold in_unit; rewrite Hb; apply ratio_in_unit; lia|].
  split; [unfold in_unit; rewrite Hm; apply ratio_in_unit; lia|].
  rewrite Ha, Hb, Hm, !of_nat_add.
  assert (Hz : (inject_Z (Z.of_nat (Py.count (fun '(b, m) => b && negb m)
                                      (zip baseline mitigated))
                          - Z.of_nat (Py.count (fun '(b, m) => negb b && m)
                                        (zip baseline mitigated)))
                == Py.of_nat (Py.count (fun '(b, m) => b && negb m) (zip baseline mitigated))
                   - Py.of_nat (Py.count (fun '(b, m) => negb b && m)
                                  (zip baseline mitigated)))%Q).
  { unfold Py.of_nat, Z.sub. rewrite inject_Z_plus, inject_Z_opp. reflexivity. }
  rewrite Hz. field. intros H0. apply of_nat_pos in Hn. rewrite H0 in Hn. inversion Hn.
Qed.

Lemma mitigation_accounting_witness :
  length [true; true; false; true] = length [false; true; true; false]
  ∧ [true; true; false; true] ≠ []
  ∧ ∃ e, mitigation_effectiveness [true; true; false; true] [false; true; true; false]
         = Py.Ok e
         ∧ (improvements e, degradations e, unchanged e, net_improvement e)
           = (2%nat, 1%nat, 1%Z, 1%Z)
         ∧ (absolute_reduction e == 1 / 4)%Q.
Proof.
  split; [reflexivity|]. split; [discriminate|].
  destruct (proj2 mitigation_accounting [true; true; false; true]
              [false; true; true; false] eq_refl ltac:(discriminate))
    as (e & He & _ & _ & _ & _ & _ & Habs).
  exists e. split; [exact He|].
  vm_compute in He. injection He as <-. split; reflexivity.
Defined.

Lemma zip_self_counts (l : list bool) :
  Py.count (fun '(b, m) => b && negb m) (zip l l) = 0%nat
  ∧ Py.count (fun '(b, m) => negb b && m) (zip l l) = 0%nat.
Proof.
  unfold Py.count. induction l as [|x l [IH1 IH2]]; [split; reflexivity|].
  cbn [zip zip_with List.filter]. destruct x; cbn [andb negb]; split; assumption.
Qed.

(** X18: a mitigation that changes nothing is reported as such: for any
    non-empty sequence compared with itself there are no improvements and no
    degradations, every sample is unchanged, and the absolute reduction, the
    relative reduction and the net improvement are 0. *)
Theorem mitigation_of_nothing (hallucinations : list bool) :
  hallucinations ≠ [] →
  ∃ e, mitigation_effectiveness hallucinations hallucinations = Py.Ok e
       ∧ improvements e = 0%nat ∧ degradations e = 0%nat
       ∧ unchanged e = Z.of_nat (length hallucinations)
       ∧ net_improvement e = 0%Z
       ∧ (absolute_reduction e == 0)%Q
       ∧ (relative_reduction_percent e == 0)%Q.
Proof.
  intros Hne.
  destruct (mitigation_values hallucinations hallucinations eq_refl Hne)
    as (e & He & Hi & Hd & Hu & Hnet & _ & Hb & Hm & Ha & Hr).
  destruct (zip_self_counts hallucinations) as [H1 H2].
  rewrite H1 in Hi, Hu, Hnet, Hb. rewrite H2 in Hd, Hu, Hnet, Hm.
  assert (Habs : (absolute_reduction e == 0)%Q) by (rewrite Ha, Hb, Hm; ring).
  exists e. split; [exact He|]. split; [exact Hi|]. split; [exact Hd|].
  split; [rewrite Hu; lia|]. split; [exact Hnet|]. split; [exact Habs|].
  rewrite Hr. destruct (Py.Qltb 0 _); [|reflexivity].
  rewrite Habs. unfold Qdiv. ring.
Qed.

Lemma mitigation_of_nothing_witness :
  [true; false; true] ≠ []
  ∧ ∃ e, mitigation_effectiveness [true; false; true] [true; false; true] = Py.Ok e
         ∧ unchanged e = 3%Z ∧ (relative_reduction_percent e == 0)%Q.
Proof.
  split; [discriminate|].
  destruct (mitigation_of_nothing [true; false; true] ltac:(discriminate))
    as (e & He & _ & _ & Hu & _ & _ & Hr).
  exists e. split; [exact He|]. split; [exact Hu|exact Hr].
Defined.

End Mitigation.

(** ** Metrics: analysis by type *)

Section ByType.

Lemma group_add_keys (k h : string) (pred truth : bool)
    (d : list (string * (list bool * list bool))) :
  k ∈ (group_add h pred truth d).*1 ↔ k = h ∨ k ∈ d.*1.
Proof.
  induction d as [|[y [ps ts]] r IH]; cbn [group_add].
  - cbn. rewrite list_elem_of_singleton. split; [left; assumption|].
    intros [H|H]; [assumption|inversion H].
  - destruct (String.eqb_spec h y) as [->|Hne]; cbn [fmap list_fmap fst].
    + rewrite elem_of_cons. tauto.
    + rewrite !elem_of_cons, IH. tauto.
Qed.

Lemma group_add_invariant (h : string) (pred truth : bool)
    (d : list (string * (list bool * list bool))) :
  NoDup d.*1 → Forall balanced d →
  NoDup (group_add h pred truth d).*1
  ∧ Forall balanced (group_add h pred truth d)
  ∧ group_sizes (group_add h pred truth d) = S (group_sizes d).
Proof.
  unfold group_sizes.
  induction d as [|[y [ps ts]] r IH]; cbn [group_add]; intros Hnd Hbal.
  - split; [cbn; apply NoDup_singleton|]. split; [|reflexivity].
    constructor; [reflexivity|constructor].
  - apply Forall_cons in Hbal as [Hy Hr]. unfold balanced in Hy. cbn [fst snd] in Hy.
    destruct (String.eqb_spec h y) as [->|Hne].
    + split; [exact Hnd|]. split.
      * constructor; [|exact Hr]. unfold balanced. cbn [fst snd].
        rewrite !length_app. cbn. lia.
      * cbn [map sum_list fst snd]. rewrite length_app. cbn. lia.
    + cbn [fmap list_fmap fst] in Hnd. apply NoDup_cons in Hnd as [Hny Hndr].
      destruct (IH Hndr Hr) as (IH1 & IH2 & IH3).
      split; [|split].
      * cbn [fmap list_fmap fst]. apply NoDup_cons. split; [|exact IH1].
        change (y ∉ (group_add h pred truth r).*1). rewrite group_add_keys.
        intros [->|Hin]; [contradiction|]. exact (Hny Hin).
      * constructor; [exact Hy|exact IH2].
      * cbn [map sum_list fst snd]. rewrite IH3. lia.
Qed.

Lemma group_fold_invariant (triples : list (bool * bool * string))
    (d : list (string * (list bool * list bool))) :
  NoDup d.*1 → Forall balanced d →
  let d' := fold_left (fun d '(pred, truth, h_type) => group_add h_type pred truth d)
                      triples d in
  NoDup d'.*1 ∧ Forall balanced d'
  ∧ group_sizes d' = (group_sizes d + length triples)%nat
  ∧ ∀ k, k ∈ d'.*1 ↔ k ∈ d.*1 ∨ k ∈ triples.*2.
Proof.
  revert d. induction triples as [|[[pred truth] h] rest IH]; intros d Hnd Hbal.
  - cbn [fold_left length]. split; [exact Hnd|]. split; [exact Hbal|].
    split; [rewrite Nat.add_0_r; reflexivity|].
    intros k. split; [left; assumption|]. intros [H|H]; [assumption|inversion H].
  - cbn [fold_left].
    destruct (group_add_invariant h pred truth d Hnd Hbal) as (H1 & H2 & H3).
    destruct (IH _ H1 H2) as (I1 & I2 & I3 & I4).
    split; [exact I1|]. split; [exact I2|]. split; [rewrite I3, H3; cbn; lia|].
    intros k. rewrite I4, group_add_keys. cbn [fmap list_fmap snd].
    rewrite elem_of_cons. tauto.
Qed.

Lemma analyse_groups (d : list (string * (list bool * list bool))) :
  Forall balanced d →
  ∃ r, mapM (fun '(h_type, (preds, truth)) =>
               metrics ← precision_recall_f1 preds truth;
               acc ← accuracy preds truth;
               mret (h_type, {| type_prf := metrics;
                                type_accuracy := acc;
                                type_count := length preds |})) d = Py.Ok r
       ∧ r.*1 = d.*1 ∧ total_type_count r = group_sizes d.
Proof.
  unfold total_type_count, group_sizes.
  induction 1 as [|[h [ps ts]] d Hb Hd (r & Hr & Hkeys & Hsum)].
  - exists []. repeat split.
  - unfold balanced in Hb. cbn [fst snd] in Hb. cbn [mapM].
    destruct (precision_recall_f1_returns ps ts Hb) as [m ->].
    destruct (accuracy_returns ps ts Hb) as [q ->].
    cbn [mbind Py.result_bind mret Py.result_ret]. rewrite Hr.
    cbn [mbind Py.result_bind mret Py.result_ret].
    eexists. split; [reflexivity|]. cbn [fmap list_fmap fst map sum_list snd type_count].
    split; [f_equal; exact Hkeys|]. rewrite Hsum. reflexivity.
Qed.

(** X19: on three sequences of equal length [error_analysis_by_type]
    returns; it reports each type that occurs once and no other type; and the
    counts of the types add up to the number of samples. *)
Theorem analysis_by_type_partition (predictions ground_truth : list bool)
    (hallucination_types : list string) :
  length predictions = length ground_truth →
  length ground_truth = length hallucination_types →
  ∃ r, error_analysis_by_type predictions ground_truth hallucination_types = Py.Ok r
       ∧ NoDup r.*1
       ∧ (∀ k, k ∈ r.*1 ↔ k ∈ hallucination_types)
       ∧ total_type_count r = length predictions.
Proof.
  intros H1 H2. unfold error_analysis_by_type.
  apply Nat.eqb_eq in H1 as E1. apply Nat.eqb_eq in H2 as E2.
  rewrite E1, E2. cbn [andb negb].
  set (triples := zip (zip predictions ground_truth) hallucination_types).
  destruct (group_fold_invariant triples [] (NoDup_nil_2) (Forall_nil_2 _))
    as (Hnd & Hbal & Hsize & Hkeys).
  destruct (analyse_groups _ Hbal) as (r & Hr & Hrk & Hrs).
  exists r. split; [exact Hr|]. rewrite Hrk, Hrs, Hsize.
  split; [exact Hnd|]. split.
  - intros k. rewrite Hkeys. unfold triples. rewrite snd_zip.
    + split; [|right; assumption]. intros [H|H]; [inversion H|assumption].
    + rewrite length_zip. lia.
  - unfold triples, group_sizes. cbn [map sum_list]. rewrite !length_zip. lia.
Qed.

Lemma analysis_by_type_partition_witness :
  length [true; false; true; true] = length [true; true; false; true]
  ∧ length [true; true; false; true]
    = length ["fabrication"; "numerical_error"; "fabrication"; "factual_error"]
  ∧ ∃ r, error_analysis_by_type [true; false; true; true] [true; true; false; true]
           ["fabrication"; "numerical_error"; "fabrication"; "factual_error"] = Py.Ok r
         ∧ r.*1 = ["fabrication"; "numerical_error"; "factual_error"]
         ∧ total_type_count r = 4%nat.
Proof.
  split; [reflexivity|]. split; [reflexivity|].
  destruct (analysis_by_type_partition [true; false; true; true] [true; true; false; true]
              ["fabrication"; "numerical_error"; "fabrication"; "factual_error"]
              eq_refl eq_refl) as (r & Hr & _ & _ & Hcount).
  exists r. split; [exact Hr|]. split; [|exact Hcount].
  vm_compute in Hr. injection Hr as <-. reflexivity.
Defined.

End ByType.

(** ** Metrics: comparison of models *)

Section Models.

Lemma model_loop_no_ground_truth (items : list (string * list string))
    (comparison : list (string * model_metrics)) :
  model_loop items [] comparison
  = if existsb (fun '(_, responses) => (length responses =? 0)%nat) items
    then Py.Raise Py.ZeroDivisionError else Py.Ok comparison.
Proof.
  induction items as [|[name responses] rest IH]; [reflexivity|].
  cbn [model_loop existsb length]. destruct responses as [|x xs]; cbn; [reflexivity|].
  exact IH.
Qed.

Lemma Forall_setitem {V} (P : V → Prop) (k : string) (v : V) (d : list (string * V)) :
  P v → Forall (fun e => P (snd e)) d → Forall (fun e => P (snd e)) (Py.setitem k v d).
Proof.
  intros Hv. induction 1 as [|[k' v'] d Hd Hr IH]; cbn [Py.setitem].
  - constructor; [exact Hv|constructor].
  - destruct (String.eqb k k'); constructor; assumption.
Qed.

Lemma response_overlap_in_unit (response truth : string) :
  in_unit (response_overlap response truth).
Proof.
  unfold response_overlap.
  destruct (decide (token_set (lower truth) = ∅)) as [He|Hne]; [split; lra|].
  apply overlap_in_unit, Hne.
Qed.

Lemma model_loop_invariant (P : model_metrics → Prop) (ground_truths : list string) :
  (∀ responses : list string,
     length responses = length ground_truths → ground_truths ≠ [] →
     ∀ rate, Py.div (Py.count id (map (fun '(r, g) => String.eqb (lower (strip r))
                                                                 (lower (strip g)))
                                      (zip responses ground_truths)))
                    (length (map (fun '(r, g) => String.eqb (lower (strip r))
                                                            (lower (strip g)))
                                 (zip responses ground_truths))) = Py.Ok rate →
     P {| exact_match_rate := rate;
          avg_token_overlap :=
            Py.mean (map (fun '(r, g) => response_overlap r g)
                         (zip responses ground_truths));
          model_hallucination_rate := (1 - rate)%Q;
          num_samples := length responses |}) →
  ∀ items comparison r,
    Forall (fun e => P (snd e)) comparison →
    model_loop items ground_truths comparison = Py.Ok r →
    Forall (fun e => P (snd e)) r.
Proof.
  intros HP. induction items as [|[name responses] rest IH]; intros comparison r Hc.
  - cbn. intros [= <-]. exact Hc.
  - cbn [model_loop].
    destruct (Nat.eq_dec (length responses) (length ground_truths)) as [Heq|Hne].
    + rewrite (length_eq_eqb _ _ Heq).
      destruct (Py.div _ _) as [rate|e] eqn:Ediv; [|discriminate].
      cbn [mbind Py.result_bind]. apply IH. apply Forall_setitem; [|exact Hc].
      apply (HP responses Heq); [|exact Ediv].
      intros ->. destruct responses; [|discriminate]. discriminate.
    + rewrite (length_neq_eqb _ _ Hne). apply IH, Hc.
Qed.

(** X20: every model that [model_comparison] reports on has as many
    samples as there are ground truths, an exact-match rate and a mean token
    overlap between 0 and 1, and a hallucination rate that is the complement
    of the exact-match rate.  With an empty list of ground truths the function
    raises [ZeroDivisionError] as soon as some model has an empty list of
    responses, and returns the empty mapping otherwise; with a non-empty list
    it always returns. *)
Theorem model_comparison_entries :
  (∀ model_responses ground_truths r name m,
     model_comparison model_responses ground_truths = Py.Ok r →
     (name, m) ∈ r →
     num_samples m = length ground_truths
     ∧ in_unit (exact_match_rate m) ∧ in_unit (avg_token_overlap m)
     ∧ (exact_match_rate m + model_hallucination_rate m == 1)%Q)
  ∧ (∀ model_responses : list (string * list string),
       model_comparison model_responses []
       = if existsb (fun '(_, responses) => (length responses =? 0)%nat) model_responses
         then Py.Raise Py.ZeroDivisionError else Py.Ok [])
  ∧ (∀ model_responses ground_truths,
       ground_truths ≠ [] →
       ∃ r, model_comparison model_responses ground_truths = Py.Ok r).
Proof.
  split; [|split; [intros mr; apply model_loop_no_ground_truth|]].
  2: { intros mr gt Hgt.
       destruct (proj2 (model_loop_returns gt mr []) Hgt) as (r & Hr & _).
       exists r. exact Hr. }
  intros mr gt r name m Hr Hin. unfold model_comparison in Hr.
  pose proof (model_loop_invariant
                (fun m => num_samples m = length gt
                          ∧ in_unit (exact_match_rate m) ∧ in_unit (avg_token_overlap m)
                          ∧ (exact_match_rate m + model_hallucination_rate m == 1)%Q)
                gt) as Hinv.
  assert (Hall : Forall (fun e => num_samples (snd e) = length gt
                                  ∧ in_unit (exact_match_rate (snd e))
                                  ∧ in_unit (avg_token_overlap (snd e))
                                  ∧ (exact_match_rate (snd e)
                                     + model_hallucination_rate (snd e) == 1)%Q) r).
  { apply (Hinv) with (items := mr) (comparison := []); [|constructor|exact Hr].
    intros responses Hlen Hgt rate Hdiv.
    cbn [num_samples exact_match_rate avg_token_overlap model_hallucination_rate].
    pose proof (zip_length_same _ _ Hlen) as Hzip.
    rewrite length_map, Hzip in Hdiv.
    assert (Hpos : (0 < length responses)%nat).
    { rewrite Hlen. destruct gt; [contradiction|cbn; lia]. }
    split; [exact Hlen|].
    destruct (length responses) as [|k] eqn:El; [lia|]. cbn [Py.div] in Hdiv.
    injection Hdiv as <-.
    split; [|split; [|ring]].
    - apply ratio_in_unit; [|lia]. unfold Py.count.
      etransitivity; [apply filter_length_le|].
      rewrite length_map, Hzip. reflexivity.
    - apply mean_in_unit.
      + intros Hnil. apply (f_equal length) in Hnil.
        rewrite length_map, Hzip in Hnil. discriminate.
      + apply Forall_forall. intros q Hq.
        apply list_elem_of_In, in_map_iff in Hq as ([rsp g] & <- & _).
        apply response_overlap_in_unit. }
  rewrite Forall_forall in Hall. exact (Hall (name, m) Hin).
Qed.

Lemma model_comparison_entries_witness :
  ∃ r m, model_comparison [("small", ["Paris"; "Lyon"]); ("large", ["paris"])]
                          ["Paris"; "Rome"] = Py.Ok r
         ∧ ("small", m) ∈ r
         ∧ num_samples m = 2%nat
         ∧ (exact_match_rate m + model_hallucination_rate m == 1)%Q.
Proof.
  assert (Hgt : ["Paris"; "Rome"] ≠ []) by discriminate.
  destruct (proj2 (proj2 model_comparison_entries)
              [("small", ["Paris"; "Lyon"]); ("large", ["paris"])] ["Paris"; "Rome"] Hgt)
    as [r Hr].
  assert (Hin : ∃ m, ("small", m) ∈ r).
  { vm_compute in Hr. injection Hr as <-. eexists. left. }
  destruct Hin as [m Hin].
  destruct (proj1 model_comparison_entries _ _ r "small" m Hr Hin) as (Hn & _ & _ & Hsum).
  exists r, m. split; [exact Hr|]. split; [exact Hin|]. split; [exact Hn|exact Hsum].
Defined.

End Models.

(** ** Metrics: the bins of the calibration *)

Section CalibrationBins.

Lemma select_length {A} (mask : list bool) (l : list A) :
  length mask = length l → length (select mask l) = Py.count id mask.
Proof.
  unfold select, Py.count. rewrite length_map. revert l.
  induction mask as [|b mask IH]; intros [|x l] Hlen; try discriminate; [reflexivity|].
  cbn [zip zip_with List.filter fst id]. injection Hlen as Hlen.
  destruct b; cbn [length]; rewrite (IH l Hlen); reflexivity.
Qed.

Lemma select_Forall {A} (P : A → Prop) (mask : list bool) (l : list A) :
  Forall P l → Forall P (select mask l).
Proof.
  unfold select. intros Hl. revert mask.
  induction Hl as [|x l Hx Hl IH]; intros [|b mask]; try constructor.
  cbn [zip zip_with List.filter fst]. destruct b; cbn [map snd].
  - constructor; [exact Hx|apply IH].
  - apply IH.
Qed.

Lemma count_map {A B} (p : B → bool) (f : A → B) (l : list A) :
  Py.count p (map f l) = Py.count (fun x => p (f x)) l.
Proof.
  unfold Py.count. induction l as [|x l IH]; [reflexivity|].
  cbn [map List.filter]. destruct (p (f x)); cbn [length]; rewrite IH; reflexivity.
Qed.

Lemma existsb_count {A} (p : A → bool) (l : list A) :
  existsb id (map p l) = (0 <? Py.count p l)%nat.
Proof.
  unfold Py.count. induction l as [|x l IH]; [reflexivity|].
  cbn [map existsb List.filter id]. destruct (p x); [reflexivity|exact IH].
Qed.

(** One round of the loop adds the bin [i] with the number of indices equal
    to [i], unless there is none. *)
Lemma bin_step_bins (confidences : list Q) (correct : list bool)
    (edges : list Q) (bin_indices : list Z) (total : nat)
    (st : Q * list bin_info) (i : nat) :
  length bin_indices = length confidences →
  map (fun b => (bin b, bin_count b))
      (snd (bin_step confidences correct edges bin_indices total st i))
  = (map (fun b => (bin b, bin_count b)) (snd st)
     ++ (if (0 <? Py.count (fun b => (b =? Z.of_nat i)%Z) bin_indices)%nat
         then [(i, Py.count (fun b => (b =? Z.of_nat i)%Z) bin_indices)]
         else []))%list.
Proof.
  intros Hlen. destruct st as [total_ece bin_data]. unfold bin_step.
  rewrite existsb_count. destruct (0 <? _)%nat; cbn [negb snd].
  - rewrite map_app. cbn [map bin bin_count]. rewrite select_length.
    + rewrite count_map. reflexivity.
    + rewrite length_map. exact Hlen.
  - rewrite app_nil_r. reflexivity.
Qed.

Lemma fold_bin_step_bins (confidences : list Q) (correct : list bool)
    (edges : list Q) (bin_indices : list Z) (total : nat)
    (range : list nat) (st : Q * list bin_info) :
  length bin_indices = length confidences →
  map (fun b => (bin b, bin_count b))
      (snd (fold_left (bin_step confidences correct edges bin_indices total) range st))
  = (map (fun b => (bin b, bin_count b)) (snd st)
     ++ flat_map (fun i => if (0 <? Py.count (fun b => (b =? Z.of_nat i)%Z) bin_indices)%nat
                           then [(i, Py.count (fun b => (b =? Z.of_nat i)%Z) bin_indices)]
                           else []) range)%list.
Proof.
  intros Hlen. revert st. induction range as [|i range IH]; intros st.
  - cbn [fold_left flat_map]. rewrite app_nil_r. reflexivity.
  - cbn [fold_left flat_map]. rewrite IH, bin_step_bins by exact Hlen.
    rewrite <- app_assoc. reflexivity.
Qed.

Lemma occupied_sublist (cnt : nat → nat) (range : list nat) :
  sublist (map fst (flat_map (fun i => if (0 <? cnt i)%nat then [(i, cnt i)] else [])
                             range)) range.
Proof.
  induction range as [|i range IH]; cbn [flat_map map]; [constructor|].
  destruct (0 <? cnt i)%nat; cbn [app map fst].
  - apply sublist_skip, IH.
  - apply sublist_cons, IH.
Qed.

Lemma sum_list_cons (x : nat) (l : list nat) : sum_list (x :: l) = (x + sum_list l)%nat.
Proof. reflexivity. Qed.

Lemma occupied_total (cnt : nat → nat) (range : list nat) :
  sum_list (map snd (flat_map (fun i => if (0 <? cnt i)%nat then [(i, cnt i)] else [])
                              range))
  = sum_list (map cnt range).
Proof.
  induction range as [|i range IH]; cbn [flat_map map]; [reflexivity|].
  destruct (0 <? cnt i)%nat eqn:E; cbn [app map snd]; rewrite ?sum_list_cons, IH.
  - reflexivity.
  - apply Nat.ltb_ge in E. lia.
Qed.

Lemma count_disjoint_union {A} (p q r : A → bool) (l : list A) :
  (∀ x, r x = p x || q x) → (∀ x, p x && q x = false) →
  (Py.count p l + Py.count q l = Py.count r l)%nat.
Proof.
  intros Hr Hpq. unfold Py.count. induction l as [|x l IH]; [reflexivity|].
  cbn [List.filter]. rewrite Hr. specialize (Hpq x).
  destruct (p x), (q x); try discriminate; cbn [orb length]; lia.
Qed.

Lemma count_none {A} (p : A → bool) (l : list A) :
  (∀ x, p x = false) → Py.count p l = 0%nat.
Proof.
  intros Hp. unfold Py.count. induction l as [|x l IH]; [reflexivity|].
  cbn [List.filter]. rewrite Hp. exact IH.
Qed.

(** Every index is counted in at most one bin of a range of consecutive
    bins, and in one exactly if it lies in the range. *)
Lemma index_counts (bin_indices : list Z) (s n : nat) :
  (sum_list (map (fun i => Py.count (fun b => (b =? Z.of_nat i)%Z) bin_indices) (seq s n))
   = Py.count (fun b => (Z.of_nat s <=? b)%Z && (b <? Z.of_nat (s + n))%Z) bin_indices)%nat.
Proof.
  revert s. induction n as [|n IH]; intros s.
  - cbn [seq map]. rewrite count_none; [reflexivity|].
    intros b. apply andb_false_iff.
    destruct (Z.leb_spec (Z.of_nat s) b); [right; apply Z.ltb_ge; lia|left; reflexivity].
  - cbn [seq map]. rewrite sum_list_cons, IH.
    apply count_disjoint_union; intros b.
    + destruct (Z.eqb_spec b (Z.of_nat s)), (Z.leb_spec (Z.of_nat s) b),
        (Z.leb_spec (Z.of_nat (S s)) b), (Z.ltb_spec b (Z.of_nat (s + S n))),
        (Z.ltb_spec b (Z.of_nat (S s + n))); cbn [andb orb]; try reflexivity; lia.
    + destruct (Z.eqb_spec b (Z.of_nat s)), (Z.leb_spec (Z.of_nat (S s)) b);
        cbn [andb]; try reflexivity; lia.
Qed.

Lemma bin_indices_in_range (confidences : list Q) (num_bins : nat) :
  (1 ≤ num_bins)%nat →
  Forall (fun b => (0 ≤ b < Z.of_nat num_bins)%Z) (bin_indices_of confidences num_bins).
Proof.
  intros Hn. unfold bin_indices_of. apply Forall_map, Forall_forall.
  intros x _. unfold clip. lia.
Qed.

Lemma count_all {A} (p : A → bool) (l : list A) :
  Forall (fun x => p x = true) l → Py.count p l = length l.
Proof.
  unfold Py.count. induction 1 as [|x l Hx Hl IH]; [reflexivity|].
  cbn [List.filter]. rewrite Hx. cbn [length]. rewrite IH. reflexivity.
Qed.

(** The bins the calibration lists, as pairs of index and count. *)
Lemma calibration_bins (confidences : list Q) (correct : list bool) (num_bins : nat) :
  length confidences = length correct →
  ∃ r, confidence_calibration confidences correct num_bins = Py.Ok r
       ∧ map (fun b => (bin b, bin_count b)) (bins r)
         = if (length confidences =? 0)%nat then []
           else flat_map (fun i =>
                  if (0 <? Py.count (fun b => (b =? Z.of_nat i)%Z)
                                    (bin_indices_of confidences num_bins))%nat
                  then [(i, Py.count (fun b => (b =? Z.of_nat i)%Z)
                                     (bin_indices_of confidences num_bins))]
                  else []) (seq 0 num_bins).
Proof.
  intros Hlen. unfold confidence_calibration. rewrite (length_eq_eqb _ _ Hlen).
  destruct confidences as [|c cs] eqn:Ec.
  { eexists. split; reflexivity. }
  rewrite <- Ec in *.
  replace (length confidences =? 0)%nat with false by (subst; reflexivity).
  clear Ec.
  pose proof (fold_bin_step_bins confidences correct
                (linspace_0_1 (num_bins + 1)) (bin_indices_of confidences num_bins)
                (length confidences) (seq 0 num_bins) (0.0%Q, [])) as Hb.
  destruct (fold_left _ _ _) as [total_ece bin_data].
  eexists. split; [reflexivity|]. cbn [bins]. cbn [snd map app] in Hb. apply Hb.
  unfold bin_indices_of. rewrite length_map. reflexivity.
Qed.

(** X21: with at least one bin, the bins listed by the calibration hold
    every sample exactly once: their counts add up to the number of
    samples, and their indices are listed in increasing order, all below
    the number of bins. *)
Theorem calibration_partition (confidences : list Q) (correct : list bool)
    (num_bins : nat) :
  length confidences = length correct →
  (1 ≤ num_bins)%nat →
  ∃ r, confidence_calibration confidences correct num_bins = Py.Ok r
       ∧ total_count (bins r) = length confidences
       ∧ sublist (map bin (bins r)) (seq 0 num_bins).
Proof.
  intros Hlen Hn.
  destruct (calibration_bins confidences correct num_bins Hlen) as (r & Hr & Hb).
  exists r. split; [exact Hr|].
  assert (Hc : map bin_count (bins r) = map snd (map (fun b => (bin b, bin_count b)) (bins r))).
  { rewrite map_map. reflexivity. }
  assert (Hi : map bin (bins r) = map fst (map (fun b => (bin b, bin_count b)) (bins r))).
  { rewrite map_map. reflexivity. }
  unfold total_count. rewrite Hc, Hi, Hb. clear Hc Hi Hb Hr.
  destruct (length confidences =? 0)%nat eqn:E.
  { apply Nat.eqb_eq in E. rewrite E. split; [reflexivity|]. apply sublist_nil_l. }
  split; [|apply (occupied_sublist
                    (fun i => Py.count (fun b => (b =? Z.of_nat i)%Z)
                                       (bin_indices_of confidences num_bins)))].
  rewrite (occupied_total
             (fun i => Py.count (fun b => (b =? Z.of_nat i)%Z)
                                (bin_indices_of confidences num_bins))).
  rewrite index_counts, count_all.
  - unfold bin_indices_of. rewrite length_map. reflexivity.
  - eapply Forall_impl; [apply bin_indices_in_range, Hn|].
    intros b Hb. cbn beta in *. apply andb_true_iff.
    split; [apply Z.leb_le|apply Z.ltb_lt]; lia.
Qed.

Lemma calibration_partition_witness :
  length [0.95; 0.15; 1; 0; 0.1]%Q = length [true; true; false; false; true]
  ∧ (1 ≤ 3)%nat
  ∧ ∃ r, confidence_calibration [0.95; 0.15; 1; 0; 0.1]%Q
                                [true; true; false; false; true] 3 = Py.Ok r
         ∧ total_count (bins r) = 5%nat
         ∧ map bin (bins r) = [0; 2]%nat.
Proof.
  assert (Hlen : length [0.95; 0.15; 1; 0; 0.1]%Q
                 = length [true; true; false; false; true]) by reflexivity.
  assert (Hn : (1 ≤ 3)%nat) by lia.
  split; [exact Hlen|]. split; [exact Hn|].
  destruct (calibration_partition [0.95; 0.15; 1; 0; 0.1]%Q
              [true; true; false; false; true] 3%nat Hlen Hn) as (r & Hr & Hsum & _).
  exists r. split; [exact Hr|]. split; [exact Hsum|].
  vm_compute in Hr. inversion Hr. reflexivity.
Defined.

Lemma Qabs_in_unit (x y : Q) : in_unit x → in_unit y → in_unit (Qabs (x - y)).
Proof.
  intros [Hx0 Hx1] [Hy0 Hy1]. split; [apply Qabs_nonneg|].
  apply Qabs_Qle_condition. split; lra.
Qed.

Lemma bin_step_in_unit (confidences : list Q) (correct : list bool)
    (edges : list Q) (bin_indices : list Z) (total : nat)
    (st : Q * list bin_info) (i : nat) :
  Forall in_unit confidences →
  length bin_indices = length confidences →
  length confidences = length correct →
  Forall (fun b => in_unit (avg_confidence b) ∧ in_unit (bin_accuracy b)) (snd st) →
  Forall (fun b => in_unit (avg_confidence b) ∧ in_unit (bin_accuracy b))
         (snd (bin_step confidences correct edges bin_indices total st i)).
Proof.
  intros Hall Hlen Hlen' Hst. destruct st as [total_ece bin_data]. unfold bin_step.
  destruct (negb _) eqn:Emask; [exact Hst|]. apply negb_false_iff in Emask.
  cbn [snd] in *. apply Forall_app. split; [exact Hst|].
  constructor; [|constructor]. cbn [avg_confidence bin_accuracy]. split.
  - apply mean_in_unit; [|apply select_Forall, Hall].
    apply select_nonempty; [rewrite length_map; exact Hlen|exact Emask].
  - apply ratio_in_unit; [apply filter_length_le|].
    assert (Hne : select (map (fun b => (b =? Z.of_nat i)%Z) bin_indices) correct ≠ []).
    { apply select_nonempty; [rewrite length_map; congruence|exact Emask]. }
    destruct (select _ correct); [contradiction|cbn; lia].
Qed.

Lemma fold_bin_step_in_unit (confidences : list Q) (correct : list bool)
    (edges : list Q) (bin_indices : list Z) (total : nat)
    (range : list nat) (st : Q * list bin_info) :
  Forall in_unit confidences →
  length bin_indices = length confidences →
  length confidences = length correct →
  Forall (fun b => in_unit (avg_confidence b) ∧ in_unit (bin_accuracy b)) (snd st) →
  Forall (fun b => in_unit (avg_confidence b) ∧ in_unit (bin_accuracy b))
         (snd (fold_left (bin_step confidences correct edges bin_indices total) range st)).
Proof.
  intros Hall Hlen Hlen'. revert st.
  induction range as [|i range IH]; intros st Hst; [exact Hst|].
  cbn [fold_left]. apply IH, bin_step_in_unit; assumption.
Qed.

Lemma weighted_gap_sum_bounds (total : nat) (l : list bin_info) :
  Forall (fun b => in_unit (avg_confidence b) ∧ in_unit (bin_accuracy b)) l →
  (0 <= weighted_gap_sum total l)%Q
  ∧ (weighted_gap_sum total l <= Py.of_nat (total_count l) / Py.of_nat total)%Q.
Proof.
  unfold weighted_gap_sum, total_count.
  induction 1 as [|b l [Ha Hc] Hl [IH0 IH1]]; cbn [map Py.Qsum foldr].
  - split; [apply Qle_refl|]. unfold Qdiv. rewrite Qmult_0_l. apply Qle_refl.
  - fold (Py.Qsum (map (fun b => (Py.of_nat (bin_count b) / Py.of_nat total
                                  * Qabs (avg_confidence b - bin_accuracy b))%Q) l)) in *.
    rewrite sum_list_cons, of_nat_add.
    destruct (Qabs_in_unit _ _ Ha Hc) as [Hg0 Hg1].
    assert (Hw : (0 <= Py.of_nat (bin_count b) / Py.of_nat total)%Q).
    { unfold Qdiv. apply Qmult_le_0_compat; [apply of_nat_nonneg|].
      apply Qinv_le_0_compat, of_nat_nonneg. }
    set (w := (Py.of_nat (bin_count b) / Py.of_nat total)%Q) in *.
    set (g := Qabs (avg_confidence b - bin_accuracy b)) in *.
    assert (Hwg0 : (0 <= w * g)%Q) by (apply Qmult_le_0_compat; assumption).
    assert (Hwg1 : (w * g <= w)%Q).
    { rewrite <- (Qmult_1_l w) at 2. rewrite (Qmult_comm w g).
      apply Qmult_le_compat_r; assumption. }
    split; [lra|].
    assert (Hd : ((Py.of_nat (bin_count b) + Py.of_nat (sum_list (map bin_count l)))
                  / Py.of_nat total
                  == w + Py.of_nat (sum_list (map bin_count l)) / Py.of_nat total)%Q).
    { unfold w, Qdiv. ring. }
    rewrite Hd. lra.
Qed.

(** X22: for confidences of the unit interval the calibration stays in
    it: the mean confidence, the accuracy and the gap of every listed bin,
    and the expected calibration error, are all between 0 and 1. *)
Theorem calibration_error_bounds (confidences : list Q) (correct : list bool)
    (num_bins : nat) :
  length confidences = length correct →
  Forall in_unit confidences →
  ∃ r, confidence_calibration confidences correct num_bins = Py.Ok r
       ∧ in_unit (ece r)
       ∧ Forall (fun b => in_unit (avg_confidence b) ∧ in_unit (bin_accuracy b)
                          ∧ in_unit (gap b)) (bins r).
Proof.
  intros Hlen Hall.
  destruct (calibration_weighted_sum confidences correct num_bins Hlen)
    as (r & Hr & Hsum & Hocc).
  destruct (calibration_bins confidences correct num_bins Hlen) as (r' & Hr' & Hb).
  assert (r' = r) by congruence. subst r'. clear Hr'.
  exists r. split; [exact Hr|].
  assert (Hunit : Forall (fun b => in_unit (avg_confidence b) ∧ in_unit (bin_accuracy b))
                         (bins r)).
  { revert Hr. unfold confidence_calibration. rewrite (length_eq_eqb _ _ Hlen).
    destruct confidences as [|c cs] eqn:Ec.
    { intros [= <-]. constructor. }
    rewrite <- Ec in *. clear Ec.
    pose proof (fold_bin_step_in_unit confidences correct
                  (linspace_0_1 (num_bins + 1)) (bin_indices_of confidences num_bins)
                  (length confidences) (seq 0 num_bins) (0.0%Q, []) Hall) as Hf.
    destruct (fold_left _ _ _) as [total_ece bin_data].
    intros [= <-]. cbn [bins]. apply Hf; [|exact Hlen|constructor].
    unfold bin_indices_of. rewrite length_map. reflexivity. }
  split.
  - destruct (weighted_gap_sum_bounds (length confidences) (bins r) Hunit) as [H0 H1].
    split; [rewrite Hsum; exact H0|]. rewrite Hsum.
    assert (Hc : map bin_count (bins r)
                 = map snd (map (fun b => (bin b, bin_count b)) (bins r))).
    { rewrite map_map. reflexivity. }
    unfold total_count in H1. rewrite Hc, Hb in H1. clear Hc Hb.
    destruct (length confidences =? 0)%nat eqn:E.
    { cbn in H1. eapply Qle_trans; [exact H1|]. unfold Qdiv. rewrite Qmult_0_l. lra. }
    apply Nat.eqb_neq in E.
    rewrite (occupied_total
               (fun i => Py.count (fun b => (b =? Z.of_nat i)%Z)
                                  (bin_indices_of confidences num_bins))),
      index_counts in H1.
    eapply Qle_trans; [exact H1|].
    apply ratio_in_unit; [|lia]. unfold Py.count.
    etransitivity; [apply filter_length_le|].
    unfold bin_indices_of. rewrite length_map. reflexivity.
  - apply Forall_forall. intros b Hb'.
    pose proof (proj1 (Forall_forall _ _) Hunit b Hb') as [Ha Hc].
    pose proof (proj1 (Forall_forall _ _) Hocc b Hb') as [_ Hg].
    split; [exact Ha|]. split; [exact Hc|]. rewrite Hg. apply Qabs_in_unit; assumption.
Qed.

Lemma calibration_error_bounds_witness :
  length [0.95; 0.15; 1; 0; 0.1]%Q = length [true; true; false; false; true]
  ∧ Forall in_unit [0.95; 0.15; 1; 0; 0.1]%Q
  ∧ ∃ r, confidence_calibration [0.95; 0.15; 1; 0; 0.1]%Q
                                [true; true; false; false; true] 10 = Py.Ok r
         ∧ in_unit (ece r).
Proof.
  assert (Hlen : length [0.95; 0.15; 1; 0; 0.1]%Q
                 = length [true; true; false; false; true]) by reflexivity.
  assert (Hall : Forall in_unit [0.95; 0.15; 1; 0; 0.1]%Q).
  { repeat (apply List.Forall_cons; [split; unfold Qle; cbn; lia|]).
    apply List.Forall_nil. }
  split; [exact Hlen|]. split; [exact Hall|].
  destruct (calibration_error_bounds [0.95; 0.15; 1; 0; 0.1]%Q
              [true; true; false; false; true] 10%nat Hlen Hall) as (r & Hr & Hece & _).
  exists r. split; [exact Hr|exact Hece].
Defined.

Lemma count_zero {A} (p : A → bool) (l : list A) :
  Forall (fun x => p x = false) l → Py.count p l = 0%nat.
Proof.
  unfold Py.count. induction 1 as [|x l Hx Hl IH]; [reflexivity|].
  cbn [List.filter]. rewrite Hx. exact IH.
Qed.

Lemma edges_in_unit (num_bins : nat) :
  (1 ≤ num_bins)%nat → Forall in_unit (take num_bins (linspace_0_1 (num_bins + 1))).
Proof.
  intros Hn. apply Forall_take. unfold linspace_0_1.
  apply Forall_map, Forall_forall. intros j Hj.
  apply list_elem_of_In, in_seq in Hj.
  replace (num_bins + 1 - 1)%nat with num_bins by lia.
  assert (He : (Py.of_nat j * (1 / Py.of_nat num_bins)
                == Py.of_nat j / Py.of_nat num_bins)%Q).
  { unfold Qdiv. ring. }
  unfold in_unit. rewrite He. apply ratio_in_unit; lia.
Qed.

Lemma edges_length (num_bins : nat) :
  length (take num_bins (linspace_0_1 (num_bins + 1))) = num_bins.
Proof.
  unfold linspace_0_1. rewrite length_take, length_map, length_seq. lia.
Qed.

(** A confidence of at least 1 has the last index, a negative one the
    first. *)
Lemma bin_index_high (num_bins : nat) (x : Q) :
  (1 ≤ num_bins)%nat → (1 <= x)%Q →
  clip (digitize (take num_bins (linspace_0_1 (num_bins + 1))) x - 1) 0
       (Z.of_nat num_bins - 1) = Z.of_nat (num_bins - 1).
Proof.
  intros Hn Hx. unfold digitize. rewrite count_all, edges_length; [unfold clip; lia|].
  eapply Forall_impl; [apply edges_in_unit, Hn|].
  intros e [_ He]. cbn beta. apply Qle_bool_iff. lra.
Qed.

Lemma bin_index_low (num_bins : nat) (x : Q) :
  (1 ≤ num_bins)%nat → (x < 0)%Q →
  clip (digitize (take num_bins (linspace_0_1 (num_bins + 1))) x - 1) 0
       (Z.of_nat num_bins - 1) = Z.of_nat 0.
Proof.
  intros Hn Hx. unfold digitize. rewrite count_zero; [unfold clip; lia|].
  eapply Forall_impl; [apply edges_in_unit, Hn|].
  intros e [He _]. cbn beta. destruct (Qle_bool e x) eqn:E; [|reflexivity].
  apply Qle_bool_iff in E. lra.
Qed.

Lemma single_bin (confidences : list Q) (correct : list bool) (num_bins k : nat) :
  length confidences = length correct → confidences ≠ [] → (k < num_bins)%nat →
  Forall (fun b => b = Z.of_nat k) (bin_indices_of confidences num_bins) →
  ∃ r b, confidence_calibration confidences correct num_bins = Py.Ok r
         ∧ bins r = [b] ∧ bin b = k ∧ bin_count b = length confidences.
Proof.
  intros Hlen Hne Hk Hall.
  destruct (calibration_bins confidences correct num_bins Hlen) as (r & Hr & Hb).
  replace (length confidences =? 0)%nat with false in Hb
    by (destruct confidences; [contradiction|reflexivity]).
  assert (Hlen' : length (bin_indices_of confidences num_bins) = length confidences).
  { unfold bin_indices_of. rewrite length_map. reflexivity. }
  assert (Hk' : Py.count (fun b => (b =? Z.of_nat k)%Z) (bin_indices_of confidences num_bins)
                = length confidences).
  { rewrite count_all, Hlen'; [reflexivity|].
    eapply Forall_impl; [exact Hall|]. intros b ->. apply Z.eqb_refl. }
  assert (Hother : ∀ i, i ≠ k →
            Py.count (fun b => (b =? Z.of_nat i)%Z) (bin_indices_of confidences num_bins)
            = 0%nat).
  { intros i Hi. apply count_zero. eapply Forall_impl; [exact Hall|].
    intros b ->. apply Z.eqb_neq. lia. }
  assert (Hnone : ∀ s n, (k < s ∨ s + n ≤ k)%nat →
            flat_map (fun i =>
              if (0 <? Py.count (fun b => (b =? Z.of_nat i)%Z)
                                (bin_indices_of confidences num_bins))%nat
              then [(i, Py.count (fun b => (b =? Z.of_nat i)%Z)
                                 (bin_indices_of confidences num_bins))]
              else []) (seq s n) = []).
  { intros s n. revert s. induction n as [|n IH]; intros s Hs; [reflexivity|].
    cbn [seq flat_map]. rewrite (Hother s) by lia. cbn [Nat.ltb Nat.leb app].
    apply IH. lia. }
  assert (Hseq : seq 0 num_bins = (seq 0 k ++ [k] ++ seq (S k) (num_bins - S k))%list).
  { replace num_bins with (k + S (num_bins - S k))%nat at 1 by lia.
    rewrite seq_app. reflexivity. }
  rewrite Hseq, !flat_map_app, (Hnone 0%nat k), (Hnone (S k)) in Hb by lia.
  cbn [seq flat_map app] in Hb. rewrite Hk' in Hb.
  replace (0 <? length confidences)%nat with true in Hb
    by (destruct confidences; [contradiction|reflexivity]).
  cbn [app] in Hb.
  destruct (bins r) as [|b [|b' l]] eqn:Eb; try discriminate.
  exists r, b. cbn [map] in Hb. injection Hb as Hb1 Hb2.
  split; [exact Hr|]. split; [exact Eb|]. split; [lia|exact Hb2].
Qed.

(** X23: with at least one bin, confidences at the ends are clipped into
    the outer bins: if every confidence is at least 1 the calibration lists
    the last bin only, and if every confidence is negative the first bin
    only, each time with all the samples. *)
Theorem calibration_outer_bins (confidences : list Q) (correct : list bool)
    (num_bins : nat) :
  length confidences = length correct → confidences ≠ [] → (1 ≤ num_bins)%nat →
  (Forall (fun x => (1 <= x)%Q) confidences →
   ∃ r b, confidence_calibration confidences correct num_bins = Py.Ok r
          ∧ bins r = [b] ∧ bin b = (num_bins - 1)%nat
          ∧ bin_count b = length confidences)
  ∧ (Forall (fun x => (x < 0)%Q) confidences →
     ∃ r b, confidence_calibration confidences correct num_bins = Py.Ok r
            ∧ bins r = [b] ∧ bin b = 0%nat
            ∧ bin_count b = length confidences).
Proof.
  intros Hlen Hne Hn. split; intros Hall.
  - apply single_bin; [exact Hlen|exact Hne|lia|].
    unfold bin_indices_of. apply Forall_map.
    eapply Forall_impl; [exact Hall|]. intros x Hx. cbn beta.
    apply bin_index_high; assumption.
  - apply single_bin; [exact Hlen|exact Hne|lia|].
    unfold bin_indices_of. apply Forall_map.
    eapply Forall_impl; [exact Hall|]. intros x Hx. cbn beta.
    apply bin_index_low; assumption.
Qed.

Lemma calibration_outer_bins_witness :
  length [1; 1.0; 1]%Q = length [true; false; true]
  ∧ [1; 1.0; 1]%Q ≠ [] ∧ (1 ≤ 10)%nat
  ∧ Forall (fun x => (1 <= x)%Q) [1; 1.0; 1]%Q
  ∧ ∃ r b, confidence_calibration [1; 1.0; 1]%Q [true; false; true] 10 = Py.Ok r
           ∧ bins r = [b] ∧ bin b = 9%nat ∧ bin_count b = 3%nat.
Proof.
  assert (Hlen : length [1; 1.0; 1]%Q = length [true; false; true]) by reflexivity.
  assert (Hne : [1; 1.0; 1]%Q ≠ []) by discriminate.
  assert (Hn : (1 ≤ 10)%nat) by lia.
  assert (Hall : Forall (fun x => (1 <= x)%Q) [1; 1.0; 1]%Q).
  { repeat (apply List.Forall_cons; [unfold Qle; cbn; lia|]). apply List.Forall_nil. }
  split; [exact Hlen|]. split; [exact Hne|]. split; [exact Hn|]. split; [exact Hall|].
  exact (proj1 (calibration_outer_bins [1; 1.0; 1]%Q [true; false; true] 10%nat
                  Hlen Hne Hn) Hall).
Defined.

End CalibrationBins.

(** ** The provider wrapper: rate limiter and batches *)

Section Limiter.
Import LLMWrapper.

Lemma recent_calls (now : Q) (l : list Q) :
  Forall (fun t => (now - t < 60)%Q) (List.filter (fun t => Py.Qltb (now - t) 60) l).
Proof.
  apply Forall_forall. intros t Ht. apply list_elem_of_In, filter_In in Ht as [_ Ht].
  apply Qltb_lt, Ht.
Qed.

(** X24: a limiter that allows at least one call per minute always
    returns. It sleeps exactly when the calls of the last 60 seconds have
    reached the limit, for a positive time, and then forgets them. In both
    cases it records this call last, keeps only calls of the last 60
    seconds, and holds at most [max_calls] of them. *)
Theorem rate_limiter_window (self : RateLimiter) (now : Q) :
  (1 ≤ max_calls self)%Z →
  ∃ slept self',
    wait_if_needed self now = Returned slept self'
    ∧ max_calls self' = max_calls self
    ∧ last (calls self') = Some now
    ∧ Forall (fun t => (now - t < 60)%Q) (calls self')
    ∧ (Z.of_nat (length (calls self')) ≤ max_calls self)%Z
    ∧ match slept with
      | Some sleep_time =>
          (max_calls self
           ≤ Z.of_nat (length (List.filter (fun t => Py.Qltb (now - t) 60) (calls self))))%Z
          ∧ (0 < sleep_time)%Q ∧ calls self' = [now]
      | None =>
          (Z.of_nat (length (List.filter (fun t => Py.Qltb (now - t) 60) (calls self)))
           < max_calls self)%Z
          ∧ calls self' = (List.filter (fun t => Py.Qltb (now - t) 60) (calls self)
                           ++ [now])%list
      end.
Proof.
  intros Hmax. unfold wait_if_needed. cbv zeta.
  pose proof (recent_calls now (calls self)) as Hrecent.
  assert (Hnow : (now - now < 60)%Q) by lra.
  destruct (Z.leb_spec (max_calls self)
              (Z.of_nat (length (List.filter (fun t => Py.Qltb (now - t) 60) (calls self)))))
    as [Hfull|Hfree].
  - destruct (List.filter _ (calls self)) as [|oldest rest] eqn:Er; [cbn in Hfull; lia|].
    assert (Hold : (now - oldest < 60)%Q) by (inversion Hrecent; assumption).
    assert (Hsleep : Py.Qltb 0 (60 - (now - oldest)) = true) by (apply Qltb_lt; lra).
    rewrite Hsleep. do 2 eexists. split; [reflexivity|]. cbn [max_calls calls app].
    split; [reflexivity|]. split; [reflexivity|].
    split; [constructor; [exact Hnow|constructor]|].
    split; [cbn [length]; lia|].
    split; [exact Hfull|]. split; [lra|reflexivity].
  - do 2 eexists. split; [reflexivity|]. cbn [max_calls calls].
    split; [reflexivity|]. split; [apply last_snoc|].
    split; [apply Forall_app; split; [exact Hrecent|constructor; [exact Hnow|constructor]]|].
    split; [rewrite length_app; cbn [length]; lia|].
    split; [exact Hfree|reflexivity].
Qed.

Lemma rate_limiter_window_witness :
  (1 ≤ max_calls {| max_calls := 2; calls := [10; 100; 130]%Q |})%Z
  ∧ ∃ slept self',
      wait_if_needed {| max_calls := 2; calls := [10; 100; 130]%Q |} 150 = Returned slept self'
      ∧ (∃ sleep_time, slept = Some sleep_time ∧ (sleep_time == 10)%Q)
      ∧ calls self' = [150%Q].
Proof.
  assert (Hmax : (1 ≤ max_calls {| max_calls := 2; calls := [10; 100; 130]%Q |})%Z)
    by (cbn; lia).
  split; [exact Hmax|].
  destruct (rate_limiter_window {| max_calls := 2; calls := [10; 100; 130]%Q |} 150 Hmax)
    as (slept & self' & Hw & _ & _ & _ & _ & Hs).
  exists slept, self'. split; [exact Hw|].
  vm_compute in Hw. injection Hw as <- <-. split; [|reflexivity].
  eexists. split; [reflexivity|reflexivity].
Defined.

(** X25: a limiter whose limit is not positive fails on a call that finds
    no call of the last 60 seconds, and so on its first call: it takes the
    window for full and reads the oldest call of an empty list. *)
Theorem rate_limiter_without_budget (self : RateLimiter) (now : Q) :
  (max_calls self ≤ 0)%Z →
  Forall (fun t => (60 <= now - t)%Q) (calls self) →
  wait_if_needed self now = IndexError.
Proof.
  intros Hmax Hold. unfold wait_if_needed. cbv zeta.
  assert (Hr : List.filter (fun t => Py.Qltb (now - t) 60) (calls self) = []).
  { induction Hold as [|t l Ht Hl IH]; [reflexivity|].
    cbn [List.filter]. rewrite (proj2 (Qltb_ge (now - t) 60) Ht). exact IH. }
  rewrite Hr. cbn [length]. destruct (Z.leb_spec (max_calls self) (Z.of_nat 0)); [reflexivity|lia].
Qed.

Lemma rate_limiter_without_budget_witness :
  (max_calls {| max_calls := 0; calls := [] |} ≤ 0)%Z
  ∧ Forall (fun t => (60 <= 1000 - t)%Q) (calls {| max_calls := 0; calls := [] |})
  ∧ wait_if_needed {| max_calls := 0; calls := [] |} 1000 = IndexError.
Proof.
  assert (Hmax : (max_calls {| max_calls := 0; calls := [] |} ≤ 0)%Z) by (cbn; lia).
  assert (Hold : Forall (fun t => (60 <= 1000 - t)%Q)
                        (calls {| max_calls := 0; calls := [] |})) by apply List.Forall_nil.
  split; [exact Hmax|]. split; [exact Hold|].
  exact (rate_limiter_without_budget {| max_calls := 0; calls := [] |} 1000 Hmax Hold).
Defined.

End Limiter.

Section Batches.
Import LLMWrapper.
Variable generate : nat → string → Py.result LLMResponse.

Lemma batch_loop_returns (provider : string) (prompts : list string) (i : nat)
    (responses : list LLMResponse) :
  batch_loop generate provider i prompts responses
  = Py.Ok (responses
           ++ imap (fun k prompt => match generate (i + k) prompt with
                                    | Py.Ok response => response
                                    | Py.Raise e => error_response provider e
                                    end) prompts)%list.
Proof.
  revert i responses. induction prompts as [|prompt rest IH]; intros i responses.
  - cbn [batch_loop imap]. rewrite app_nil_r. reflexivity.
  - cbn [batch_loop imap]. rewrite Nat.add_0_r.
    assert (Hext : imap ((fun k prompt => match generate (i + k) prompt with
                                          | Py.Ok response => response
                                          | Py.Raise e => error_response provider e
                                          end) ∘ S) rest
                   = imap (fun k prompt => match generate (S i + k) prompt with
                                           | Py.Ok response => response
                                           | Py.Raise e => error_response provider e
                                           end) rest).
    { apply imap_ext. intros k x _. cbn. rewrite Nat.add_succ_r. reflexivity. }
    rewrite Hext.
    destruct (generate i prompt) as [response|e]; cbn; rewrite IH, <- app_assoc; reflexivity.
Qed.

(** X26: when each call of [generate] returns or raises a subclass of
    [Exception], [batch_generate] returns one response per prompt, in order:
    the response of the call where it returned, and otherwise an empty
    response of the requested provider that carries the text of the
    exception.  (An exception outside [Exception] would pass through the
    [except Exception] of the loop; it is not an outcome of [Py.result].) *)
Theorem batch_generate_total (prompts : list string) (provider : string) :
  ∃ responses,
    batch_generate generate prompts provider = Py.Ok responses
    ∧ length responses = length prompts
    ∧ ∀ i prompt, prompts !! i = Some prompt →
        responses !! i
        = Some (match generate i prompt with
                | Py.Ok response => response
                | Py.Raise e =>
                    {| text := ""; model := ""; LLMWrapper.provider := provider;
                       tokens_used := 0; latency := 0;
                       metadata := [("error", Py.str_of e)] |}
                end).
Proof.
  unfold batch_generate. rewrite batch_loop_returns. cbn [app].
  eexists. split; [reflexivity|]. split; [apply length_imap|].
  intros i prompt Hi. rewrite list_lookup_imap, Hi. reflexivity.
Qed.

End Batches.

Lemma batch_generate_total_witness :
  ["first"; "second"] !! 1%nat = Some "second"
  ∧ ∃ responses,
      LLMWrapper.batch_generate
        (fun i prompt =>
           if (i =? 1)%nat then Py.Raise (Py.ProviderError "quota exceeded")
           else Py.Ok {| LLMWrapper.text := prompt; LLMWrapper.model := "m";
                         LLMWrapper.provider := "gemini"; LLMWrapper.tokens_used := 3;
                         LLMWrapper.latency := 0.5; LLMWrapper.metadata := [] |})
        ["first"; "second"] "gemini" = Py.Ok responses
      ∧ LLMWrapper.metadata <$> responses !! 1%nat = Some [("error", "quota exceeded")].
Proof.
  split; [reflexivity|].
  destruct (batch_generate_total
              (fun i prompt =>
                 if (i =? 1)%nat then Py.Raise (Py.ProviderError "quota exceeded")
                 else Py.Ok {| LLMWrapper.text := prompt; LLMWrapper.model := "m";
                               LLMWrapper.provider := "gemini"; LLMWrapper.tokens_used := 3;
                               LLMWrapper.latency := 0.5; LLMWrapper.metadata := [] |})
              ["first"; "second"] "gemini") as (responses & Hr & _ & Hi).
  exists responses. split; [exact Hr|].
  rewrite (Hi 1%nat "second" eq_refl). reflexivity.
Defined.
